(** * try-lang-graph: conversational agent graphs

    A shallow embedding of the three scripts of the repository:

    - [Langgraph]  : [src/langgraph.ts], an arithmetic agent with one tool
                     ([add]) and a hand-written tool node;
    - [Calculator] : the first script of [src/calculator.ts], the same agent
                     with two tools and the library's prebuilt tool node;
    - [Crop]       : the second script of [src/calculator.ts], the image-crop
                     agent with an approval loop.

    The language model, the prebuilt tool node and JSON printing of numbers
    are external; they enter the development as functions that the node
    functions receive.  Every call that leaves the program is recorded in a
    trace, so that "the node did not call the model" is a statement about the
    trace.  Console output is diagnostic only and is not modelled; neither
    are the reading of the sample image, the body of [cropImage] (image
    processing inside the prebuilt tool node) and the writing of the output
    file after the run. *)

From Stdlib Require Import ZArith String Floats.
From stdpp Require Import base option list strings gmap.

Open Scope string_scope.
Open Scope list_scope.

(** ** Messages ([@langchain/core/messages]) *)


(** A JSON value as it occurs in the arguments of a tool call.  A JS number
    is an IEEE 754 double. *)
Inductive JValue : Type :=
  | JNull
  | JBoolean (b : bool)
  | JNumber (f : float)
  | JString (s : string).

(** One part of a structured message content.  For a part with
    [type === "image_url"], [url] is [image_url?.url] when that is a string
    and [None] otherwise. *)
Inductive ContentPart : Type :=
  | TextPart (text : string)
  | ImageUrlPart (url : option string)
  | OtherPart (type : string).

(** [MessageContent = string | MessageContentComplex[]]. *)
Inductive MessageContent : Type :=
  | Str (s : string)
  | Parts (parts : list ContentPart).

Record ToolCall : Type := {
  call_name : string;
  call_args : gmap string JValue;
  call_id : string
}.

Record AIMessage : Type := {
  ai_content : MessageContent;
  tool_calls : option (list ToolCall)
}.

Record ToolMessage : Type := {
  tool_content : MessageContent;
  tool_call_id : string;
  tool_name : option string
}.

Inductive BaseMessage : Type :=
  | HumanMessage (content : MessageContent)
  | SystemMessage (content : MessageContent)
  | AIMsg (m : AIMessage)
  | ToolMsg (m : ToolMessage).

Definition isAIMessage (m : BaseMessage) : bool :=
  match m with AIMsg _ => true | _ => false end.

Definition content (m : BaseMessage) : MessageContent :=
  match m with
  | HumanMessage c | SystemMessage c => c
  | AIMsg a => ai_content a
  | ToolMsg t => tool_content t
  end.

(** [m.tool_calls]: only an assistant message has the property. *)
Definition message_tool_calls (m : BaseMessage) : option (list ToolCall) :=
  match m with
  | AIMsg a => tool_calls a
  | _ => None
  end.

(** Truthiness of [v?.length]: the array is there and is not empty. *)
Definition has_length {A : Type} (v : option (list A)) : bool :=
  match v with
  | Some (_ :: _) => true
  | _ => false
  end.

(** The tool messages of a log, and how many of a list of correlation ids
    are [id]. *)
Definition tool_results (log : list BaseMessage) : list ToolMessage :=
  omap (fun m => match m with ToolMsg t => Some t | _ => None end) log.

Definition count_id (id : string) (ids : list string) : nat :=
  length (List.filter (String.eqb id) ids).

(** [Array.prototype.at]: a negative index counts from the end, an index
    outside the array gives [undefined]. *)
Definition Array_at {A : Type} (l : list A) (i : Z) : option A :=
  let len := Z.of_nat (length l) in
  let k := if (0 <=? i)%Z then i else (len + i)%Z in
  if ((k <? 0) || (len <=? k))%Z then None else l !! Z.to_nat k.

(** [left.concat(right)] on two arrays. *)
Definition Array_concat {A : Type} (left right : list A) : list A :=
  left ++ right.

(** JS truthiness of a [string | null]: [null] and the empty string are
    falsy. *)
Definition truthy (v : option string) : bool :=
  match v with
  | None => false
  | Some s => negb (String.eqb s "")
  end.

(** [v?.length] read as a number, with 0 for an absent value. *)
Definition length_of (v : option string) : nat :=
  match v with
  | None => 0
  | Some s => String.length s
  end.

Definition newline : string := String (Ascii.ascii_of_nat 10) EmptyString.
Definition dquote : string := String (Ascii.ascii_of_nat 34) EmptyString.

(** A value interpolated in a template string: [null] prints as "null". *)
Definition interpolate (v : option string) : string :=
  match v with
  | None => "null"
  | Some s => s
  end.

(** ** Effects *)

(** The name of a thrown error. *)
Definition Error : Type := string.

Inductive Result (A : Type) : Type :=
  | Ok (a : A)
  | Throw (e : Error).
Arguments Ok {A} a.
Arguments Throw {A} e.

(** A call that leaves the program: to the chat model bound to the tools, to
    the model with structured output, to one tool, or to the library's
    prebuilt tool node, which receives the whole state. *)
Inductive Call (State : Type) : Type :=
  | ModelInvoke (input : list BaseMessage)
  | StructuredInvoke (input : list BaseMessage)
  | ToolInvoke (tool : string) (input : ToolCall)
  | ToolNodeInvoke (state : State).
Arguments ModelInvoke {State} input.
Arguments StructuredInvoke {State} input.
Arguments ToolInvoke {State} tool input.
Arguments ToolNodeInvoke {State} state.

(** A computation reads the calls made so far, may add calls at the end, and
    returns a value or throws. *)
Section Effects.
Context {Call : Type}.

Definition M (A : Type) : Type := list Call -> Result A * list Call.

Definition ret {A : Type} (a : A) : M A := fun w => (Ok a, w).

Definition throw {A : Type} (e : Error) : M A := fun w => (Throw e, w).

Definition bind {A B : Type} (m : M A) (k : A -> M B) : M B :=
  fun w =>
    match m w with
    | (Ok a, w') => k a w'
    | (Throw e, w') => (Throw e, w')
    end.

(** An external call: the answer is a function of the calls made before
    and of the request, and the call is appended to the trace. *)
Definition external {A : Type} (c : Call) (answer : list Call -> Result A) : M A :=
  fun w => (answer w, w ++ [c]).
End Effects.

Arguments M Call A : clear implicits.

Notation "'let*' x ':=' c 'in' k" := (bind c (fun x => k))
  (at level 10, x pattern, c at level 100, k at level 200).

(** ** The graph executor ([@langchain/langgraph]) *)

Definition START : string := "__start__".
Definition END : string := "__end__".

Section Graph.
Context {Call State Update : Type}.

(** A graph under construction: named nodes, static edges, routers, and
    the rule that merges a node's update into the state. *)
Record StateGraph : Type := {
  reduce : State -> Update -> State;
  nodes : gmap string (State -> M Call Update);
  edges : gmap string string;
  branches : gmap string (State -> string)
}.

Definition newStateGraph (r : State -> Update -> State) : StateGraph :=
  {| reduce := r; nodes := ∅; edges := ∅; branches := ∅ |}.

Definition addNode (name : string) (f : State -> M Call Update) (g : StateGraph) : StateGraph :=
  {| reduce := reduce g; nodes := <[name := f]> (nodes g);
     edges := edges g; branches := branches g |}.

Definition addEdge (from to : string) (g : StateGraph) : StateGraph :=
  {| reduce := reduce g; nodes := nodes g;
     edges := <[from := to]> (edges g); branches := branches g |}.

Definition addConditionalEdges (from : string) (router : State -> string) (g : StateGraph) : StateGraph :=
  {| reduce := reduce g; nodes := nodes g;
     edges := edges g; branches := <[from := router]> (branches g) |}.

(** The node that follows [cur] once its update is merged: the router of
    [cur] if it has one, else its static edge, else the end. *)
Definition next (g : StateGraph) (cur : string) (s : State) : string :=
  match branches g !! cur with
  | Some router => router s
  | None => default END (edges g !! cur)
  end.

(** One step: run the current node, merge its update, find the next node.
    A name that is no node of the graph stops the run with an error. *)
Definition step (g : StateGraph) (cur : string) (s : State) : M Call (string * State) :=
  match nodes g !! cur with
  | None => throw "Error"
  | Some node =>
      let* u := node s in
      let s' := reduce g s u in
      ret (next g cur s', s')
  end.

(** [agent.invoke]: steps from the node [cur] until the end is reached; the
    library stops a run that exceeds its recursion limit. *)
Fixpoint run (g : StateGraph) (limit : nat) (cur : string) (s : State) : M Call State :=
  if String.eqb cur END then ret s
  else
    match limit with
    | O => throw "GraphRecursionError"
    | S limit' =>
        let* c := step g cur s in
        run g limit' (fst c) (snd c)
    end.

Definition invoke (g : StateGraph) (limit : nat) (input : State) : M Call State :=
  run g limit (default END (edges g !! START)) input.

(** The first [n] steps from a configuration, without the end test. *)
Fixpoint steps (g : StateGraph) (n : nat) (cur : string) (s : State) : M Call (string * State) :=
  match n with
  | O => ret (cur, s)
  | S n' =>
      let* c := step g cur s in
      steps g n' (fst c) (snd c)
  end.

(** The configurations of the runs from [input]: the node about to run,
    the state, and the calls made so far. *)
Inductive reachable (g : StateGraph) (input : State) : string -> State -> list Call -> Prop :=
  | reachable_start :
      reachable g input (default END (edges g !! START)) input []
  | reachable_step cur s w nxt s' w' :
      reachable g input cur s w ->
      step g cur s w = (Ok (nxt, s'), w') ->
      reachable g input nxt s' w'.
End Graph.

Arguments StateGraph Call State Update : clear implicits.

(** ** Tools ([@langchain/core/tools], [zod]) *)

(** A tool made by [tool(func, {name, description, schema})]: [schema]
    parses the arguments of a call into the input of [func], or rejects
    them. *)
Record StructuredTool : Type := {
  Input : Type;
  name : string;
  description : string;
  schema : gmap string JValue -> option Input;
  func : Input -> float
}.

(** [z.number()] accepts a number that is not NaN. *)
Definition z_number (v : option JValue) : option float :=
  match v with
  | Some (JNumber f) => if PrimFloat.is_nan f then None else Some f
  | _ => None
  end.

Section Tools.
Context {State : Type}.

(** How the library prints a tool's numeric output into the content of the
    tool message. *)
Variable JSON_stringify : float -> string.

(** [tool.invoke(toolCall)]: the arguments are parsed with the schema; a
    rejected input throws, an accepted one is given to [func], and the
    output comes back as a tool message that carries the id of the call. *)
Definition tool_invoke (t : StructuredTool) (toolCall : ToolCall) : M (Call State) ToolMessage :=
  external (ToolInvoke (name t) toolCall) (fun _ =>
    match schema t (call_args toolCall) with
    | None => Throw "ToolInputParsingException"
    | Some input =>
        Ok {| tool_content := Str (JSON_stringify (func t input));
              tool_call_id := call_id toolCall;
              tool_name := Some (name t) |}
    end).
End Tools.

(** ** [src/langgraph.ts] *)

Module Langgraph.

Definition add : StructuredTool := {|
  Input := float * float;
  name := "add";
  description := "Add numbers";
  schema := fun args =>
    match z_number (args !! "a"), z_number (args !! "b") with
    | Some a, Some b => Some (a, b)
    | _, _ => None
    end;
  func := fun '(a, b) => (a + b)%float
|}.

Definition toolsByName : gmap string StructuredTool :=
  {[ name add := add ]}.

Record State : Type := { messages : list BaseMessage }.

(** [MessagesState]: the reducer of the only field. *)
Definition messages_reducer (left right : list BaseMessage) : list BaseMessage :=
  Array_concat left right.

(** A node returns an object with the same single field; merging applies
    the field's reducer. *)
Definition Update : Type := State.

Definition MessagesState (s : State) (u : Update) : State :=
  {| messages := messages_reducer (messages s) (messages u) |}.

Section Nodes.
Variable chatModel : list (Call State) -> list BaseMessage -> Result AIMessage.
Variable JSON_stringify : float -> string.

Definition modelWithTools_invoke (input : list BaseMessage) : M (Call State) AIMessage :=
  external (ModelInvoke input) (fun w => chatModel w input).

Definition llmNode (state : State) : M (Call State) Update :=
  let* response := modelWithTools_invoke
    (SystemMessage (Str "You are a helpful assistant tasked with performing arithmetic on a set of inputs.")
       :: messages state) in
  ret {| messages := [AIMsg response] |}.

(** The loop of [toolNode]: [result] holds the observations pushed so
    far.  A name that is not a tool of [toolsByName] makes
    [tool.invoke] a call on something that is not a function. *)
Fixpoint toolNode_loop (calls : list ToolCall) (result : list ToolMessage)
  : M (Call State) (list ToolMessage) :=
  match calls with
  | [] => ret result
  | toolCall :: rest =>
      match toolsByName !! call_name toolCall with
      | None => throw "TypeError"
      | Some tool =>
          let* observation := tool_invoke JSON_stringify tool toolCall in
          toolNode_loop rest (result ++ [observation])
      end
  end.

Definition toolNode (state : State) : M (Call State) Update :=
  match Array_at (messages state) (-1) with
  | None => ret {| messages := [] |}
  | Some lastMessage =>
      if negb (isAIMessage lastMessage) then ret {| messages := [] |}
      else
        let* result := toolNode_loop (default [] (message_tool_calls lastMessage)) [] in
        ret {| messages := ToolMsg <$> result |}
  end.

Definition shouldContinue (state : State) : string :=
  match Array_at (messages state) (-1) with
  | None => END
  | Some lastMessage =>
      if negb (isAIMessage lastMessage) then END
      else if has_length (message_tool_calls lastMessage) then "toolNode"
      else END
  end.

Definition agent : StateGraph (Call State) State Update :=
  addEdge "toolNode" "llmCall"
    (addConditionalEdges "llmCall" shouldContinue
      (addEdge START "llmCall"
        (addNode "toolNode" toolNode
          (addNode "llmCall" llmNode
            (newStateGraph MessagesState))))).
End Nodes.

(** The tool-call requests that [toolNode] serves: those of the latest
    message of the log. *)
Definition requests (state : State) : list ToolCall :=
  match last (messages state) with
  | Some lastMessage => default [] (message_tool_calls lastMessage)
  | None => []
  end.

(** A request that can be served: it names a tool of the registry and its
    arguments pass the schema of that tool. *)
Definition servable (toolCall : ToolCall) : Prop :=
  exists tool, toolsByName !! call_name toolCall = Some tool
               /\ is_Some (schema tool (call_args toolCall)).

(** [observation] is the tool message for [toolCall]: the printed output
    of the named tool on the parsed arguments, under the id of the call. *)
Definition answers (JSON_stringify : float -> string)
    (toolCall : ToolCall) (observation : ToolMessage) : Prop :=
  exists tool input,
    toolsByName !! call_name toolCall = Some tool
    /\ schema tool (call_args toolCall) = Some input
    /\ observation = {| tool_content := Str (JSON_stringify (func tool input));
                        tool_call_id := call_id toolCall;
                        tool_name := Some (name tool) |}.

(** The tool invocations that serving [calls] adds to the trace. *)
Definition invocations (calls : list ToolCall) : list (Call State) :=
  map (fun toolCall => ToolInvoke (call_name toolCall) toolCall) calls.

End Langgraph.

(** ** [src/calculator.ts], first script *)

Module Calculator.

Definition add : StructuredTool := {|
  Input := float * float;
  name := "add";
  description := "Add numbers";
  schema := fun args =>
    match z_number (args !! "a"), z_number (args !! "b") with
    | Some a, Some b => Some (a, b)
    | _, _ => None
    end;
  func := fun '(a, b) => (a + b)%float
|}.

Definition sqrt : StructuredTool := {|
  Input := float;
  name := "sqrt";
  description := "Extract the square root of a number";
  schema := fun args => z_number (args !! "value");
  func := fun value => PrimFloat.sqrt value
|}.

Definition tools : list StructuredTool := [add; sqrt].

Record State : Type := { messages : list BaseMessage }.

Definition messages_reducer (left right : list BaseMessage) : list BaseMessage :=
  Array_concat left right.

Definition Update : Type := State.

Definition MessagesState (s : State) (u : Update) : State :=
  {| messages := messages_reducer (messages s) (messages u) |}.

Section Nodes.
Variable chatModel : list (Call State) -> list BaseMessage -> Result AIMessage.
(** [new ToolNode(tools)] of the library. *)
Variable prebuiltToolNode :
  list StructuredTool -> list (Call State) -> State -> Result (list BaseMessage).

Definition modelWithTools_invoke (input : list BaseMessage) : M (Call State) AIMessage :=
  external (ModelInvoke input) (fun w => chatModel w input).

Definition llmNode (state : State) : M (Call State) Update :=
  let* response := modelWithTools_invoke
    (SystemMessage (Str "You are a helpful assistant tasked with performing arithmetic on a set of inputs.")
       :: messages state) in
  ret {| messages := [AIMsg response] |}.

Definition toolNode (state : State) : M (Call State) Update :=
  let* result := external (ToolNodeInvoke state) (fun w => prebuiltToolNode tools w state) in
  ret {| messages := result |}.

Definition shouldContinue (state : State) : string :=
  match Array_at (messages state) (-1) with
  | None => END
  | Some lastMessage =>
      if negb (isAIMessage lastMessage) then END
      else if has_length (message_tool_calls lastMessage) then "toolNode"
      else END
  end.

Definition agent : StateGraph (Call State) State Update :=
  addEdge "toolNode" "llmCall"
    (addConditionalEdges "llmCall" shouldContinue
      (addEdge START "llmCall"
        (addNode "toolNode" toolNode
          (addNode "llmCall" llmNode
            (newStateGraph MessagesState))))).
End Nodes.

End Calculator.

(** ** [src/calculator.ts], second script: image crop with approval *)

Module Crop.

Record Approval : Type := {
  status : string;
  feedback : option string
}.

Definition pending : Approval := {| status := "pending"; feedback := None |}.

Record State : Type := {
  messages : list BaseMessage;
  sourceImageDataUri : option string;
  croppedImageDataUri : option string;
  approval : Approval
}.

(** The object a node returns.  A field is [None] when the object has no
    such key; the value under a key may itself be nullish. *)
Record Update : Type := {
  upd_messages : option (list BaseMessage);
  upd_sourceImageDataUri : option (option string);
  upd_croppedImageDataUri : option (option string);
  upd_approval : option (option Approval)
}.

(** The reducers and defaults of [MessagesState]. *)
Definition messages_reducer (left right : list BaseMessage) : list BaseMessage :=
  Array_concat left right.

Definition sourceImageDataUri_reducer (_ right : option string) : option string :=
  match right with Some v => Some v | None => None end.

Definition croppedImageDataUri_reducer (_ right : option string) : option string :=
  match right with Some v => Some v | None => None end.

Definition approval_reducer (_ : Approval) (right : option Approval) : Approval :=
  match right with Some v => v | None => {| status := "pending"; feedback := None |} end.

(** Merging an update: the reducer of a field runs when the update has the
    key, and the field keeps its value otherwise. *)
Definition MessagesState (s : State) (u : Update) : State := {|
  messages :=
    match upd_messages u with
    | Some v => messages_reducer (messages s) v
    | None => messages s
    end;
  sourceImageDataUri :=
    match upd_sourceImageDataUri u with
    | Some v => sourceImageDataUri_reducer (sourceImageDataUri s) v
    | None => sourceImageDataUri s
    end;
  croppedImageDataUri :=
    match upd_croppedImageDataUri u with
    | Some v => croppedImageDataUri_reducer (croppedImageDataUri s) v
    | None => croppedImageDataUri s
    end;
  approval :=
    match upd_approval u with
    | Some v => approval_reducer (approval s) v
    | None => approval s
    end
|}.

(** The state [agent.invoke({ messages })] starts from: the other fields
    take their defaults. *)
Definition initialState (input : list BaseMessage) : State := {|
  messages := input;
  sourceImageDataUri := None;
  croppedImageDataUri := None;
  approval := {| status := "pending"; feedback := None |}
|}.

(** The object the model returns under [ApprovalSchema]. *)
Module ApprovalSchema.
Record t : Type := { approved : bool; feedback : string }.
End ApprovalSchema.

(** The inner loop of [llmNode] over the parts of one message. *)
Fixpoint scan_parts (parts : list ContentPart) (newSourceImageDataUri : option string)
  : option string :=
  match parts with
  | [] => newSourceImageDataUri
  | part :: rest =>
      scan_parts rest
        match part with
        | ImageUrlPart (Some imageUrl) =>
            if negb (String.eqb imageUrl "") then
              if negb (truthy newSourceImageDataUri)
                 || (length_of newSourceImageDataUri <? String.length imageUrl)%nat
              then Some imageUrl
              else newSourceImageDataUri
            else newSourceImageDataUri
        | _ => newSourceImageDataUri
        end
  end.

(** The outer loop of [llmNode] over the messages. *)
Fixpoint scan_messages (msgs : list BaseMessage) (newSourceImageDataUri : option string)
  : option string :=
  match msgs with
  | [] => newSourceImageDataUri
  | msg :: rest =>
      scan_messages rest
        match content msg with
        | Parts parts => scan_parts parts newSourceImageDataUri
        | Str _ => newSourceImageDataUri
        end
  end.

(** The image URLs that the scan of [llmNode] considers: the non-empty
    [image_url] strings of the structured contents, in log order. *)
Definition part_image_url (part : ContentPart) : option string :=
  match part with
  | ImageUrlPart (Some imageUrl) => if String.eqb imageUrl "" then None else Some imageUrl
  | _ => None
  end.

Definition message_image_urls (msg : BaseMessage) : list string :=
  match content msg with
  | Parts parts => omap part_image_url parts
  | Str _ => []
  end.

Definition log_image_urls (log : list BaseMessage) : list string :=
  flat_map message_image_urls log.

(** The image URLs of every log the model-call node has read so far: each
    call to the chat model carries the log of that moment. *)
Definition seen_image_urls (w : list (Call State)) : list string :=
  flat_map (fun c => match c with
                     | ModelInvoke input => log_image_urls input
                     | _ => []
                     end) w.

(** [v] is a longest of [urls]; it is absent only when there is none. *)
Definition longest_of (v : option string) (urls : list string) : Prop :=
  match v with
  | None => urls = []
  | Some u => u ∈ urls /\ Forall (fun url => String.length url <= String.length u) urls
  end.

Definition systemPrompt (state : State) : string :=
  "You are a helpful assistant that can analyze images and crop them based on user requests. " +:+
  "Follow this workflow:" +:+ newline +:+
  "1. Analyze the original image to understand its content and dimensions" +:+ newline +:+
  "2. Determine the appropriate crop area (x, y, width, height) based on the user's requirements" +:+ newline +:+
  "3. Use the cropImage tool to perform the crop - you only need to provide the cropArea coordinates" +:+
  (if truthy (feedback (approval state)) then
     newline +:+ newline +:+
     "IMPORTANT: Previous crop attempt was rejected with this feedback:" +:+ newline +:+
     dquote +:+ interpolate (feedback (approval state)) +:+ dquote +:+ newline +:+
     "Please adjust your crop parameters accordingly."
   else "").

Definition approvalPrompt : string :=
  "You are an image crop quality validator. Your job is to compare the original image with the cropped result and determine if the crop is appropriate and high quality." +:+ newline +:+
  newline +:+
  "Evaluate the crop based on:" +:+ newline +:+
  "- Is the subject/main content properly framed and not cut off?" +:+ newline +:+
  "- Does the crop maintain good composition?" +:+ newline +:+
  "- Is the aspect ratio reasonable and intentional?" +:+ newline +:+
  "- Are important elements preserved in the crop?" +:+ newline +:+
  newline +:+
  "If approved is true, provide a brief confirmation in feedback." +:+ newline +:+
  "If approved is false, provide specific feedback about what's wrong (e.g., " +:+
  dquote +:+ "The product is partially cut off on the right side" +:+ dquote +:+
  " or " +:+
  dquote +:+ "The crop removes important context from the top of the image" +:+ dquote +:+
  ").".

(** The loop of [toolNode] over the tool results, left at the first
    string content that is an image data URI. *)
Fixpoint first_image (msgs : list BaseMessage) (newCroppedImageDataUri : option string)
  : option string :=
  match msgs with
  | [] => newCroppedImageDataUri
  | msg :: rest =>
      match content msg with
      | Str c =>
          if String.prefix "data:image/" c then Some c
          else first_image rest newCroppedImageDataUri
      | Parts _ => first_image rest newCroppedImageDataUri
      end
  end.

Section Nodes.
Variable chatModel : list (Call State) -> list BaseMessage -> Result AIMessage.
Variable structuredModel : list (Call State) -> list BaseMessage -> Result ApprovalSchema.t.
(** [new ToolNode(tools)] of the library, with [tools = [cropImage]];
    the tool reads the source image from the state it is given. *)
Variable prebuiltToolNode : list (Call State) -> State -> Result (list BaseMessage).

Definition modelWithTools_invoke (input : list BaseMessage) : M (Call State) AIMessage :=
  external (ModelInvoke input) (fun w => chatModel w input).

Definition modelWithStructuredOutput_invoke (input : list BaseMessage)
  : M (Call State) ApprovalSchema.t :=
  external (StructuredInvoke input) (fun w => structuredModel w input).

Definition llmNode (state : State) : M (Call State) Update :=
  let newSourceImageDataUri := scan_messages (messages state) (sourceImageDataUri state) in
  let* response := modelWithTools_invoke
    (SystemMessage (Str (systemPrompt state)) :: messages state) in
  ret {| upd_messages := Some [AIMsg response];
         upd_sourceImageDataUri := Some newSourceImageDataUri;
         upd_croppedImageDataUri := None;
         upd_approval := Some (Some {| status := "pending"; feedback := None |}) |}.

Definition approverNode (state : State) : M (Call State) Update :=
  if negb (truthy (croppedImageDataUri state)) || negb (truthy (sourceImageDataUri state)) then
    ret {| upd_messages := None;
           upd_sourceImageDataUri := None;
           upd_croppedImageDataUri := None;
           upd_approval := Some (Some {| status := "rejected";
                                         feedback := Some "No cropped image was produced" |}) |}
  else
    let* response := modelWithStructuredOutput_invoke
      [HumanMessage (Parts [
         TextPart approvalPrompt;
         TextPart "Original image:";
         ImageUrlPart (sourceImageDataUri state);
         TextPart "Cropped image:";
         ImageUrlPart (croppedImageDataUri state)])] in
    ret {| upd_messages := None;
           upd_sourceImageDataUri := None;
           upd_croppedImageDataUri := None;
           upd_approval := Some (Some {|
             status := if ApprovalSchema.approved response then "approved" else "rejected";
             feedback := Some (ApprovalSchema.feedback response) |}) |}.

Definition toolNode (state : State) : M (Call State) Update :=
  let* toolResult := external (ToolNodeInvoke state) (fun w => prebuiltToolNode w state) in
  let newCroppedImageDataUri := first_image toolResult (croppedImageDataUri state) in
  ret {| upd_messages := Some toolResult;
         upd_sourceImageDataUri := None;
         upd_croppedImageDataUri := Some newCroppedImageDataUri;
         upd_approval := None |}.

Definition routeAfterLLM (state : State) : string :=
  match Array_at (messages state) (-1) with
  | None => END
  | Some lastMessage =>
      if negb (isAIMessage lastMessage) then END
      else if has_length (message_tool_calls lastMessage) then "toolNode"
      else "approver"
  end.

Definition addRejectionFeedback (state : State) : M (Call State) Update :=
  ret {| upd_messages := Some [
           HumanMessage (Str (
             "The crop was rejected. Feedback: " +:+ interpolate (feedback (approval state)) +:+
             newline +:+ newline +:+
             "Please try again with adjusted crop parameters."))];
         upd_sourceImageDataUri := None;
         upd_croppedImageDataUri := None;
         upd_approval := None |}.

Definition routeAfterApprover (state : State) : string :=
  if String.eqb (status (approval state)) "approved" then END
  else if String.eqb (status (approval state)) "rejected" then "addRejectionFeedback"
  else END.

Definition agent : StateGraph (Call State) State Update :=
  addEdge "addRejectionFeedback" "llmCall"
    (addConditionalEdges "approver" routeAfterApprover
      (addEdge "toolNode" "approver"
        (addConditionalEdges "llmCall" routeAfterLLM
          (addEdge START "llmCall"
            (addNode "addRejectionFeedback" addRejectionFeedback
              (addNode "approver" approverNode
                (addNode "toolNode" toolNode
                  (addNode "llmCall" llmNode
                    (newStateGraph MessagesState))))))))).
End Nodes.

End Crop.

(** ** A sample run of the crop agent *)

Module CropSample.

Definition image : string := "data:image/webp;base64,UklGRiQAAABXRUJQ".
Definition cropped : string := "data:image/webp;base64,UklGRg==".

Definition input : list BaseMessage :=
  [HumanMessage (Parts [
     TextPart "This is a product image. Crop it to a 9:16 ratio so that the product is not cropped. ";
     ImageUrlPart (Some image)])].

Definition request : ToolCall :=
  {| call_name := "cropImage"; call_args := ∅; call_id := "call_1" |}.

(** The model asks for a crop on its first call and answers in plain text
    afterwards. *)
Definition chatModel (w : list (Call Crop.State)) (_ : list BaseMessage) : Result AIMessage :=
  match w with
  | [] => Ok {| ai_content := Str ""; tool_calls := Some [request] |}
  | _ => Ok {| ai_content := Str "Here is the cropped image."; tool_calls := None |}
  end.

(** The evaluation accepts every crop. *)
Definition structuredModel (_ : list (Call Crop.State)) (_ : list BaseMessage)
  : Result Crop.ApprovalSchema.t :=
  Ok {| Crop.ApprovalSchema.approved := true;
        Crop.ApprovalSchema.feedback := "The product is fully visible." |}.

Definition prebuiltToolNode (_ : list (Call Crop.State)) (_ : Crop.State)
  : Result (list BaseMessage) :=
  Ok [ToolMsg {| tool_content := Str cropped; tool_call_id := "call_1";
                 tool_name := Some "cropImage" |}].

Definition agent : StateGraph (Call Crop.State) Crop.State Crop.Update :=
  Crop.agent chatModel structuredModel prebuiltToolNode.

(** A second pair of models: the chat model asks for a crop on every call,
    and the evaluation rejects every crop. *)
Definition insistentModel (_ : list (Call Crop.State)) (_ : list BaseMessage) : Result AIMessage :=
  Ok {| ai_content := Str ""; tool_calls := Some [request] |}.

Definition strictModel (_ : list (Call Crop.State)) (_ : list BaseMessage)
  : Result Crop.ApprovalSchema.t :=
  Ok {| Crop.ApprovalSchema.approved := false;
        Crop.ApprovalSchema.feedback := "subject cut off" |}.

Definition retrying : StateGraph (Call Crop.State) Crop.State Crop.Update :=
  Crop.agent insistentModel strictModel prebuiltToolNode.

End CropSample.

(** ** Sample runs of the arithmetic agent *)

Module ArithSample.

Definition JSON_stringify (_ : float) : string := "7".

Definition input : Langgraph.State :=
  {| Langgraph.messages := [HumanMessage (Str "Add 3 and 4.")] |}.

Definition add_3_4 (id : string) : ToolCall :=
  {| call_name := "add";
     call_args := {[ "a" := JNumber 3%float; "b" := JNumber 4%float ]};
     call_id := id |}.

(** A request for a tool that the registry does not have. *)
Definition multiply_3_4 : ToolCall :=
  {| call_name := "multiply";
     call_args := {[ "a" := JNumber 3%float; "b" := JNumber 4%float ]};
     call_id := "call_1" |}.

(** The model asks for [calls] on its first call and answers in plain text
    afterwards. *)
Definition chatModel (calls : list ToolCall)
    (w : list (Call Langgraph.State)) (_ : list BaseMessage) : Result AIMessage :=
  match w with
  | [] => Ok {| ai_content := Str ""; tool_calls := Some calls |}
  | _ => Ok {| ai_content := Str "The sum of 3 and 4 is 7."; tool_calls := None |}
  end.

Definition agent (calls : list ToolCall)
  : StateGraph (Call Langgraph.State) Langgraph.State Langgraph.Update :=
  Langgraph.agent (chatModel calls) JSON_stringify.

End ArithSample.

(** ** Image helpers, the crop tool and the end of the crop script *)

Module CropIO.

(** [s.split(",")] for a one-character separator: the pieces between the
    occurrences of the separator, in order; a string without the separator is
    its own only piece. *)
Fixpoint String_split (sep : Ascii.ascii) (s : string) : list string :=
  match s with
  | EmptyString => [EmptyString]
  | String c rest =>
      if Ascii.eqb c sep then EmptyString :: String_split sep rest
      else
        match String_split sep rest with
        | piece :: pieces => String c piece :: pieces
        | [] => [String c EmptyString]
        end
  end.

Definition comma : Ascii.ascii := Ascii.ascii_of_nat 44.

(** [uri.split(",")[1]]: absent when the string has no comma. *)
Definition base64Data (uri : string) : option string :=
  String_split comma uri !! 1%nat.

(** The template [`data:image/${format};base64,${base64}`] of [getImageData]
    and of [cropImage]. *)
Definition data_uri (format base64 : string) : string :=
  "data:image/" +:+ format +:+ ";base64," +:+ base64.

(** A value interpolated in a template string: [undefined] prints as
    "undefined". *)
Definition interpolate_undefined (v : option string) : string :=
  match v with
  | None => "undefined"
  | Some s => s
  end.

(** The arguments of [cropImage] once its schema has accepted them. *)
Record CropArea : Type := {
  x : Z;
  y : Z;
  width : Z;
  height : Z
}.

Section Images.
(** Buffers, the file system and the image library are external. *)
Context {Buffer : Type}.
Variable readFileSync : string -> Result Buffer.
Variable sharp_metadata_format : Buffer -> Result (option string).
Variable sharp_extract : Buffer -> CropArea -> Result Buffer.
Variable Buffer_from_base64 : string -> Buffer.
Variable Buffer_toString_base64 : Buffer -> string.

Definition getImageFormat (buffer : Buffer) : Result (option string) :=
  sharp_metadata_format buffer.

Definition getImageData (filename : string) : Result string :=
  match readFileSync filename with
  | Throw e => Throw e
  | Ok buffer =>
      match getImageFormat buffer with
      | Throw e => Throw e
      | Ok format =>
          Ok (data_uri (interpolate_undefined format) (Buffer_toString_base64 buffer))
      end
  end.

(** The function of the [cropImage] tool: [configurable] is the state the
    tool node passes in its config.  [Buffer.from] throws a [TypeError] on an
    absent first argument. *)
Definition cropImage (cropArea : CropArea) (configurable : option Crop.State) : Result string :=
  let sourceImageDataUri :=
    match configurable with
    | Some state => Crop.sourceImageDataUri state
    | None => None
    end in
  match sourceImageDataUri with
  | None => Throw "Error"
  | Some source =>
      if String.eqb source "" then Throw "Error"
      else
        match base64Data source with
        | None => Throw "TypeError"
        | Some base64 =>
            let buffer := Buffer_from_base64 base64 in
            match getImageFormat buffer with
            | Throw e => Throw e
            | Ok format =>
                match sharp_extract buffer cropArea with
                | Throw e => Throw e
                | Ok croppedBuffer =>
                    Ok (data_uri (interpolate_undefined format)
                          (Buffer_toString_base64 croppedBuffer))
                end
            end
        end
  end.
End Images.

(** What the script does with the result of the run: it writes the decoded
    payload of the cropped image when there is one and the crop is approved,
    reports a rejection when the status is rejected, and does neither
    otherwise. *)
Inductive FinalAction : Type :=
  | WriteFile (payload : string)
  | ReportRejected
  | NoAction.

Definition finalAction (result : Crop.State) : Result FinalAction :=
  if truthy (Crop.croppedImageDataUri result)
     && String.eqb (Crop.status (Crop.approval result)) "approved"
  then
    match base64Data (default EmptyString (Crop.croppedImageDataUri result)) with
    | Some payload => Ok (WriteFile payload)
    | None => Throw "TypeError"
    end
  else if String.eqb (Crop.status (Crop.approval result)) "rejected" then Ok ReportRejected
  else Ok NoAction.

End CropIO.

(** ** Vocabulary for the properties of runs *)

(** A message whose content is a string that starts like an image data URI:
    what the tool node of the crop agent looks for. *)
Definition is_image_result (msg : BaseMessage) : bool :=
  match content msg with
  | Str c => String.prefix "data:image/" c
  | Parts _ => false
  end.

(** The correlation ids of the tool-call requests in a log, and of its tool
    results, in log order. *)
Definition request_ids (log : list BaseMessage) : list string :=
  call_id <$> flat_map (fun m => default [] (message_tool_calls m)) log.

Definition result_ids (log : list BaseMessage) : list string :=
  tool_call_id <$> tool_results log.

(** The latest message is an assistant message with at least one tool
    call. *)
Definition asks_for_tools (log : list BaseMessage) : Prop :=
  exists ai c cs, last log = Some (AIMsg ai) /\ tool_calls ai = Some (c :: cs).

(** The latest message is an assistant message without a tool call. *)
Definition plain_answer (log : list BaseMessage) : Prop :=
  exists ai, last log = Some (AIMsg ai) /\ has_length (tool_calls ai) = false.

(** The system message of the two arithmetic agents. *)
Definition arithmetic_prompt : BaseMessage :=
  SystemMessage (Str "You are a helpful assistant tasked with performing arithmetic on a set of inputs.").

(** The request the evaluation node sends to the model: the rubric, then
    the source image, then the cropped image. *)
Definition approval_request (state : Crop.State) : list BaseMessage :=
  [HumanMessage (Parts [
     TextPart Crop.approvalPrompt;
     TextPart "Original image:";
     ImageUrlPart (Crop.sourceImageDataUri state);
     TextPart "Cropped image:";
     ImageUrlPart (Crop.croppedImageDataUri state)])].

(** The update by which the evaluation node sets the approval record. *)
Definition approval_update (a : Crop.Approval) : Crop.Update :=
  {| Crop.upd_messages := None;
     Crop.upd_sourceImageDataUri := None;
     Crop.upd_croppedImageDataUri := None;
     Crop.upd_approval := Some (Some a) |}.

(** The two verdicts of the evaluation node: the fixed one when an image is
    missing, and the one read off the model's response. *)
Definition no_crop_verdict : Crop.Approval :=
  {| Crop.status := "rejected"; Crop.feedback := Some "No cropped image was produced" |}.

Definition verdict (response : Crop.ApprovalSchema.t) : Crop.Approval :=
  {| Crop.status := if Crop.ApprovalSchema.approved response then "approved" else "rejected";
     Crop.feedback := Some (Crop.ApprovalSchema.feedback response) |}.

(** The four nodes of the crop agent. *)
Definition in_loop (cur : string) : Prop :=
  cur = "llmCall" \/ cur = "toolNode" \/ cur = "approver" \/ cur = "addRejectionFeedback".

(** The logs sent to the chat model so far, in call order. *)
Definition model_logs {State : Type} (w : list (Call State)) : list (list BaseMessage) :=
  omap (fun c => match c with ModelInvoke input => Some input | _ => None end) w.

(** [log] is a system message followed by a beginning of [current]. *)
Definition shows_history (current log : list BaseMessage) : Prop :=
  exists prompt history,
    log = SystemMessage (Str prompt) :: history /\ history `prefix_of` current.

(** The character [sep] does not occur in [s]. *)
Definition free_of (sep : Ascii.ascii) (s : string) : Prop :=
  ~ In sep (list_ascii_of_string s).

(** The requests given to a tool so far, in call order. *)
Definition tool_invocations {State : Type} (w : list (Call State)) : list ToolCall :=
  omap (fun c => match c with ToolInvoke _ input => Some input | _ => None end) w.

(** A model that never throws. *)
Definition never_throws {Request Reply : Type} {Call : Type}
    (model : list Call -> Request -> Result Reply) : Prop :=
  forall w request, exists reply, model w request = Ok reply.

(** ** A sample run of the calculator agent *)

Module CalcSample.

Definition input : Calculator.State :=
  {| Calculator.messages := [HumanMessage (Str "Calc sqrt(9 + 7)")] |}.

Definition request : ToolCall :=
  {| call_name := "add";
     call_args := {[ "a" := JNumber 9%float; "b" := JNumber 7%float ]};
     call_id := "call_1" |}.

(** The model asks for the sum on its first call and answers in plain text
    afterwards. *)
Definition chatModel (w : list (Call Calculator.State)) (_ : list BaseMessage)
  : Result AIMessage :=
  match w with
  | [] => Ok {| ai_content := Str ""; tool_calls := Some [request] |}
  | _ => Ok {| ai_content := Str "The result is 4."; tool_calls := None |}
  end.

Definition prebuiltToolNode (_ : list StructuredTool) (_ : list (Call Calculator.State))
    (_ : Calculator.State) : Result (list BaseMessage) :=
  Ok [ToolMsg {| tool_content := Str "16"; tool_call_id := "call_1";
                 tool_name := Some "add" |}].

Definition agent : StateGraph (Call Calculator.State) Calculator.State Calculator.Update :=
  Calculator.agent chatModel prebuiltToolNode.

End CalcSample.

(** * Properties *)

(** ** The latest entry of the log *)

Lemma Array_at_minus_one {A : Type} (l : list A) : Array_at l (-1) = last l.
Proof.
  unfold Array_at. cbn [Z.leb Z.compare].
  destruct l as [|x l'] using rev_ind.
  - reflexivity.
  - rewrite last_snoc, length_app. cbn [length].
    replace (Z.of_nat (length l' + 1) + -1)%Z with (Z.of_nat (length l')) by lia.
    destruct (Z.ltb_spec (Z.of_nat (length l')) 0); [lia|].
    destruct (Z.leb_spec (Z.of_nat (length l' + 1)) (Z.of_nat (length l'))); [lia|].
    cbn [orb]. rewrite Nat2Z.id.
    rewrite lookup_app_r by lia. now rewrite Nat.sub_diag.
Qed.

(** ** Runs and reachable configurations *)

Section Runs.
Context {Call State Update : Type}.
Variable g : StateGraph Call State Update.
Variable input : State.

Lemma steps_reachable n cur s w cur' s' w' :
  reachable g input cur s w ->
  steps g n cur s w = (Ok (cur', s'), w') ->
  reachable g input cur' s' w'.
Proof.
  revert cur s w. induction n as [|n IH]; intros cur s w Hreach.
  - cbn. unfold ret. now intros [= <- <- <-].
  - cbn [steps]. unfold bind at 1.
    destruct (step g cur s w) as [[[nxt s1]|e] w1] eqn:Hstep; [|discriminate].
    cbn [fst snd]. apply IH. eapply reachable_step; eassumption.
Qed.

(** A run that returns ends in a reachable configuration at the end
    node. *)
Lemma run_reachable limit cur s w s' w' :
  reachable g input cur s w ->
  run g limit cur s w = (Ok s', w') ->
  reachable g input END s' w'.
Proof.
  revert cur s w. induction limit as [|limit IH]; intros cur s w Hreach; cbn [run].
  - destruct (String.eqb_spec cur END) as [->|_]; [|discriminate].
    unfold ret. now intros [= <- <-].
  - destruct (String.eqb_spec cur END) as [->|_].
    + unfold ret. now intros [= <- <-].
    + unfold bind at 1.
      destruct (step g cur s w) as [[[nxt s1]|e] w1] eqn:Hstep; [|discriminate].
      cbn [fst snd]. apply IH. eapply reachable_step; eassumption.
Qed.

Lemma steps_S n cur s w :
  steps g (S n) cur s w
  = match step g cur s w with
    | (Ok c, w') => steps g n (fst c) (snd c) w'
    | (Throw e, w') => (Throw e, w')
    end.
Proof. reflexivity. Qed.

(** The state a run returns is the initial state with the updates of its
    steps merged in step order. *)
Lemma step_update cur s w nxt s' w' :
  step g cur s w = (Ok (nxt, s'), w') ->
  exists node u, nodes g !! cur = Some node /\ node s w = (Ok u, w') /\ s' = reduce g s u.
Proof.
  unfold step. destruct (nodes g !! cur) as [node|]; [|discriminate].
  unfold bind. destruct (node s w) as [[u|e] w1] eqn:Hnode; [|discriminate].
  unfold ret. intros [= <- <- <-]. exists node, u. repeat split. exact Hnode.
Qed.

Lemma run_fold limit cur s w s' w' :
  run g limit cur s w = (Ok s', w') ->
  exists us, s' = fold_left (reduce g) us s.
Proof.
  revert cur s w. induction limit as [|limit IH]; intros cur s w; cbn [run].
  - destruct (String.eqb cur END); [|discriminate].
    unfold ret. intros [= <- <-]. now exists [].
  - destruct (String.eqb cur END).
    + unfold ret. intros [= <- <-]. now exists [].
    + unfold bind at 1.
      destruct (step g cur s w) as [[[nxt s1]|e] w1] eqn:Hstep; [|discriminate].
      cbn [fst snd]. intros Hrun. apply IH in Hrun as (us & ->).
      apply step_update in Hstep as (node & u & _ & _ & ->).
      now exists (u :: us).
Qed.

Lemma invoke_reachable limit s' w' :
  invoke g limit input [] = (Ok s', w') -> reachable g input END s' w'.
Proof. apply run_reachable. constructor. Qed.
End Runs.

(** ** The reducers *)

Lemma fold_messages_Langgraph (us : list Langgraph.Update) (s : Langgraph.State) :
  Langgraph.messages (fold_left Langgraph.MessagesState us s)
  = Langgraph.messages s ++ concat (map Langgraph.messages us).
Proof.
  revert s. induction us as [|u us IH]; intros s; cbn [fold_left map concat].
  - now rewrite app_nil_r.
  - rewrite IH. cbn. unfold Langgraph.messages_reducer, Array_concat.
    now rewrite <- app_assoc.
Qed.

Lemma fold_messages_Calculator (us : list Calculator.Update) (s : Calculator.State) :
  Calculator.messages (fold_left Calculator.MessagesState us s)
  = Calculator.messages s ++ concat (map Calculator.messages us).
Proof.
  revert s. induction us as [|u us IH]; intros s; cbn [fold_left map concat].
  - now rewrite app_nil_r.
  - rewrite IH. cbn. unfold Calculator.messages_reducer, Array_concat.
    now rewrite <- app_assoc.
Qed.

Lemma fold_messages_Crop (us : list Crop.Update) (s : Crop.State) :
  Crop.messages (fold_left Crop.MessagesState us s)
  = Crop.messages s ++ concat (map (fun u => default [] (Crop.upd_messages u)) us).
Proof.
  revert s. induction us as [|u us IH]; intros s; cbn [fold_left map concat].
  - now rewrite app_nil_r.
  - rewrite IH. cbn [Crop.MessagesState Crop.messages].
    destruct (Crop.upd_messages u) as [v|]; cbn [default].
    + unfold Crop.messages_reducer, Array_concat. now rewrite <- app_assoc.
    + reflexivity.
Qed.

(** C1. In each of the three scripts the reducer of [messages] is list
    concatenation, and after any sequence of node updates is merged, in step
    order, the [messages] field is the initial messages followed by the
    messages of every update, in that order: nothing is dropped, reordered
    or deduplicated.  (An update of the crop agent that has no [messages]
    key contributes nothing.) *)
Theorem C1_messages_concatenation :
  (forall left right : list BaseMessage,
      Langgraph.messages_reducer left right = left ++ right
      /\ Calculator.messages_reducer left right = left ++ right
      /\ Crop.messages_reducer left right = left ++ right)
  /\ (forall (s : Langgraph.State) (us : list Langgraph.Update),
      Langgraph.messages (fold_left Langgraph.MessagesState us s)
      = Langgraph.messages s ++ concat (map Langgraph.messages us))
  /\ (forall (s : Calculator.State) (us : list Calculator.Update),
      Calculator.messages (fold_left Calculator.MessagesState us s)
      = Calculator.messages s ++ concat (map Calculator.messages us))
  /\ (forall (s : Crop.State) (us : list Crop.Update),
      Crop.messages (fold_left Crop.MessagesState us s)
      = Crop.messages s ++ concat (map (fun u => default [] (Crop.upd_messages u)) us)).
Proof.
  split; [|split; [|split]].
  - intros left right. repeat split; reflexivity.
  - intros s us. apply fold_messages_Langgraph.
  - intros s us. apply fold_messages_Calculator.
  - intros s us. apply fold_messages_Crop.
Qed.

(** ** The routers *)

(** C2. The router that follows the model call ends the run when the log is
    empty or its latest message is not an assistant message; it names the
    tool node when the latest assistant message carries at least one tool
    call; otherwise it names the evaluation node in the crop agent, which
    has one, and ends the run in the two arithmetic agents, which have
    none. *)
Theorem C2_post_model_router
    (log : list BaseMessage) (src crop : option string) (appr : Crop.Approval) :
  let s1 := {| Langgraph.messages := log |} in
  let s2 := {| Calculator.messages := log |} in
  let s3 := {| Crop.messages := log; Crop.sourceImageDataUri := src;
               Crop.croppedImageDataUri := crop; Crop.approval := appr |} in
  (last log = None \/ (exists m, last log = Some m /\ isAIMessage m = false) ->
     Langgraph.shouldContinue s1 = END
     /\ Calculator.shouldContinue s2 = END
     /\ Crop.routeAfterLLM s3 = END)
  /\ (forall ai c cs, last log = Some (AIMsg ai) -> tool_calls ai = Some (c :: cs) ->
     Langgraph.shouldContinue s1 = "toolNode"
     /\ Calculator.shouldContinue s2 = "toolNode"
     /\ Crop.routeAfterLLM s3 = "toolNode")
  /\ (forall ai, last log = Some (AIMsg ai) ->
     tool_calls ai = None \/ tool_calls ai = Some [] ->
     Langgraph.shouldContinue s1 = END
     /\ Calculator.shouldContinue s2 = END
     /\ Crop.routeAfterLLM s3 = "approver").
Proof.
  intros s1 s2 s3.
  unfold Langgraph.shouldContinue, Calculator.shouldContinue, Crop.routeAfterLLM.
  subst s1 s2 s3. cbn [Langgraph.messages Calculator.messages Crop.messages].
  rewrite Array_at_minus_one.
  split; [|split].
  - intros [-> | (m & -> & Hm)]; [repeat split; reflexivity|].
    rewrite Hm. repeat split; reflexivity.
  - intros ai c cs -> Hcalls. cbn. rewrite Hcalls. repeat split; reflexivity.
  - intros ai -> [Hcalls | Hcalls]; cbn; rewrite Hcalls; repeat split; reflexivity.
Qed.

Lemma C2_post_model_router_witness :
  let call := {| call_name := "add"; call_args := ∅; call_id := "call_1" |} in
  let with_calls := {| ai_content := Str ""; tool_calls := Some [call] |} in
  let plain := {| ai_content := Str "7"; tool_calls := None |} in
  let at_log log :=
    {| Crop.messages := log; Crop.sourceImageDataUri := None;
       Crop.croppedImageDataUri := None; Crop.approval := Crop.pending |} in
  (Langgraph.shouldContinue {| Langgraph.messages := [] |} = END
   /\ Calculator.shouldContinue {| Calculator.messages := [] |} = END
   /\ Crop.routeAfterLLM (at_log []) = END)
  /\ (Langgraph.shouldContinue {| Langgraph.messages := [HumanMessage (Str "Add 3 and 4.")] |} = END
   /\ Calculator.shouldContinue {| Calculator.messages := [HumanMessage (Str "Add 3 and 4.")] |} = END
   /\ Crop.routeAfterLLM (at_log [HumanMessage (Str "Add 3 and 4.")]) = END)
  /\ (Langgraph.shouldContinue {| Langgraph.messages := [AIMsg with_calls] |} = "toolNode"
   /\ Calculator.shouldContinue {| Calculator.messages := [AIMsg with_calls] |} = "toolNode"
   /\ Crop.routeAfterLLM (at_log [AIMsg with_calls]) = "toolNode")
  /\ (Langgraph.shouldContinue {| Langgraph.messages := [AIMsg plain] |} = END
   /\ Calculator.shouldContinue {| Calculator.messages := [AIMsg plain] |} = END
   /\ Crop.routeAfterLLM (at_log [AIMsg plain]) = "approver").
Proof.
  intros call with_calls plain at_log.
  split; [|split; [|split]].
  - apply (proj1 (C2_post_model_router [] None None Crop.pending)). left. reflexivity.
  - apply (proj1 (C2_post_model_router [HumanMessage (Str "Add 3 and 4.")] None None Crop.pending)).
    right. exists (HumanMessage (Str "Add 3 and 4.")). split; reflexivity.
  - apply (proj1 (proj2 (C2_post_model_router [AIMsg with_calls] None None Crop.pending))
             with_calls call []); reflexivity.
  - apply (proj2 (proj2 (C2_post_model_router [AIMsg plain] None None Crop.pending)) plain);
      [reflexivity | left; reflexivity].
Defined.

(** C3. The router that follows the evaluation ends the run when the status
    is approved, names the feedback node when it is rejected, and ends the
    run for every other status, pending among them.  The router is a total
    function to node names: no status makes it fail. *)
Theorem C3_post_evaluation_router (s : Crop.State) :
  (Crop.status (Crop.approval s) = "approved" -> Crop.routeAfterApprover s = END)
  /\ (Crop.status (Crop.approval s) = "rejected" ->
      Crop.routeAfterApprover s = "addRejectionFeedback")
  /\ (Crop.status (Crop.approval s) <> "approved" ->
      Crop.status (Crop.approval s) <> "rejected" ->
      Crop.routeAfterApprover s = END)
  /\ (Crop.status (Crop.approval s) = "pending" -> Crop.routeAfterApprover s = END).
Proof.
  unfold Crop.routeAfterApprover.
  repeat split.
  - intros ->. reflexivity.
  - intros ->. reflexivity.
  - intros Ha Hr.
    destruct (String.eqb_spec (Crop.status (Crop.approval s)) "approved"); [contradiction|].
    destruct (String.eqb_spec (Crop.status (Crop.approval s)) "rejected"); [contradiction|].
    reflexivity.
  - intros ->. reflexivity.
Qed.

Lemma C3_post_evaluation_router_witness :
  let at_status st :=
    {| Crop.messages := []; Crop.sourceImageDataUri := None;
       Crop.croppedImageDataUri := None;
       Crop.approval := {| Crop.status := st; Crop.feedback := None |} |} in
  Crop.routeAfterApprover (at_status "approved") = END
  /\ Crop.routeAfterApprover (at_status "rejected") = "addRejectionFeedback"
  /\ Crop.routeAfterApprover (at_status "on hold") = END
  /\ Crop.routeAfterApprover (at_status "pending") = END.
Proof.
  intros at_status. split; [|split; [|split]].
  - apply (proj1 (C3_post_evaluation_router (at_status "approved"))). reflexivity.
  - apply (proj1 (proj2 (C3_post_evaluation_router (at_status "rejected")))). reflexivity.
  - apply (proj1 (proj2 (proj2 (C3_post_evaluation_router (at_status "on hold")))));
      discriminate.
  - apply (proj2 (proj2 (proj2 (C3_post_evaluation_router (at_status "pending"))))).
    reflexivity.
Defined.

(** ** The evaluation node *)

(** When both images are there, the evaluation node does call the model:
    the trace grows by one structured call. *)
Lemma approverNode_calls_model
    (structuredModel : list (Call Crop.State) -> list BaseMessage -> Result Crop.ApprovalSchema.t)
    (s : Crop.State) (w : list (Call Crop.State)) :
  truthy (Crop.croppedImageDataUri s) = true ->
  truthy (Crop.sourceImageDataUri s) = true ->
  exists input, snd (Crop.approverNode structuredModel s w) = w ++ [StructuredInvoke input].
Proof.
  intros Hc Hs. unfold Crop.approverNode. rewrite Hc, Hs. cbn [negb orb].
  eexists. unfold bind, Crop.modelWithStructuredOutput_invoke, external.
  destruct (structuredModel w _); reflexivity.
Qed.

(** C4. When the cropped image is absent, the evaluation node returns the
    update that sets the approval to rejected with the fixed feedback
    "No cropped image was produced", and the trace of external calls is left
    as it was: the model is not called on that step. *)
Theorem C4_evaluation_without_crop
    (structuredModel : list (Call Crop.State) -> list BaseMessage -> Result Crop.ApprovalSchema.t)
    (s : Crop.State) (w : list (Call Crop.State)) :
  Crop.croppedImageDataUri s = None ->
  Crop.approverNode structuredModel s w
  = (Ok {| Crop.upd_messages := None;
           Crop.upd_sourceImageDataUri := None;
           Crop.upd_croppedImageDataUri := None;
           Crop.upd_approval :=
             Some (Some {| Crop.status := "rejected";
                           Crop.feedback := Some "No cropped image was produced" |}) |},
     w).
Proof.
  intros Hc. unfold Crop.approverNode. rewrite Hc. reflexivity.
Qed.

Lemma C4_evaluation_without_crop_witness :
  let s := {| Crop.messages := [HumanMessage (Str "Crop it to a 9:16 ratio")];
              Crop.sourceImageDataUri := Some "data:image/webp;base64,UklGRg==";
              Crop.croppedImageDataUri := None;
              Crop.approval := Crop.pending |} in
  let model := fun _ _ => Ok {| Crop.ApprovalSchema.approved := true;
                                Crop.ApprovalSchema.feedback := "fine" |} in
  Crop.approverNode model s []
  = (Ok {| Crop.upd_messages := None;
           Crop.upd_sourceImageDataUri := None;
           Crop.upd_croppedImageDataUri := None;
           Crop.upd_approval :=
             Some (Some {| Crop.status := "rejected";
                           Crop.feedback := Some "No cropped image was produced" |}) |},
     []).
Proof.
  intros s model. apply (C4_evaluation_without_crop model s []). reflexivity.
Defined.

(** ** The empty log *)

(** C9. Reading the latest entry never fails: [at(-1)] gives the last
    element of the log and the absent value on an empty log.  Each reader of
    the latest entry handles the empty log: the three routers end the run,
    and the tool node of [langgraph.ts] returns an empty update without
    calling a tool. *)
Theorem C9_latest_entry_total :
  (forall log : list BaseMessage, Array_at log (-1) = last log)
  /\ Array_at (@nil BaseMessage) (-1) = None
  /\ Langgraph.shouldContinue {| Langgraph.messages := [] |} = END
  /\ Calculator.shouldContinue {| Calculator.messages := [] |} = END
  /\ (forall src crop appr,
      Crop.routeAfterLLM {| Crop.messages := []; Crop.sourceImageDataUri := src;
                            Crop.croppedImageDataUri := crop; Crop.approval := appr |} = END)
  /\ (forall JSON_stringify w,
      Langgraph.toolNode JSON_stringify {| Langgraph.messages := [] |} w
      = (Ok {| Langgraph.messages := [] |}, w)).
Proof.
  split; [apply Array_at_minus_one|].
  repeat split.
Qed.

(** ** Steps of the crop agent *)

Section CropSteps.
Variable chatModel : list (Call Crop.State) -> list BaseMessage -> Result AIMessage.
Variable structuredModel :
  list (Call Crop.State) -> list BaseMessage -> Result Crop.ApprovalSchema.t.
Variable prebuiltToolNode : list (Call Crop.State) -> Crop.State -> Result (list BaseMessage).

Let agent := Crop.agent chatModel structuredModel prebuiltToolNode.

(** A step that succeeds ran one of the four nodes, merged its update and
    followed the edge of that node. *)
Lemma Crop_step_inv cur s w nxt s' w' :
  step agent cur s w = (Ok (nxt, s'), w') ->
  exists u, s' = Crop.MessagesState s u /\
    ((cur = "llmCall" /\ Crop.llmNode chatModel s w = (Ok u, w')
        /\ nxt = Crop.routeAfterLLM s')
     \/ (cur = "toolNode" /\ Crop.toolNode prebuiltToolNode s w = (Ok u, w')
        /\ nxt = "approver")
     \/ (cur = "approver" /\ Crop.approverNode structuredModel s w = (Ok u, w')
        /\ nxt = Crop.routeAfterApprover s')
     \/ (cur = "addRejectionFeedback" /\ Crop.addRejectionFeedback s w = (Ok u, w')
        /\ nxt = "llmCall")).
Proof.
  unfold step.
  destruct (nodes agent !! cur) as [node|] eqn:Hnode; [|discriminate].
  unfold bind. destruct (node s w) as [[u|e] w1] eqn:Hrun; [|discriminate].
  unfold ret. intros [= <- <- <-]. exists u. split; [reflexivity|].
  subst agent. unfold Crop.agent in Hnode. cbn [nodes addEdge addConditionalEdges addNode newStateGraph] in Hnode.
  apply lookup_insert_Some in Hnode as [[<- <-]|[_ Hnode]].
  { right; right; right. repeat split. exact Hrun. }
  apply lookup_insert_Some in Hnode as [[<- <-]|[_ Hnode]].
  { right; right; left. repeat split. exact Hrun. }
  apply lookup_insert_Some in Hnode as [[<- <-]|[_ Hnode]].
  { right; left. repeat split. exact Hrun. }
  apply lookup_insert_Some in Hnode as [[<- <-]|[_ Hnode]].
  { left. repeat split. exact Hrun. }
  rewrite lookup_empty in Hnode. discriminate.
Qed.
End CropSteps.

(** ** The source-image scan of the crop agent *)

Lemma part_image_url_nonempty (part : ContentPart) (u : string) :
  Crop.part_image_url part = Some u -> 0 < String.length u.
Proof.
  destruct part as [t|[url|]|t]; cbn; try discriminate.
  destruct (String.eqb_spec url ""); [discriminate|].
  intros [= <-]. destruct url; [congruence | cbn; lia].
Qed.

Lemma falsy_length (v : option string) : truthy v = false -> length_of v = 0.
Proof.
  destruct v as [c|]; cbn; [|reflexivity].
  destruct (String.eqb_spec c ""); [subst; reflexivity | discriminate].
Qed.

Lemma scan_parts_spec (parts : list ContentPart) (cur : option string) :
  length_of cur <= length_of (Crop.scan_parts parts cur)
  /\ Forall (fun url => String.length url <= length_of (Crop.scan_parts parts cur))
            (omap Crop.part_image_url parts)
  /\ (Crop.scan_parts parts cur = cur
      \/ exists u, Crop.scan_parts parts cur = Some u /\ u ∈ omap Crop.part_image_url parts).
Proof.
  revert cur. induction parts as [|part rest IH]; intros cur.
  - cbn. repeat split; [lia | constructor | now left].
  - cbn [Crop.scan_parts omap list_omap].
    set (cur' := match part with
                 | ImageUrlPart (Some imageUrl) => _
                 | _ => cur end).
    assert (Hstep : length_of cur <= length_of cur'
                    /\ (forall u, Crop.part_image_url part = Some u ->
                                  String.length u <= length_of cur')
                    /\ (cur' = cur \/ exists u, cur' = Some u /\ Crop.part_image_url part = Some u)).
    { subst cur'. destruct part as [t|[url|]|t]; cbn [Crop.part_image_url];
        try (repeat split; [lia | discriminate | now left]).
      destruct (String.eqb_spec url ""); cbn [negb];
        [repeat split; [lia | discriminate | now left]|].
      destruct (truthy cur) eqn:Ht; cbn [negb orb].
      - destruct (Nat.ltb_spec (length_of cur) (String.length url)).
        + repeat split; [cbn; lia | intros u [= <-]; cbn; lia | right; eauto].
        + repeat split; [lia | intros u [= <-]; lia | now left].
      - apply falsy_length in Ht.
        repeat split; [cbn; lia | intros u [= <-]; cbn; lia | right; eauto]. }
    clearbody cur'. destruct Hstep as (Hle' & Hnew & Hmem').
    destruct (IH cur') as (Hle & Hall & Hmem).
    split; [lia|]. split.
    + destruct (Crop.part_image_url part) as [u|] eqn:Hu; [|exact Hall].
      constructor; [|exact Hall]. specialize (Hnew u eq_refl). lia.
    + destruct Hmem as [Heq | (u & Heq & Hin)].
      * rewrite Heq. destruct Hmem' as [-> | (u & -> & Hu)]; [now left|].
        right. exists u. split; [reflexivity|]. rewrite Hu. apply list_elem_of_here.
      * right. exists u. split; [exact Heq|].
        destruct (Crop.part_image_url part); [now apply list_elem_of_further | exact Hin].
Qed.

Lemma scan_messages_spec (log : list BaseMessage) (cur : option string) :
  length_of cur <= length_of (Crop.scan_messages log cur)
  /\ Forall (fun url => String.length url <= length_of (Crop.scan_messages log cur))
            (Crop.log_image_urls log)
  /\ (Crop.scan_messages log cur = cur
      \/ exists u, Crop.scan_messages log cur = Some u /\ u ∈ Crop.log_image_urls log).
Proof.
  revert cur. induction log as [|msg rest IH]; intros cur.
  - cbn. repeat split; [lia | constructor | now left].
  - cbn [Crop.scan_messages Crop.log_image_urls flat_map].
    fold (Crop.log_image_urls rest). unfold Crop.message_image_urls.
    destruct (content msg) as [c|parts].
    + cbn [app]. apply IH.
    + destruct (scan_parts_spec parts cur) as (Hle' & Hall' & Hmem').
      destruct (IH (Crop.scan_parts parts cur)) as (Hle & Hall & Hmem).
      split; [lia|]. split.
      * apply Forall_app. split; [|exact Hall].
        eapply Forall_impl; [exact Hall'|]. cbn. intros; lia.
      * destruct Hmem as [Heq | (u & Heq & Hin)].
        -- rewrite Heq. destruct Hmem' as [-> | (u & -> & Hu)]; [now left|].
           right. exists u. split; [reflexivity|]. apply elem_of_app. now left.
        -- right. exists u. split; [exact Heq|]. apply elem_of_app. now right.
Qed.

Lemma log_image_urls_nonempty (log : list BaseMessage) (u : string) :
  u ∈ Crop.log_image_urls log -> 0 < String.length u.
Proof.
  unfold Crop.log_image_urls. rewrite list_elem_of_In, in_flat_map.
  intros (msg & _ & Hin). unfold Crop.message_image_urls in Hin.
  destruct (content msg) as [c|parts]; [destruct Hin|].
  apply list_elem_of_In, list_elem_of_omap in Hin as (part & _ & Hpart).
  eapply part_image_url_nonempty, Hpart.
Qed.

(** ** What each node of the crop agent returns *)

Lemma Crop_llmNode_Ok chatModel (s : Crop.State) (w : list (Call Crop.State)) u w' :
  Crop.llmNode chatModel s w = (Ok u, w') ->
  exists response,
    chatModel w (SystemMessage (Str (Crop.systemPrompt s)) :: Crop.messages s) = Ok response
    /\ u = {| Crop.upd_messages := Some [AIMsg response];
              Crop.upd_sourceImageDataUri :=
                Some (Crop.scan_messages (Crop.messages s) (Crop.sourceImageDataUri s));
              Crop.upd_croppedImageDataUri := None;
              Crop.upd_approval := Some (Some Crop.pending) |}
    /\ w' = w ++ [ModelInvoke (SystemMessage (Str (Crop.systemPrompt s)) :: Crop.messages s)].
Proof.
  unfold Crop.llmNode, Crop.modelWithTools_invoke, bind, external, ret.
  destruct (chatModel w _) as [response|e] eqn:Hreply; [|discriminate].
  intros [= <- <-]. exists response. repeat split.
Qed.

Lemma Crop_toolNode_Ok prebuiltToolNode (s : Crop.State) (w : list (Call Crop.State)) u w' :
  Crop.toolNode prebuiltToolNode s w = (Ok u, w') ->
  exists toolResult,
    prebuiltToolNode w s = Ok toolResult
    /\ u = {| Crop.upd_messages := Some toolResult;
              Crop.upd_sourceImageDataUri := None;
              Crop.upd_croppedImageDataUri :=
                Some (Crop.first_image toolResult (Crop.croppedImageDataUri s));
              Crop.upd_approval := None |}
    /\ w' = w ++ [ToolNodeInvoke s].
Proof.
  unfold Crop.toolNode, bind, external, ret.
  destruct (prebuiltToolNode w s) as [toolResult|e] eqn:Hreply; [|discriminate].
  intros [= <- <-]. exists toolResult. repeat split.
Qed.

Lemma Crop_approverNode_Ok structuredModel (s : Crop.State) (w : list (Call Crop.State)) u w' :
  Crop.approverNode structuredModel s w = (Ok u, w') ->
  exists a,
    u = {| Crop.upd_messages := None;
           Crop.upd_sourceImageDataUri := None;
           Crop.upd_croppedImageDataUri := None;
           Crop.upd_approval := Some (Some a) |}
    /\ (Crop.status a = "approved" \/ Crop.status a = "rejected")
    /\ (w' = w \/ exists input, w' = w ++ [StructuredInvoke input]).
Proof.
  unfold Crop.approverNode, Crop.modelWithStructuredOutput_invoke, bind, external, ret.
  destruct (negb (truthy (Crop.croppedImageDataUri s)) || negb (truthy (Crop.sourceImageDataUri s))).
  - intros [= <- <-]. eexists. split; [reflexivity|]. split; [now right | now left].
  - destruct (structuredModel w _) as [response|e] eqn:Hreply; [|discriminate].
    intros [= <- <-]. eexists. split; [reflexivity|]. cbn [Crop.status]. split.
    + destruct (Crop.ApprovalSchema.approved response); [now left | now right].
    + right. eexists. reflexivity.
Qed.

Lemma Crop_addRejectionFeedback_Ok (s : Crop.State) (w : list (Call Crop.State)) u w' :
  Crop.addRejectionFeedback s w = (Ok u, w') ->
  Crop.upd_sourceImageDataUri u = None /\ Crop.upd_croppedImageDataUri u = None
  /\ Crop.upd_approval u = None /\ w' = w.
Proof.
  unfold Crop.addRejectionFeedback, ret. intros [= <- <-]. repeat split.
Qed.

Lemma routeAfterApprover_range (s : Crop.State) :
  Crop.routeAfterApprover s = END \/ Crop.routeAfterApprover s = "addRejectionFeedback".
Proof.
  unfold Crop.routeAfterApprover.
  destruct (String.eqb _ "approved"); [now left|].
  destruct (String.eqb _ "rejected"); [now right | now left].
Qed.

(** ** The approval record along a run *)

Section CropRuns.
Variable chatModel : list (Call Crop.State) -> list BaseMessage -> Result AIMessage.
Variable structuredModel :
  list (Call Crop.State) -> list BaseMessage -> Result Crop.ApprovalSchema.t.
Variable prebuiltToolNode : list (Call Crop.State) -> Crop.State -> Result (list BaseMessage).
Variable input : list BaseMessage.

Let agent := Crop.agent chatModel structuredModel prebuiltToolNode.

(** What one step does to the approval record. *)
Lemma approval_step cur s w nxt s' w' :
  step agent cur s w = (Ok (nxt, s'), w') ->
  (cur = "llmCall" -> Crop.approval s' = Crop.pending)
  /\ (cur = "approver" ->
      Crop.status (Crop.approval s') = "approved"
      \/ Crop.status (Crop.approval s') = "rejected")
  /\ (cur <> "llmCall" -> cur <> "approver" -> Crop.approval s' = Crop.approval s).
Proof.
  intros Hstep.
  apply Crop_step_inv in Hstep as (u & -> & [H|[H|[H|H]]]);
    destruct H as (-> & Hnode & _).
  - apply Crop_llmNode_Ok in Hnode as (response & _ & -> & _).
    repeat split; [discriminate | congruence].
  - apply Crop_toolNode_Ok in Hnode as (toolResult & _ & -> & _).
    repeat split; discriminate.
  - apply Crop_approverNode_Ok in Hnode as (a & -> & Ha & _).
    repeat split; [discriminate | intros _; exact Ha | congruence].
  - apply Crop_addRejectionFeedback_Ok in Hnode as (_ & _ & Happr & _).
    repeat split; [discriminate | discriminate |].
    intros _ _. cbn [Crop.MessagesState Crop.approval]. now rewrite Happr.
Qed.

(** The tool node and the evaluation node only ever run on a pending
    approval. *)
Lemma approval_pending_in_attempt cur s w :
  reachable agent (Crop.initialState input) cur s w ->
  cur = "toolNode" \/ cur = "approver" -> Crop.approval s = Crop.pending.
Proof.
  induction 1 as [|cur s w nxt s' w' Hreach IH Hstep].
  - intros [H|H]; discriminate H.
  - intros Hnxt.
    destruct (approval_step _ _ _ _ _ _ Hstep) as (Hllm & _ & Hother).
    apply Crop_step_inv in Hstep as (u & Hs' & [H|[H|[H|H]]]);
      destruct H as (-> & _ & ->).
    + now apply Hllm.
    + rewrite Hother by discriminate. apply IH. now left.
    + destruct (routeAfterApprover_range s') as [E|E]; rewrite E in Hnxt;
        destruct Hnxt as [H|H]; discriminate H.
    + destruct Hnxt as [H|H]; discriminate H.
Qed.
End CropRuns.

(** C6. In every run of the crop agent, a step of the model-call node
    leaves the approval record at pending with no feedback, so that the tool
    node and the evaluation node only run on a pending record; a step of the
    evaluation node leaves the status at approved or rejected; a step of any
    other node leaves the record as it was.  Hence a step that changes the
    record to approved or rejected is a step of the evaluation node. *)
Theorem C6_approval_lifecycle
    (chatModel : list (Call Crop.State) -> list BaseMessage -> Result AIMessage)
    (structuredModel : list (Call Crop.State) -> list BaseMessage -> Result Crop.ApprovalSchema.t)
    (prebuiltToolNode : list (Call Crop.State) -> Crop.State -> Result (list BaseMessage))
    (input : list BaseMessage) (cur : string) (s : Crop.State) (w : list (Call Crop.State)) :
  let agent := Crop.agent chatModel structuredModel prebuiltToolNode in
  reachable agent (Crop.initialState input) cur s w ->
  (cur = "toolNode" \/ cur = "approver" ->
     Crop.approval s = {| Crop.status := "pending"; Crop.feedback := None |})
  /\ (forall nxt s' w', step agent cur s w = (Ok (nxt, s'), w') ->
      (cur = "llmCall" ->
         Crop.approval s' = {| Crop.status := "pending"; Crop.feedback := None |})
      /\ (cur = "approver" ->
         Crop.status (Crop.approval s') = "approved"
         \/ Crop.status (Crop.approval s') = "rejected")
      /\ (cur <> "llmCall" -> cur <> "approver" -> Crop.approval s' = Crop.approval s)
      /\ (Crop.status (Crop.approval s') = "approved"
          \/ Crop.status (Crop.approval s') = "rejected" ->
          Crop.approval s' <> Crop.approval s -> cur = "approver")).
Proof.
  intros agent Hreach. split.
  - apply (approval_pending_in_attempt _ _ _ _ _ _ _ Hreach).
  - intros nxt s' w' Hstep.
    destruct (approval_step _ _ _ _ _ _ _ _ _ Hstep) as (Hllm & Happr & Hother).
    repeat split; [exact Hllm | exact Happr | exact Hother |].
    intros Hterminal Hchanged.
    destruct (String.eqb_spec cur "approver") as [|Hna]; [assumption|].
    destruct (String.eqb_spec cur "llmCall") as [Hl|Hnl].
    + rewrite (Hllm Hl) in Hterminal. destruct Hterminal as [H|H]; discriminate H.
    + now specialize (Hother Hnl Hna).
Qed.

Lemma C6_approval_lifecycle_witness :
  let first := Crop.initialState CropSample.input in
  (exists s w,
      reachable CropSample.agent first "approver" s w
      /\ Crop.approval s = {| Crop.status := "pending"; Crop.feedback := None |}
      /\ (forall nxt s' w', step CropSample.agent "approver" s w = (Ok (nxt, s'), w') ->
          Crop.status (Crop.approval s') = "approved"
          \/ Crop.status (Crop.approval s') = "rejected"))
  /\ (exists s w,
      reachable CropSample.retrying first "llmCall" s w
      /\ Crop.status (Crop.approval s) = "rejected"
      /\ exists nxt s' w',
          step CropSample.retrying "llmCall" s w = (Ok (nxt, s'), w')
          /\ Crop.approval s' = {| Crop.status := "pending"; Crop.feedback := None |}).
Proof.
  intros first. split.
  - eassert (Hreach : reachable CropSample.agent first "approver" _ _).
    { eapply (steps_reachable CropSample.agent first 2 "llmCall").
      - exact (reachable_start _ _).
      - vm_compute. reflexivity. }
    eexists _, _. split; [exact Hreach|].
    pose proof (C6_approval_lifecycle CropSample.chatModel CropSample.structuredModel
                  CropSample.prebuiltToolNode CropSample.input _ _ _ Hreach)
      as [Hpending Hsteps].
    split.
    + apply Hpending. right. reflexivity.
    + intros nxt s' w' Hstep. apply (Hsteps nxt s' w' Hstep). reflexivity.
  - eassert (Hreach : reachable CropSample.retrying first "llmCall" _ _).
    { eapply (steps_reachable CropSample.retrying first 4 "llmCall").
      - exact (reachable_start _ _).
      - vm_compute. reflexivity. }
    eexists _, _. split; [exact Hreach|]. split; [reflexivity|].
    eassert (Hstep : step CropSample.retrying "llmCall" _ _ = (Ok _, _)).
    { vm_compute. reflexivity. }
    eexists _, _, _. split; [exact Hstep|].
    apply (proj2 (C6_approval_lifecycle CropSample.insistentModel CropSample.strictModel
                    CropSample.prebuiltToolNode CropSample.input _ _ _ Hreach)
             _ _ _ Hstep).
    reflexivity.
Defined.

(** ** The source image along a run *)

Lemma seen_image_urls_app (w1 w2 : list (Call Crop.State)) :
  Crop.seen_image_urls (w1 ++ w2) = Crop.seen_image_urls w1 ++ Crop.seen_image_urls w2.
Proof. unfold Crop.seen_image_urls. apply flat_map_app. Qed.

Lemma longest_of_length (v : option string) (urls : list string) (u : string) :
  Crop.longest_of v urls -> u ∈ urls -> String.length u <= length_of v.
Proof.
  destruct v as [c|]; cbn.
  - intros [_ Hall] Hin. rewrite Forall_forall in Hall. now apply Hall.
  - intros ->. now intros ?%elem_of_nil.
Qed.

(** The scan keeps a longest URL a longest URL when the log it reads is
    added to what was read before. *)
Lemma scan_messages_longest (log : list BaseMessage) (cur : option string) (seen : list string) :
  Crop.longest_of cur seen ->
  Crop.longest_of (Crop.scan_messages log cur) (seen ++ Crop.log_image_urls log).
Proof.
  intros Hcur.
  destruct (scan_messages_spec log cur) as (Hle & Hall & Hmem).
  assert (Hbound : Forall (fun url => String.length url <= length_of (Crop.scan_messages log cur))
                          (seen ++ Crop.log_image_urls log)).
  { apply Forall_app. split; [|exact Hall].
    apply Forall_forall. intros u Hu.
    pose proof (longest_of_length _ _ _ Hcur Hu). lia. }
  destruct Hmem as [Heq | (u & Heq & Hin)].
  - rewrite Heq in *. destruct cur as [c|]; cbn in *.
    + split; [|exact Hbound]. apply elem_of_app. left. apply Hcur.
    + subst seen. cbn [app] in *.
      destruct (Crop.log_image_urls log) as [|u urls] eqn:Hurls; [reflexivity|].
      assert (Hu : u ∈ Crop.log_image_urls log) by (rewrite Hurls; apply list_elem_of_here).
      apply log_image_urls_nonempty in Hu.
      apply Forall_cons in Hbound as [Hbad _]. lia.
  - rewrite Heq in *. cbn in *. split; [|exact Hbound].
    apply elem_of_app. now right.
Qed.

Section CropSource.
Variable chatModel : list (Call Crop.State) -> list BaseMessage -> Result AIMessage.
Variable structuredModel :
  list (Call Crop.State) -> list BaseMessage -> Result Crop.ApprovalSchema.t.
Variable prebuiltToolNode : list (Call Crop.State) -> Crop.State -> Result (list BaseMessage).
Variable input : list BaseMessage.

Let agent := Crop.agent chatModel structuredModel prebuiltToolNode.

(** What one step does to the source image and to the URLs read. *)
Lemma source_step cur s w nxt s' w' :
  step agent cur s w = (Ok (nxt, s'), w') ->
  (Crop.sourceImageDataUri s' = Crop.sourceImageDataUri s
   /\ Crop.seen_image_urls w' = Crop.seen_image_urls w)
  \/ (cur = "llmCall"
      /\ Crop.sourceImageDataUri s'
         = Crop.scan_messages (Crop.messages s) (Crop.sourceImageDataUri s)
      /\ Crop.seen_image_urls w'
         = Crop.seen_image_urls w ++ Crop.log_image_urls (Crop.messages s)).
Proof.
  intros Hstep.
  apply Crop_step_inv in Hstep as (u & -> & [H|[H|[H|H]]]);
    destruct H as (-> & Hnode & _).
  - right. apply Crop_llmNode_Ok in Hnode as (response & _ & -> & ->).
    split; [reflexivity|]. split.
    + cbn. now destruct (Crop.scan_messages _ _).
    + rewrite seen_image_urls_app. cbn. now rewrite app_nil_r.
  - left. apply Crop_toolNode_Ok in Hnode as (toolResult & _ & -> & ->).
    split; [reflexivity|]. rewrite seen_image_urls_app. cbn. now rewrite app_nil_r.
  - left. apply Crop_approverNode_Ok in Hnode as (a & -> & _ & [-> | (i & ->)]).
    + split; reflexivity.
    + split; [reflexivity|]. rewrite seen_image_urls_app. cbn. now rewrite app_nil_r.
  - left. apply Crop_addRejectionFeedback_Ok in Hnode as (Hsrc & _ & _ & ->).
    split; [|reflexivity]. cbn [Crop.MessagesState Crop.sourceImageDataUri].
    now rewrite Hsrc.
Qed.

Lemma source_longest_seen cur s w :
  reachable agent (Crop.initialState input) cur s w ->
  Crop.longest_of (Crop.sourceImageDataUri s) (Crop.seen_image_urls w).
Proof.
  induction 1 as [|cur s w nxt s' w' Hreach IH Hstep].
  - reflexivity.
  - apply source_step in Hstep as [[-> ->] | (_ & -> & ->)]; [exact IH|].
    now apply scan_messages_longest.
Qed.

Lemma source_length_step cur s w nxt s' w' :
  step agent cur s w = (Ok (nxt, s'), w') ->
  length_of (Crop.sourceImageDataUri s) <= length_of (Crop.sourceImageDataUri s').
Proof.
  intros Hstep. apply source_step in Hstep as [[-> _] | (_ & -> & _)]; [lia|].
  apply scan_messages_spec.
Qed.
End CropSource.

(** One image part replaces the value only by a URL that is strictly longer,
    or when there is no value. *)
Lemma scan_part_replaces (part : ContentPart) (cur : option string) :
  Crop.scan_parts [part] cur = cur
  \/ exists url,
      part = ImageUrlPart (Some url)
      /\ Crop.scan_parts [part] cur = Some url
      /\ (cur = None \/ length_of cur < String.length url).
Proof.
  cbn [Crop.scan_parts].
  destruct part as [t|[url|]|t]; try now left.
  destruct (String.eqb_spec url "") as [|Hne]; cbn [negb]; [now left|].
  destruct (truthy cur) eqn:Ht; cbn [negb orb].
  - destruct (Nat.ltb_spec (length_of cur) (String.length url)); [|now left].
    right. exists url. repeat split. now right.
  - right. exists url. repeat split. right.
    rewrite (falsy_length _ Ht). destruct url; [congruence | cbn; lia].
Qed.

(** C10. The scan of the model-call node replaces the stored source image
    only by an [image_url] string that is strictly longer than the stored
    value, or when nothing is stored.  So at every configuration of every
    run from [agent.invoke({ messages })], [sourceImageDataUri] is a longest
    of the image URLs in the logs the model-call node has read so far
    (absent only when there is none), and no step makes it shorter, the
    absent value counting as length 0. *)
Theorem C10_source_image_is_longest
    (chatModel : list (Call Crop.State) -> list BaseMessage -> Result AIMessage)
    (structuredModel : list (Call Crop.State) -> list BaseMessage -> Result Crop.ApprovalSchema.t)
    (prebuiltToolNode : list (Call Crop.State) -> Crop.State -> Result (list BaseMessage))
    (input : list BaseMessage) (cur : string) (s : Crop.State) (w : list (Call Crop.State)) :
  let agent := Crop.agent chatModel structuredModel prebuiltToolNode in
  reachable agent (Crop.initialState input) cur s w ->
  (forall part current,
      Crop.scan_parts [part] current = current
      \/ exists url,
          part = ImageUrlPart (Some url)
          /\ Crop.scan_parts [part] current = Some url
          /\ (current = None \/ length_of current < String.length url))
  /\ Crop.longest_of (Crop.sourceImageDataUri s) (Crop.seen_image_urls w)
  /\ (forall nxt s' w', step agent cur s w = (Ok (nxt, s'), w') ->
      length_of (Crop.sourceImageDataUri s) <= length_of (Crop.sourceImageDataUri s')).
Proof.
  intros agent Hreach. split; [|split].
  - apply scan_part_replaces.
  - eapply source_longest_seen, Hreach.
  - intros nxt s' w'. apply source_length_step.
Qed.

Lemma C10_source_image_is_longest_witness :
  exists s w,
    reachable CropSample.agent (Crop.initialState CropSample.input) "toolNode" s w
    /\ Crop.sourceImageDataUri s = Some CropSample.image
    /\ Crop.seen_image_urls w = [CropSample.image]
    /\ Crop.longest_of (Crop.sourceImageDataUri s) (Crop.seen_image_urls w).
Proof.
  eassert (Hreach : reachable CropSample.agent (Crop.initialState CropSample.input) "toolNode" _ _).
  { eapply (steps_reachable CropSample.agent (Crop.initialState CropSample.input) 1 "llmCall").
    - exact (reachable_start _ _).
    - vm_compute. reflexivity. }
  eexists _, _. split; [exact Hreach|].
  split; [reflexivity|]. split; [reflexivity|].
  apply (C10_source_image_is_longest CropSample.chatModel CropSample.structuredModel
           CropSample.prebuiltToolNode CropSample.input _ _ _ Hreach).
Defined.

(** ** The model-call node *)

(** C5, as the code has it.  The update of the model-call node does not
    depend on whether the reply carries tool calls.  In the two arithmetic
    agents it only appends the reply to [messages].  In the crop agent it
    appends the reply to [messages], sets [sourceImageDataUri] to the result
    of the source-image scan and resets [approval] to pending with no
    feedback; [croppedImageDataUri] is the one field it leaves as it was. *)
Theorem C5_model_call_update (reply : AIMessage) :
  (forall chatModel JSON_stringify (s : Langgraph.State) w,
      let prompt := SystemMessage (Str "You are a helpful assistant tasked with performing arithmetic on a set of inputs.") in
      chatModel w (prompt :: Langgraph.messages s) = Ok reply ->
      exists u,
        Langgraph.llmNode chatModel s w = (Ok u, w ++ [ModelInvoke (prompt :: Langgraph.messages s)])
        /\ reduce (Langgraph.agent chatModel JSON_stringify) s u
           = {| Langgraph.messages := Langgraph.messages s ++ [AIMsg reply] |})
  /\ (forall chatModel prebuiltToolNode (s : Calculator.State) w,
      let prompt := SystemMessage (Str "You are a helpful assistant tasked with performing arithmetic on a set of inputs.") in
      chatModel w (prompt :: Calculator.messages s) = Ok reply ->
      exists u,
        Calculator.llmNode chatModel s w = (Ok u, w ++ [ModelInvoke (prompt :: Calculator.messages s)])
        /\ reduce (Calculator.agent chatModel prebuiltToolNode) s u
           = {| Calculator.messages := Calculator.messages s ++ [AIMsg reply] |})
  /\ (forall chatModel structuredModel prebuiltToolNode (s : Crop.State) w,
      let prompt := SystemMessage (Str (Crop.systemPrompt s)) in
      chatModel w (prompt :: Crop.messages s) = Ok reply ->
      exists u,
        Crop.llmNode chatModel s w = (Ok u, w ++ [ModelInvoke (prompt :: Crop.messages s)])
        /\ reduce (Crop.agent chatModel structuredModel prebuiltToolNode) s u
           = {| Crop.messages := Crop.messages s ++ [AIMsg reply];
                Crop.sourceImageDataUri :=
                  Crop.scan_messages (Crop.messages s) (Crop.sourceImageDataUri s);
                Crop.croppedImageDataUri := Crop.croppedImageDataUri s;
                Crop.approval := {| Crop.status := "pending"; Crop.feedback := None |} |}).
Proof.
  split; [|split].
  - intros chatModel JSON_stringify s w prompt Hreply. eexists. split.
    + unfold Langgraph.llmNode, Langgraph.modelWithTools_invoke, bind, external, ret.
      fold prompt. rewrite Hreply. reflexivity.
    + reflexivity.
  - intros chatModel prebuiltToolNode s w prompt Hreply. eexists. split.
    + unfold Calculator.llmNode, Calculator.modelWithTools_invoke, bind, external, ret.
      fold prompt. rewrite Hreply. reflexivity.
    + reflexivity.
  - intros chatModel structuredModel prebuiltToolNode s w prompt Hreply. eexists. split.
    + unfold Crop.llmNode, Crop.modelWithTools_invoke, bind, external, ret.
      fold prompt. rewrite Hreply. reflexivity.
    + cbn. now destruct (Crop.scan_messages _ _).
Qed.

Lemma C5_model_call_update_witness :
  let reply := {| ai_content := Str ""; tool_calls := Some [CropSample.request] |} in
  let s := Crop.initialState CropSample.input in
  exists u w',
    Crop.llmNode CropSample.chatModel s [] = (Ok u, w')
    /\ reduce CropSample.agent s u
       = {| Crop.messages := CropSample.input ++ [AIMsg reply];
            Crop.sourceImageDataUri := Some CropSample.image;
            Crop.croppedImageDataUri := None;
            Crop.approval := {| Crop.status := "pending"; Crop.feedback := None |} |}.
Proof.
  intros reply s.
  destruct (proj2 (proj2 (C5_model_call_update reply))
              CropSample.chatModel CropSample.structuredModel CropSample.prebuiltToolNode
              s [] eq_refl) as (u & Hnode & Hmerge).
  exists u. eexists. split; [exact Hnode | exact Hmerge].
Defined.

(** C5, as the claim has it, fails in the crop agent.  In the run in which
    the evaluation rejects the first crop, the model-call node is reached
    again with the rejection in the approval record; the model replies with
    a tool call, and the update of the node changes the approval record.  On
    the first step of the run the update changes the source image. *)
Lemma C5_counterexample :
  let reply := {| ai_content := Str ""; tool_calls := Some [CropSample.request] |} in
  let first := Crop.initialState CropSample.input in
  has_length (tool_calls reply) = true
  /\ (exists s w,
      reachable CropSample.retrying first "llmCall" s w
      /\ Crop.approval s = {| Crop.status := "rejected";
                              Crop.feedback := Some "subject cut off" |}
      /\ exists u w',
          Crop.llmNode CropSample.insistentModel s w = (Ok u, w')
          /\ Crop.upd_messages u = Some [AIMsg reply]
          /\ Crop.approval (reduce CropSample.retrying s u) <> Crop.approval s)
  /\ (exists u w',
      Crop.llmNode CropSample.insistentModel first [] = (Ok u, w')
      /\ Crop.upd_messages u = Some [AIMsg reply]
      /\ Crop.sourceImageDataUri (reduce CropSample.retrying first u)
         <> Crop.sourceImageDataUri first).
Proof.
  intros reply first. split; [reflexivity|]. split.
  - eassert (Hreach : reachable CropSample.retrying first "llmCall" _ _).
    { eapply (steps_reachable CropSample.retrying first 4 "llmCall").
      - exact (reachable_start _ _).
      - vm_compute. reflexivity. }
    eexists _, _. split; [exact Hreach|]. split; [reflexivity|].
    eexists _, _. split; [reflexivity|]. split; [reflexivity|]. discriminate.
  - eexists _, _. split; [reflexivity|]. split; [reflexivity|]. discriminate.
Qed.

(** ** The tool node of [langgraph.ts] *)

Lemma toolsByName_lookup (n : string) (tool : StructuredTool) :
  Langgraph.toolsByName !! n = Some tool -> n = "add" /\ tool = Langgraph.add.
Proof.
  unfold Langgraph.toolsByName. intros H.
  apply lookup_singleton_Some in H as [<- <-]. split; reflexivity.
Qed.

Section ToolNode.
Variable JSON_stringify : float -> string.

(** The loop serves the requests in order: either every request can be
    served, and the loop returns what it had followed by one observation
    per request, after one tool invocation per request; or some request
    cannot, and the loop throws. *)
Lemma toolNode_loop_spec (calls : list ToolCall) :
  forall (result : list ToolMessage) (w : list (Call Langgraph.State)),
    (Forall Langgraph.servable calls
     /\ exists observations,
         Langgraph.toolNode_loop JSON_stringify calls result w
         = (Ok (result ++ observations), w ++ Langgraph.invocations calls)
         /\ Forall2 (Langgraph.answers JSON_stringify) calls observations)
    \/ (Exists (fun c => ~ Langgraph.servable c) calls
        /\ exists e w',
            Langgraph.toolNode_loop JSON_stringify calls result w = (Throw e, w')
            /\ (e = "TypeError" \/ e = "ToolInputParsingException")).
Proof.
  induction calls as [|toolCall rest IH]; intros result w.
  - left. split; [constructor|]. exists []. cbn. rewrite !app_nil_r.
    split; [reflexivity | constructor].
  - cbn [Langgraph.toolNode_loop].
    destruct (Langgraph.toolsByName !! call_name toolCall) as [tool|] eqn:Htool.
    2:{ right. split.
        - apply Exists_cons_hd. intros (tool & Hsome & _). congruence.
        - exists "TypeError", w. split; [reflexivity | now left]. }
    unfold bind at 1. unfold tool_invoke, external.
    destruct (schema tool (call_args toolCall)) as [input|] eqn:Hschema.
    2:{ right. split.
        - apply Exists_cons_hd. intros (tool' & Hsome & Hparse).
          rewrite Htool in Hsome. injection Hsome as <-.
          rewrite Hschema in Hparse. now destruct Hparse.
        - eexists _, _. split; [reflexivity | now right]. }
    set (observation := {| tool_content := _ |}).
    destruct (IH (result ++ [observation]) (w ++ [ToolInvoke (name tool) toolCall]))
      as [(Hall & observations & Hloop & Hans) | (Hex & e & w' & Hloop & He)].
    + left. split.
      * constructor; [|exact Hall]. exists tool. split; [exact Htool|].
        rewrite Hschema. eauto.
      * exists (observation :: observations). split.
        -- rewrite Hloop. rewrite <- !app_assoc. cbn.
           now destruct (toolsByName_lookup _ _ Htool) as [-> ->].
        -- constructor; [|exact Hans]. exists tool, input. repeat split; assumption.
    + right. split; [now apply Exists_cons_tl|]. exists e, w'. split; assumption.
Qed.

Lemma servable_dec_all (calls : list ToolCall) :
  Forall Langgraph.servable calls \/ Exists (fun c => ~ Langgraph.servable c) calls.
Proof.
  destruct (toolNode_loop_spec calls [] []) as [[H _] | [H _]]; [now left | now right].
Qed.

(** What the node returns for a log whose latest message is [lastMessage]. *)
Lemma toolNode_latest (s : Langgraph.State) (lastMessage : BaseMessage) :
  last (Langgraph.messages s) = Some lastMessage ->
  Langgraph.toolNode JSON_stringify s
  = if negb (isAIMessage lastMessage) then ret {| Langgraph.messages := [] |}
    else
      let* result := Langgraph.toolNode_loop JSON_stringify
                       (default [] (message_tool_calls lastMessage)) [] in
      ret {| Langgraph.messages := ToolMsg <$> result |}.
Proof.
  intros Hlast. unfold Langgraph.toolNode. now rewrite Array_at_minus_one, Hlast.
Qed.

(** Whenever the node returns, it returns one observation per request of
    the latest message, in order. *)
Lemma toolNode_Ok (s : Langgraph.State) (w : list (Call Langgraph.State)) u w' :
  Langgraph.toolNode JSON_stringify s w = (Ok u, w') ->
  exists observations,
    u = {| Langgraph.messages := ToolMsg <$> observations |}
    /\ Forall2 (Langgraph.answers JSON_stringify) (Langgraph.requests s) observations
    /\ w' = w ++ Langgraph.invocations (Langgraph.requests s).
Proof.
  unfold Langgraph.requests.
  destruct (last (Langgraph.messages s)) as [lastMessage|] eqn:Hlast.
  - rewrite (toolNode_latest _ _ Hlast).
    destruct lastMessage as [c|c|ai|t]; cbn [isAIMessage negb message_tool_calls default];
      try (unfold ret; intros [= <- <-]; exists []; cbn; rewrite app_nil_r;
           repeat split; constructor).
    unfold bind.
    destruct (toolNode_loop_spec (default [] (tool_calls ai)) [] w)
      as [(_ & observations & -> & Hans) | (_ & e & w1 & -> & _)]; [|discriminate].
    unfold ret. intros [= <- <-]. exists observations. repeat split. exact Hans.
  - unfold Langgraph.toolNode. rewrite Array_at_minus_one, Hlast.
    unfold ret. intros [= <- <-]. exists []. cbn. rewrite app_nil_r.
    repeat split. constructor.
Qed.

Lemma toolNode_never_ProtocolError (s : Langgraph.State) (w : list (Call Langgraph.State)) :
  fst (Langgraph.toolNode JSON_stringify s w) <> Throw "ProtocolError".
Proof.
  destruct (last (Langgraph.messages s)) as [lastMessage|] eqn:Hlast.
  - rewrite (toolNode_latest _ _ Hlast).
    destruct lastMessage as [c|c|ai|t]; cbn [isAIMessage negb message_tool_calls default];
      try discriminate.
    unfold bind.
    destruct (toolNode_loop_spec (default [] (tool_calls ai)) [] w)
      as [(_ & observations & -> & _) | (_ & e & w1 & -> & [-> | ->])];
      discriminate.
  - unfold Langgraph.toolNode. rewrite Array_at_minus_one, Hlast. discriminate.
Qed.
End ToolNode.

Lemma answers_ids JSON_stringify (calls : list ToolCall) (observations : list ToolMessage) :
  Forall2 (Langgraph.answers JSON_stringify) calls observations ->
  tool_call_id <$> observations = call_id <$> calls
  /\ tool_name <$> observations = (fun c => Some (call_name c)) <$> calls.
Proof.
  induction 1 as [|c o calls observations (tool & input & Htool & _ & ->) _ [IHid IHname]].
  - split; reflexivity.
  - cbn. rewrite IHid, IHname.
    now destruct (toolsByName_lookup _ _ Htool) as [-> ->].
Qed.

(** C7, as the code has it.  When the latest message is an assistant
    message and every one of its tool-call requests can be served (it names
    the registered tool and its arguments pass the schema), the tool node
    invokes the tool once per request, in request order, and returns exactly
    one tool message per request, in request order, each the answer to its
    request.  When some request cannot be served, the node throws and
    returns nothing. *)
Theorem C7_tool_node_results
    (JSON_stringify : float -> string) (s : Langgraph.State) (ai : AIMessage)
    (w : list (Call Langgraph.State)) :
  last (Langgraph.messages s) = Some (AIMsg ai) ->
  let calls := default [] (tool_calls ai) in
  (Forall Langgraph.servable calls ->
     exists observations,
       Langgraph.toolNode JSON_stringify s w
       = (Ok {| Langgraph.messages := ToolMsg <$> observations |},
          w ++ Langgraph.invocations calls)
       /\ length observations = length calls
       /\ Forall2 (Langgraph.answers JSON_stringify) calls observations)
  /\ (~ Forall Langgraph.servable calls ->
     exists e w',
       Langgraph.toolNode JSON_stringify s w = (Throw e, w')
       /\ (e = "TypeError" \/ e = "ToolInputParsingException")).
Proof.
  intros Hlast calls. rewrite (toolNode_latest _ _ _ Hlast).
  cbn [isAIMessage negb message_tool_calls]. fold calls. unfold bind.
  destruct (toolNode_loop_spec JSON_stringify calls [] w)
    as [(Hall & observations & -> & Hans) | (Hex & e & w' & -> & He)].
  - split.
    + intros _. exists observations. split; [reflexivity|]. split; [|exact Hans].
      symmetry. eapply Forall2_length, Hans.
    + intros Hnot. contradiction.
  - split.
    + intros Hall. exfalso. apply Exists_exists in Hex as (c & Hin & Hc).
      apply Hc. rewrite Forall_forall in Hall. apply Hall, Hin.
    + intros _. exists e, w'. split; [reflexivity | exact He].
Qed.

Lemma C7_tool_node_results_witness :
  let request := ArithSample.add_3_4 "call_1" in
  let s := {| Langgraph.messages :=
                [HumanMessage (Str "Add 3 and 4.");
                 AIMsg {| ai_content := Str ""; tool_calls := Some [request] |}] |} in
  exists observations,
    Langgraph.toolNode ArithSample.JSON_stringify s []
    = (Ok {| Langgraph.messages := ToolMsg <$> observations |}, [ToolInvoke "add" request])
    /\ length observations = 1
    /\ Forall2 (Langgraph.answers ArithSample.JSON_stringify) [request] observations.
Proof.
  intros request s.
  apply (proj1 (C7_tool_node_results ArithSample.JSON_stringify s
                  {| ai_content := Str ""; tool_calls := Some [request] |} [] eq_refl)).
  constructor; [|constructor].
  exists Langgraph.add. split; [reflexivity|]. vm_compute. eauto.
Defined.

(** C7, as the claim has it, fails: the latest assistant message asks for a
    tool that the registry does not have; the node throws a [TypeError] and
    returns no tool message, and so does the run in which the model makes
    that request. *)
Lemma C7_counterexample :
  let ai := {| ai_content := Str ""; tool_calls := Some [ArithSample.multiply_3_4] |} in
  let s := {| Langgraph.messages := [HumanMessage (Str "Add 3 and 4."); AIMsg ai] |} in
  last (Langgraph.messages s) = Some (AIMsg ai)
  /\ Langgraph.toolNode ArithSample.JSON_stringify s [] = (Throw "TypeError", [])
  /\ fst (invoke (ArithSample.agent [ArithSample.multiply_3_4]) 25 ArithSample.input [])
     = Throw "TypeError".
Proof.
  intros ai s. split; [reflexivity|]. split; vm_compute; reflexivity.
Qed.

(** C8, as the code has it.  A step of the tool node of [langgraph.ts] that
    returns is followed by the model-call node, and has appended tool
    messages whose correlation ids are the ids of the requests of the latest
    message, one per request and in request order; so each id is carried by
    as many results as requests.  The node checks no correlation: whatever
    the log, its step does not throw a [ProtocolError]. *)
Theorem C8_tool_results_carry_request_ids
    (chatModel : list (Call Langgraph.State) -> list BaseMessage -> Result AIMessage)
    (JSON_stringify : float -> string)
    (s : Langgraph.State) (w : list (Call Langgraph.State)) :
  let agent := Langgraph.agent chatModel JSON_stringify in
  fst (step agent "toolNode" s w) <> Throw "ProtocolError"
  /\ (forall nxt s' w', step agent "toolNode" s w = (Ok (nxt, s'), w') ->
      nxt = "llmCall"
      /\ exists observations,
          Langgraph.messages s' = Langgraph.messages s ++ (ToolMsg <$> observations)
          /\ tool_call_id <$> observations = call_id <$> Langgraph.requests s
          /\ forall id, count_id id (tool_call_id <$> observations)
                        = count_id id (call_id <$> Langgraph.requests s)).
Proof.
  intros agent.
  assert (Hstep : step agent "toolNode" s w
                  = bind (Langgraph.toolNode JSON_stringify s)
                      (fun u => ret ("llmCall", Langgraph.MessagesState s u)) w)
    by reflexivity.
  rewrite Hstep. unfold bind.
  pose proof (toolNode_never_ProtocolError JSON_stringify s w) as Hnever.
  destruct (Langgraph.toolNode JSON_stringify s w) as [[u|e] w1] eqn:Hnode.
  - split; [discriminate|]. unfold ret. intros nxt s' w' [= <- <- <-].
    split; [reflexivity|].
    apply toolNode_Ok in Hnode as (observations & -> & Hans & _).
    apply answers_ids in Hans as [Hids _].
    exists observations. split; [reflexivity|]. split; [exact Hids|].
    intros id. now rewrite Hids.
  - split; [|discriminate]. cbn in *. intros [= ->]. now apply Hnever.
Qed.

Lemma C8_tool_results_carry_request_ids_witness :
  let request := ArithSample.add_3_4 "call_1" in
  let s := {| Langgraph.messages :=
                [HumanMessage (Str "Add 3 and 4.");
                 AIMsg {| ai_content := Str ""; tool_calls := Some [request] |}] |} in
  exists s' w',
    step (ArithSample.agent [request]) "toolNode" s [] = (Ok ("llmCall", s'), w')
    /\ exists observations,
        Langgraph.messages s' = Langgraph.messages s ++ (ToolMsg <$> observations)
        /\ tool_call_id <$> observations = ["call_1"].
Proof.
  intros request s.
  eassert (Hstep : step (ArithSample.agent [request]) "toolNode" s [] = (Ok ("llmCall", _), _)).
  { vm_compute. reflexivity. }
  eexists _, _. split; [exact Hstep|].
  destruct (proj2 (C8_tool_results_carry_request_ids
                     (ArithSample.chatModel [request]) ArithSample.JSON_stringify s [])
              _ _ _ Hstep) as (_ & observations & Hlog & Hids & _).
  exists observations. split; [exact Hlog | exact Hids].
Defined.

(** C8, as the claim has it, fails: the model asks for two additions under
    one id; the tool node answers both, the run goes on to the next model
    call with a log in which that id is carried by two results, and the run
    ends without an error. *)
Lemma C8_counterexample :
  let request := ArithSample.add_3_4 "X" in
  exists final log1 log2,
    invoke (ArithSample.agent [request; request]) 25 ArithSample.input []
    = (Ok final, [ModelInvoke log1; ToolInvoke "add" request; ToolInvoke "add" request;
                  ModelInvoke log2])
    /\ count_id "X" (call_id <$> [request; request]) = 2
    /\ count_id "X" (tool_call_id <$> tool_results log2) = 2
    /\ count_id "X" (tool_call_id <$> tool_results (Langgraph.messages final)) = 2.
Proof.
  intros request. eexists _, _, _. split; [vm_compute; reflexivity|].
  split; [|split]; reflexivity.
Qed.

(** * Further properties of the scripts *)

(** ** The router after a model reply *)

Lemma Array_at_reply (log : list BaseMessage) (m : BaseMessage) :
  Array_at (log ++ [m]) (-1) = Some m.
Proof. rewrite Array_at_minus_one. apply last_snoc. Qed.

Lemma shouldContinue_after_reply (log : list BaseMessage) (reply : AIMessage) :
  Langgraph.shouldContinue {| Langgraph.messages := log ++ [AIMsg reply] |}
  = if has_length (tool_calls reply) then "toolNode" else END.
Proof. unfold Langgraph.shouldContinue. cbn [Langgraph.messages]. now rewrite Array_at_reply. Qed.

Lemma Calculator_shouldContinue_after_reply (log : list BaseMessage) (reply : AIMessage) :
  Calculator.shouldContinue {| Calculator.messages := log ++ [AIMsg reply] |}
  = if has_length (tool_calls reply) then "toolNode" else END.
Proof. unfold Calculator.shouldContinue. cbn [Calculator.messages]. now rewrite Array_at_reply. Qed.

Lemma routeAfterLLM_after_reply (s : Crop.State) (log : list BaseMessage) (reply : AIMessage) :
  Crop.messages s = log ++ [AIMsg reply] ->
  Crop.routeAfterLLM s = if has_length (tool_calls reply) then "toolNode" else "approver".
Proof. intros Hlog. unfold Crop.routeAfterLLM. now rewrite Hlog, Array_at_reply. Qed.

Lemma has_length_true {A : Type} (v : option (list A)) :
  has_length v = true -> exists c cs, v = Some (c :: cs).
Proof. destruct v as [[|c cs]|]; try discriminate. eauto. Qed.

Lemma asks_for_tools_reply (log : list BaseMessage) (reply : AIMessage) :
  has_length (tool_calls reply) = true -> asks_for_tools (log ++ [AIMsg reply]).
Proof.
  intros (c & cs & Hcalls)%has_length_true. exists reply, c, cs.
  split; [apply last_snoc | exact Hcalls].
Qed.

Lemma plain_answer_reply (log : list BaseMessage) (reply : AIMessage) :
  has_length (tool_calls reply) = false -> plain_answer (log ++ [AIMsg reply]).
Proof. intros Hplain. exists reply. split; [apply last_snoc | exact Hplain]. Qed.

(** ** Steps of the arithmetic agents *)

Section LanggraphSteps.
Variable chatModel : list (Call Langgraph.State) -> list BaseMessage -> Result AIMessage.
Variable JSON_stringify : float -> string.

Let agent := Langgraph.agent chatModel JSON_stringify.

Lemma Langgraph_step_llmCall s w :
  step agent "llmCall" s w
  = bind (Langgraph.llmNode chatModel s)
      (fun u => ret (Langgraph.shouldContinue (Langgraph.MessagesState s u),
                     Langgraph.MessagesState s u)) w.
Proof. reflexivity. Qed.

Lemma Langgraph_step_toolNode s w :
  step agent "toolNode" s w
  = bind (Langgraph.toolNode JSON_stringify s)
      (fun u => ret ("llmCall", Langgraph.MessagesState s u)) w.
Proof. reflexivity. Qed.

Lemma Langgraph_nodes cur node :
  nodes agent !! cur = Some node -> cur = "llmCall" \/ cur = "toolNode".
Proof.
  subst agent. unfold Langgraph.agent.
  cbn [nodes addEdge addConditionalEdges addNode newStateGraph].
  intros H.
  apply lookup_insert_Some in H as [[<- _]|[_ H]]; [now right|].
  apply lookup_insert_Some in H as [[<- _]|[_ H]]; [now left|].
  rewrite lookup_empty in H. discriminate.
Qed.

(** A step that succeeds is a model call that appends the reply and asks
    the router, or a tool step that appends one observation per request
    and goes back to the model. *)
Lemma Langgraph_step_inv cur s w nxt s' w' :
  step agent cur s w = (Ok (nxt, s'), w') ->
  (cur = "llmCall"
   /\ exists reply,
       chatModel w (arithmetic_prompt :: Langgraph.messages s) = Ok reply
       /\ Langgraph.messages s' = Langgraph.messages s ++ [AIMsg reply]
       /\ w' = w ++ [ModelInvoke (arithmetic_prompt :: Langgraph.messages s)]
       /\ nxt = if has_length (tool_calls reply) then "toolNode" else END)
  \/ (cur = "toolNode"
      /\ exists observations,
          Langgraph.messages s' = Langgraph.messages s ++ (ToolMsg <$> observations)
          /\ Forall2 (Langgraph.answers JSON_stringify) (Langgraph.requests s) observations
          /\ w' = w ++ Langgraph.invocations (Langgraph.requests s)
          /\ nxt = "llmCall").
Proof.
  intros Hstep.
  assert (Hcur : cur = "llmCall" \/ cur = "toolNode").
  { unfold step in Hstep. destruct (nodes agent !! cur) as [node|] eqn:Hnode; [|discriminate].
    eapply Langgraph_nodes, Hnode. }
  destruct Hcur as [-> | ->].
  - left. split; [reflexivity|]. rewrite Langgraph_step_llmCall in Hstep.
    cbv [bind Langgraph.llmNode Langgraph.modelWithTools_invoke external ret] in Hstep.
    fold arithmetic_prompt in Hstep. revert Hstep.
    destruct (chatModel w _) as [reply|e] eqn:Hreply; [|discriminate].
    intros [= <- <- <-]. exists reply.
    repeat split. cbn [Langgraph.MessagesState Langgraph.messages].
    apply shouldContinue_after_reply.
  - right. split; [reflexivity|]. rewrite Langgraph_step_toolNode in Hstep.
    unfold bind in Hstep. revert Hstep.
    destruct (Langgraph.toolNode JSON_stringify s w) as [[u|e] w1] eqn:Hnode; [|discriminate].
    unfold ret. intros [= <- <- <-].
    apply toolNode_Ok in Hnode as (observations & -> & Hans & ->).
    exists observations. repeat split. exact Hans.
Qed.
End LanggraphSteps.

Section CalculatorSteps.
Variable chatModel : list (Call Calculator.State) -> list BaseMessage -> Result AIMessage.
Variable prebuiltToolNode :
  list StructuredTool -> list (Call Calculator.State) -> Calculator.State
  -> Result (list BaseMessage).

Let agent := Calculator.agent chatModel prebuiltToolNode.

Lemma Calculator_step_inv cur s w nxt s' w' :
  step agent cur s w = (Ok (nxt, s'), w') ->
  (cur = "llmCall"
   /\ exists reply,
       chatModel w (arithmetic_prompt :: Calculator.messages s) = Ok reply
       /\ Calculator.messages s' = Calculator.messages s ++ [AIMsg reply]
       /\ w' = w ++ [ModelInvoke (arithmetic_prompt :: Calculator.messages s)]
       /\ nxt = if has_length (tool_calls reply) then "toolNode" else END)
  \/ (cur = "toolNode"
      /\ exists result,
          prebuiltToolNode Calculator.tools w s = Ok result
          /\ Calculator.messages s' = Calculator.messages s ++ result
          /\ w' = w ++ [ToolNodeInvoke s]
          /\ nxt = "llmCall").
Proof.
  unfold step.
  destruct (nodes agent !! cur) as [node|] eqn:Hnode; [|discriminate].
  subst agent. unfold Calculator.agent in Hnode.
  cbn [nodes addEdge addConditionalEdges addNode newStateGraph] in Hnode.
  apply lookup_insert_Some in Hnode as [[<- <-]|[_ Hnode]].
  { intros Hstep. right. split; [reflexivity|].
    cbv [bind Calculator.toolNode external ret] in Hstep. revert Hstep.
    destruct (prebuiltToolNode Calculator.tools w s) as [result|e] eqn:Hres; [|discriminate].
    intros [= <- <- <-]. exists result. repeat split. }
  apply lookup_insert_Some in Hnode as [[<- <-]|[_ Hnode]].
  { intros Hstep. left. split; [reflexivity|].
    cbv [bind Calculator.llmNode Calculator.modelWithTools_invoke external ret] in Hstep.
    fold arithmetic_prompt in Hstep. revert Hstep.
    destruct (chatModel w _) as [reply|e] eqn:Hreply; [|discriminate].
    intros [= <- <- <-]. exists reply. repeat split.
    apply Calculator_shouldContinue_after_reply. }
  rewrite lookup_empty in Hnode. discriminate.
Qed.
End CalculatorSteps.

(** ** The shape of the runs of the arithmetic agents *)

Section LanggraphRuns.
Variable chatModel : list (Call Langgraph.State) -> list BaseMessage -> Result AIMessage.
Variable JSON_stringify : float -> string.
Variable input : Langgraph.State.

Let agent := Langgraph.agent chatModel JSON_stringify.

Lemma Langgraph_run_shape cur s w :
  reachable agent input cur s w ->
  (exists added, Langgraph.messages s = Langgraph.messages input ++ added)
  /\ (cur = "llmCall"
      \/ (cur = "toolNode" /\ asks_for_tools (Langgraph.messages s))
      \/ (cur = END /\ plain_answer (Langgraph.messages s))).
Proof.
  induction 1 as [|cur s w nxt s' w' Hreach [[added Hlog] _] Hstep].
  - split; [exists []; now rewrite app_nil_r | now left].
  - apply Langgraph_step_inv in Hstep
      as [(-> & reply & _ & Hlog' & _ & ->) | (-> & obs & Hlog' & _ & _ & ->)].
    + rewrite Hlog'. split.
      * exists (added ++ [AIMsg reply]). now rewrite Hlog, app_assoc.
      * destruct (has_length (tool_calls reply)) eqn:Hcalls.
        -- right; left. split; [reflexivity | now apply asks_for_tools_reply].
        -- right; right. split; [reflexivity | now apply plain_answer_reply].
    + split; [|now left].
      exists (added ++ (ToolMsg <$> obs)). now rewrite Hlog', Hlog, app_assoc.
Qed.
End LanggraphRuns.

Section CalculatorRuns.
Variable chatModel : list (Call Calculator.State) -> list BaseMessage -> Result AIMessage.
Variable prebuiltToolNode :
  list StructuredTool -> list (Call Calculator.State) -> Calculator.State
  -> Result (list BaseMessage).
Variable input : Calculator.State.

Let agent := Calculator.agent chatModel prebuiltToolNode.

Lemma Calculator_run_shape cur s w :
  reachable agent input cur s w ->
  (exists added, Calculator.messages s = Calculator.messages input ++ added)
  /\ (cur = "llmCall"
      \/ (cur = "toolNode" /\ asks_for_tools (Calculator.messages s))
      \/ (cur = END /\ plain_answer (Calculator.messages s))).
Proof.
  induction 1 as [|cur s w nxt s' w' Hreach [[added Hlog] _] Hstep].
  - split; [exists []; now rewrite app_nil_r | now left].
  - apply Calculator_step_inv in Hstep
      as [(-> & reply & _ & Hlog' & _ & ->) | (-> & result & _ & Hlog' & _ & ->)].
    + rewrite Hlog'. split.
      * exists (added ++ [AIMsg reply]). now rewrite Hlog, app_assoc.
      * destruct (has_length (tool_calls reply)) eqn:Hcalls.
        -- right; left. split; [reflexivity | now apply asks_for_tools_reply].
        -- right; right. split; [reflexivity | now apply plain_answer_reply].
    + split; [|now left].
      exists (added ++ result). now rewrite Hlog', Hlog, app_assoc.
Qed.
End CalculatorRuns.

(** X1. A run of either arithmetic agent that returns has kept the input
    log as the beginning of its log, and its latest message is an assistant
    message without tool calls: the run returns only on a plain answer of
    the model. *)
Theorem arithmetic_run_returns_plain_answer :
  (forall chatModel JSON_stringify limit (input final : Langgraph.State) w,
      invoke (Langgraph.agent chatModel JSON_stringify) limit input [] = (Ok final, w) ->
      plain_answer (Langgraph.messages final)
      /\ exists added, Langgraph.messages final = Langgraph.messages input ++ added)
  /\ (forall chatModel prebuiltToolNode limit (input final : Calculator.State) w,
      invoke (Calculator.agent chatModel prebuiltToolNode) limit input [] = (Ok final, w) ->
      plain_answer (Calculator.messages final)
      /\ exists added, Calculator.messages final = Calculator.messages input ++ added).
Proof.
  split.
  - intros chatModel JSON_stringify limit input final w Hrun.
    apply invoke_reachable, Langgraph_run_shape in Hrun as [Hlog Hcur].
    split; [|exact Hlog].
    destruct Hcur as [H | [[H _] | [_ H]]]; [discriminate H | discriminate H | exact H].
  - intros chatModel prebuiltToolNode limit input final w Hrun.
    apply invoke_reachable, Calculator_run_shape in Hrun as [Hlog Hcur].
    split; [|exact Hlog].
    destruct Hcur as [H | [[H _] | [_ H]]]; [discriminate H | discriminate H | exact H].
Qed.

Lemma arithmetic_run_returns_plain_answer_witness :
  (exists final w,
      invoke (ArithSample.agent [ArithSample.add_3_4 "call_1"]) 25 ArithSample.input []
      = (Ok final, w)
      /\ plain_answer (Langgraph.messages final))
  /\ (exists final w,
      invoke CalcSample.agent 25 CalcSample.input [] = (Ok final, w)
      /\ plain_answer (Calculator.messages final)).
Proof.
  split.
  - eassert (Hrun : invoke (ArithSample.agent [ArithSample.add_3_4 "call_1"]) 25
                      ArithSample.input [] = (Ok _, _)).
    { vm_compute. reflexivity. }
    eexists _, _. split; [exact Hrun|].
    apply (proj1 arithmetic_run_returns_plain_answer _ _ _ _ _ _ Hrun).
  - eassert (Hrun : invoke CalcSample.agent 25 CalcSample.input [] = (Ok _, _)).
    { vm_compute. reflexivity. }
    eexists _, _. split; [exact Hrun|].
    apply (proj2 arithmetic_run_returns_plain_answer _ _ _ _ _ _ Hrun).
Defined.

(** ** The evaluation node, case by case *)

Lemma approverNode_cases structuredModel (s : Crop.State) (w : list (Call Crop.State)) :
  (truthy (Crop.croppedImageDataUri s) && truthy (Crop.sourceImageDataUri s) = false
   /\ Crop.approverNode structuredModel s w = (Ok (approval_update no_crop_verdict), w))
  \/ (truthy (Crop.croppedImageDataUri s) = true
      /\ truthy (Crop.sourceImageDataUri s) = true
      /\ Crop.approverNode structuredModel s w
         = (match structuredModel w (approval_request s) with
            | Ok response => Ok (approval_update (verdict response))
            | Throw e => Throw e
            end,
            w ++ [StructuredInvoke (approval_request s)])).
Proof.
  unfold Crop.approverNode.
  destruct (truthy (Crop.croppedImageDataUri s)) eqn:Hc;
    destruct (truthy (Crop.sourceImageDataUri s)) eqn:Hs; cbn [negb orb andb];
    try (left; split; reflexivity).
  right. split; [reflexivity|]. split; [reflexivity|].
  cbv [bind Crop.modelWithStructuredOutput_invoke external ret].
  fold (approval_request s).
  destruct (structuredModel w (approval_request s)); reflexivity.
Qed.

(** ** The shape of the runs of the crop agent *)

Lemma first_image_prefix (results : list BaseMessage) (prev : option string) (c : string) :
  Crop.first_image results prev = Some c ->
  prev = Some c \/ String.prefix "data:image/" c = true.
Proof.
  induction results as [|msg rest IH]; cbn [Crop.first_image].
  - now left.
  - destruct (content msg) as [c'|parts]; [|exact IH].
    destruct (String.prefix "data:image/" c') eqn:Hp; [|exact IH].
    intros [= <-]. now right.
Qed.

Section CropShape.
Variable chatModel : list (Call Crop.State) -> list BaseMessage -> Result AIMessage.
Variable structuredModel :
  list (Call Crop.State) -> list BaseMessage -> Result Crop.ApprovalSchema.t.
Variable prebuiltToolNode : list (Call Crop.State) -> Crop.State -> Result (list BaseMessage).
Variable input : list BaseMessage.

Let agent := Crop.agent chatModel structuredModel prebuiltToolNode.

(** The stored crop, when there is one, starts like an image data URI. *)
Lemma cropped_is_image cur s w :
  reachable agent (Crop.initialState input) cur s w ->
  forall c, Crop.croppedImageDataUri s = Some c -> String.prefix "data:image/" c = true.
Proof.
  induction 1 as [|cur s w nxt s' w' Hreach IH Hstep]; [discriminate|].
  apply Crop_step_inv in Hstep as (u & -> & [H|[H|[H|H]]]);
    destruct H as (-> & Hnode & _).
  - apply Crop_llmNode_Ok in Hnode as (response & _ & -> & _). exact IH.
  - apply Crop_toolNode_Ok in Hnode as (toolResult & _ & -> & _).
    cbn [Crop.MessagesState Crop.croppedImageDataUri Crop.upd_croppedImageDataUri
         Crop.croppedImageDataUri_reducer].
    intros c Hc.
    destruct (Crop.first_image toolResult (Crop.croppedImageDataUri s)) as [c'|] eqn:Hfirst;
      [|discriminate].
    injection Hc as ->.
    apply first_image_prefix in Hfirst as [Hprev | Hp]; [now apply IH | exact Hp].
  - apply Crop_approverNode_Ok in Hnode as (a & -> & _). exact IH.
  - apply Crop_addRejectionFeedback_Ok in Hnode as (_ & Hcrop & _).
    cbn [Crop.MessagesState Crop.croppedImageDataUri]. rewrite Hcrop. exact IH.
Qed.

Lemma Crop_run_shape cur s w :
  reachable agent (Crop.initialState input) cur s w ->
  cur = "llmCall"
  \/ (cur = "toolNode" /\ asks_for_tools (Crop.messages s))
  \/ cur = "approver"
  \/ (cur = "addRejectionFeedback" /\ Crop.status (Crop.approval s) = "rejected")
  \/ (cur = END
      /\ Crop.status (Crop.approval s) = "approved"
      /\ truthy (Crop.croppedImageDataUri s) = true
      /\ truthy (Crop.sourceImageDataUri s) = true).
Proof.
  induction 1 as [|cur s w nxt s' w' Hreach _ Hstep]; [now left|].
  apply Crop_step_inv in Hstep as (u & -> & [H|[H|[H|H]]]);
    destruct H as (-> & Hnode & ->).
  - apply Crop_llmNode_Ok in Hnode as (reply & _ & -> & _).
    rewrite (routeAfterLLM_after_reply _ (Crop.messages s) reply) by reflexivity.
    destruct (has_length (tool_calls reply)) eqn:Hcalls.
    + right; left. split; [reflexivity|]. now apply asks_for_tools_reply.
    + right; right; left. reflexivity.
  - right; right; left. reflexivity.
  - destruct (approverNode_cases structuredModel s w) as [[_ Hrun] | (Hc & Hs & Hrun)];
      rewrite Hrun in Hnode.
    + injection Hnode as <- _. right; right; right; left. split; reflexivity.
    + destruct (structuredModel w (approval_request s)) as [response|e]; [|discriminate].
      injection Hnode as <- _.
      unfold Crop.routeAfterApprover. cbn.
      destruct (Crop.ApprovalSchema.approved response); cbn.
      * right; right; right; right. repeat split; assumption.
      * right; right; right; left. split; reflexivity.
  - now left.
Qed.
End CropShape.

(** X3. A run of the crop agent that returns has an approved crop: the
    status is approved, the source image and the cropped image are there, and
    the cropped image is a string that starts with "data:image/".  So the
    end of the script takes its first branch: it writes the piece of the
    cropped image between its first and its second comma (and fails on a
    string without a comma); it never reports a rejection. *)
Theorem crop_run_returns_approved
    (chatModel : list (Call Crop.State) -> list BaseMessage -> Result AIMessage)
    (structuredModel : list (Call Crop.State) -> list BaseMessage -> Result Crop.ApprovalSchema.t)
    (prebuiltToolNode : list (Call Crop.State) -> Crop.State -> Result (list BaseMessage))
    (limit : nat) (input : list BaseMessage) (result : Crop.State) (w : list (Call Crop.State)) :
  invoke (Crop.agent chatModel structuredModel prebuiltToolNode) limit
    (Crop.initialState input) [] = (Ok result, w) ->
  Crop.status (Crop.approval result) = "approved"
  /\ truthy (Crop.sourceImageDataUri result) = true
  /\ exists cropped,
      Crop.croppedImageDataUri result = Some cropped
      /\ String.prefix "data:image/" cropped = true
      /\ CropIO.finalAction result
         = match CropIO.base64Data cropped with
           | Some payload => Ok (CropIO.WriteFile payload)
           | None => Throw "TypeError"
           end.
Proof.
  intros Hrun. apply invoke_reachable in Hrun.
  pose proof (cropped_is_image _ _ _ _ _ _ _ Hrun) as Himage.
  apply Crop_run_shape in Hrun
    as [H | [[H _] | [H | [[H _] | (_ & Hstatus & Hc & Hs)]]]]; try discriminate H.
  split; [exact Hstatus|]. split; [exact Hs|].
  destruct (Crop.croppedImageDataUri result) as [cropped|] eqn:Hcropped; [|discriminate].
  exists cropped. split; [reflexivity|]. split; [now apply Himage|].
  unfold CropIO.finalAction. now rewrite Hcropped, Hc, Hstatus.
Qed.

Lemma crop_run_returns_approved_witness :
  exists result w,
    invoke CropSample.agent 25 (Crop.initialState CropSample.input) [] = (Ok result, w)
    /\ Crop.status (Crop.approval result) = "approved"
    /\ CropIO.finalAction result = Ok (CropIO.WriteFile "UklGRg==").
Proof.
  eassert (Hrun : invoke CropSample.agent 25 (Crop.initialState CropSample.input) []
                  = (Ok _, _)).
  { vm_compute. reflexivity. }
  eexists _, _. split; [exact Hrun|].
  destruct (crop_run_returns_approved _ _ _ _ _ _ _ Hrun)
    as (Hstatus & _ & cropped & Hcropped & _ & Hfinal).
  split; [exact Hstatus|]. rewrite Hfinal.
  injection Hcropped as <-. reflexivity.
Defined.

(** ** The retry loop of the crop agent *)

Section CropLoop.
Variable chatModel : list (Call Crop.State) -> list BaseMessage -> Result AIMessage.
Variable structuredModel :
  list (Call Crop.State) -> list BaseMessage -> Result Crop.ApprovalSchema.t.
Variable prebuiltToolNode : list (Call Crop.State) -> Crop.State -> Result (list BaseMessage).

Let agent := Crop.agent chatModel structuredModel prebuiltToolNode.

Lemma Crop_step_llmCall s w :
  step agent "llmCall" s w
  = bind (Crop.llmNode chatModel s)
      (fun u => ret (Crop.routeAfterLLM (Crop.MessagesState s u), Crop.MessagesState s u)) w.
Proof. reflexivity. Qed.

Lemma Crop_step_toolNode s w :
  step agent "toolNode" s w
  = bind (Crop.toolNode prebuiltToolNode s)
      (fun u => ret ("approver", Crop.MessagesState s u)) w.
Proof. reflexivity. Qed.

Lemma Crop_step_approver s w :
  step agent "approver" s w
  = bind (Crop.approverNode structuredModel s)
      (fun u => ret (Crop.routeAfterApprover (Crop.MessagesState s u),
                     Crop.MessagesState s u)) w.
Proof. reflexivity. Qed.

Lemma Crop_step_addRejectionFeedback s w :
  step agent "addRejectionFeedback" s w
  = bind (Crop.addRejectionFeedback s)
      (fun u => ret ("llmCall", Crop.MessagesState s u)) w.
Proof. reflexivity. Qed.

Lemma Crop_llmNode_reply s w reply :
  chatModel w (SystemMessage (Str (Crop.systemPrompt s)) :: Crop.messages s) = Ok reply ->
  Crop.llmNode chatModel s w
  = (Ok {| Crop.upd_messages := Some [AIMsg reply];
           Crop.upd_sourceImageDataUri :=
             Some (Crop.scan_messages (Crop.messages s) (Crop.sourceImageDataUri s));
           Crop.upd_croppedImageDataUri := None;
           Crop.upd_approval := Some (Some Crop.pending) |},
     w ++ [ModelInvoke (SystemMessage (Str (Crop.systemPrompt s)) :: Crop.messages s)]).
Proof.
  intros Hreply. cbv [Crop.llmNode Crop.modelWithTools_invoke bind external ret].
  now rewrite Hreply.
Qed.

Hypothesis chat_answers : never_throws chatModel.
Hypothesis evaluation_answers : never_throws structuredModel.
Hypothesis tools_answer : never_throws prebuiltToolNode.
Hypothesis never_approved :
  forall w request response,
    structuredModel w request = Ok response -> Crop.ApprovalSchema.approved response = false.

(** With models that answer and an evaluation that never approves, every
    step inside the loop leads to a node inside the loop. *)
Lemma loop_progress cur s w :
  in_loop cur ->
  exists nxt s' w', step agent cur s w = (Ok (nxt, s'), w') /\ in_loop nxt.
Proof.
  intros [-> | [-> | [-> | ->]]].
  - destruct (chat_answers w (SystemMessage (Str (Crop.systemPrompt s)) :: Crop.messages s))
      as [reply Hreply].
    rewrite Crop_step_llmCall. unfold bind. rewrite (Crop_llmNode_reply _ _ _ Hreply).
    unfold ret. eexists _, _, _. split; [reflexivity|].
    rewrite (routeAfterLLM_after_reply _ (Crop.messages s) reply) by reflexivity.
    destruct (has_length (tool_calls reply)); [right; left | right; right; left]; reflexivity.
  - destruct (tools_answer w s) as [toolResult Hres].
    rewrite Crop_step_toolNode. cbv [bind Crop.toolNode external ret]. rewrite Hres.
    eexists _, _, _. split; [reflexivity|]. right; right; left. reflexivity.
  - rewrite Crop_step_approver. unfold bind.
    destruct (approverNode_cases structuredModel s w) as [[_ ->] | (_ & _ & ->)].
    + unfold ret. eexists _, _, _. split; [reflexivity|]. right; right; right. reflexivity.
    + destruct (evaluation_answers w (approval_request s)) as [response Hres].
      rewrite Hres. unfold ret. eexists _, _, _. split; [reflexivity|].
      unfold Crop.routeAfterApprover. cbn.
      rewrite (never_approved _ _ _ Hres). right; right; right. reflexivity.
  - rewrite Crop_step_addRejectionFeedback. cbv [bind Crop.addRejectionFeedback ret].
    eexists _, _, _. split; [reflexivity|]. now left.
Qed.

Lemma loop_never_ends limit cur s w :
  in_loop cur ->
  exists w', run agent limit cur s w = (Throw "GraphRecursionError", w').
Proof.
  revert cur s w. induction limit as [|limit IH]; intros cur s w Hloop.
  - exists w. destruct Hloop as [-> | [-> | [-> | ->]]]; reflexivity.
  - destruct (loop_progress cur s w Hloop) as (nxt & s' & w' & Hstep & Hnxt).
    destruct (IH nxt s' w' Hnxt) as [w'' Hrun]. exists w''.
    cbn [run]. replace (String.eqb cur END) with false
      by (destruct Hloop as [-> | [-> | [-> | ->]]]; reflexivity).
    unfold bind at 1. rewrite Hstep. exact Hrun.
Qed.
End CropLoop.



(** ** When the tool node runs *)

(** X2. In every run of each of the three agents, the tool node is only
    reached on a log whose latest message is an assistant message with at
    least one tool call.  In [langgraph.ts] the tool node therefore never
    takes its early return in a run, and has at least one request to
    serve. *)
Theorem tool_node_runs_on_requests :
  (forall chatModel JSON_stringify input s w,
      reachable (Langgraph.agent chatModel JSON_stringify) input "toolNode" s w ->
      asks_for_tools (Langgraph.messages s) /\ Langgraph.requests s <> [])
  /\ (forall chatModel prebuiltToolNode input s w,
      reachable (Calculator.agent chatModel prebuiltToolNode) input "toolNode" s w ->
      asks_for_tools (Calculator.messages s))
  /\ (forall chatModel structuredModel prebuiltToolNode input s w,
      reachable (Crop.agent chatModel structuredModel prebuiltToolNode)
        (Crop.initialState input) "toolNode" s w ->
      asks_for_tools (Crop.messages s)).
Proof.
  split; [|split].
  - intros chatModel JSON_stringify input s w Hreach.
    apply Langgraph_run_shape in Hreach as [_ [H | [[_ H] | [H _]]]];
      [discriminate H | | discriminate H].
    split; [exact H|].
    destruct H as (ai & c & cs & Hlast & Hcalls).
    unfold Langgraph.requests. rewrite Hlast. cbn. now rewrite Hcalls.
  - intros chatModel prebuiltToolNode input s w Hreach.
    apply Calculator_run_shape in Hreach as [_ [H | [[_ H] | [H _]]]];
      [discriminate H | exact H | discriminate H].
  - intros chatModel structuredModel prebuiltToolNode input s w Hreach.
    apply Crop_run_shape in Hreach as [H | [[_ H] | [H | [[H _] | [H _]]]]];
      try discriminate H.
    exact H.
Qed.

Lemma tool_node_runs_on_requests_witness :
  (exists s w,
      reachable (ArithSample.agent [ArithSample.add_3_4 "call_1"]) ArithSample.input
        "toolNode" s w
      /\ asks_for_tools (Langgraph.messages s)
      /\ Langgraph.requests s <> [])
  /\ (exists s w,
      reachable CalcSample.agent CalcSample.input "toolNode" s w
      /\ asks_for_tools (Calculator.messages s))
  /\ (exists s w,
      reachable CropSample.agent (Crop.initialState CropSample.input) "toolNode" s w
      /\ asks_for_tools (Crop.messages s)).
Proof.
  split; [|split].
  - eassert (Hreach : reachable (ArithSample.agent [ArithSample.add_3_4 "call_1"])
                        ArithSample.input "toolNode" _ _).
    { eapply (steps_reachable _ _ 1 "llmCall"); [exact (reachable_start _ _)|].
      vm_compute. reflexivity. }
    eexists _, _. split; [exact Hreach|].
    apply (proj1 tool_node_runs_on_requests _ _ _ _ _ Hreach).
  - eassert (Hreach : reachable CalcSample.agent CalcSample.input "toolNode" _ _).
    { eapply (steps_reachable _ _ 1 "llmCall"); [exact (reachable_start _ _)|].
      vm_compute. reflexivity. }
    eexists _, _. split; [exact Hreach|].
    apply (proj1 (proj2 tool_node_runs_on_requests) _ _ _ _ _ Hreach).
  - eassert (Hreach : reachable CropSample.agent (Crop.initialState CropSample.input)
                        "toolNode" _ _).
    { eapply (steps_reachable _ _ 1 "llmCall"); [exact (reachable_start _ _)|].
      vm_compute. reflexivity. }
    eexists _, _. split; [exact Hreach|].
    apply (proj2 (proj2 tool_node_runs_on_requests) _ _ _ _ _ _ Hreach).
Defined.

(** ** What the chat model is shown *)

Lemma model_logs_app {State : Type} (w1 w2 : list (Call State)) :
  model_logs (w1 ++ w2) = model_logs w1 ++ model_logs w2.
Proof. unfold model_logs. apply omap_app. Qed.

Lemma model_logs_invocations (calls : list ToolCall) :
  model_logs (Langgraph.invocations calls) = [].
Proof. induction calls as [|c calls IH]; [reflexivity | exact IH]. Qed.

Lemma shows_history_grows (current added log : list BaseMessage) :
  shows_history current log -> shows_history (current ++ added) log.
Proof.
  intros (prompt & history & -> & Hprefix). exists prompt, history.
  split; [reflexivity|]. now apply prefix_app_r.
Qed.

Lemma shows_history_now (prompt : string) (current added : list BaseMessage) :
  shows_history (current ++ added) (SystemMessage (Str prompt) :: current).
Proof.
  exists prompt, current. split; [reflexivity|]. now apply prefix_app_r.
Qed.

Lemma Crop_step_log chatModel structuredModel prebuiltToolNode cur s w nxt s' w' :
  step (Crop.agent chatModel structuredModel prebuiltToolNode) cur s w = (Ok (nxt, s'), w') ->
  exists added,
    Crop.messages s' = Crop.messages s ++ added
    /\ (model_logs w' = model_logs w
        \/ (cur = "llmCall"
            /\ model_logs w'
               = model_logs w
                 ++ [SystemMessage (Str (Crop.systemPrompt s)) :: Crop.messages s])).
Proof.
  intros Hstep.
  apply Crop_step_inv in Hstep as (u & -> & [H|[H|[H|H]]]);
    destruct H as (-> & Hnode & _).
  - apply Crop_llmNode_Ok in Hnode as (reply & _ & -> & ->).
    exists [AIMsg reply]. split; [reflexivity|]. right. split; [reflexivity|].
    now rewrite model_logs_app.
  - apply Crop_toolNode_Ok in Hnode as (toolResult & _ & -> & ->).
    exists toolResult. split; [reflexivity|]. left.
    rewrite model_logs_app. apply app_nil_r.
  - apply Crop_approverNode_Ok in Hnode as (a & -> & _ & [-> | (i & ->)]);
      exists []; (split; [cbn; now rewrite app_nil_r|]); left; [reflexivity|].
    rewrite model_logs_app. apply app_nil_r.
  - unfold Crop.addRejectionFeedback, ret in Hnode. injection Hnode as <- <-.
    eexists. split; [reflexivity|]. now left.
Qed.

(** X5. Every call to the chat model carries a system message followed by
    the whole log of that moment, and no step rewrites the log: at every
    configuration of a run of the hand-written agent or of the crop agent,
    each log the model was sent is a system message followed by a beginning
    of the current log. *)
Theorem model_is_shown_the_history :
  (forall chatModel JSON_stringify input cur s w,
      reachable (Langgraph.agent chatModel JSON_stringify) input cur s w ->
      Forall (shows_history (Langgraph.messages s)) (model_logs w)
      /\ forall nxt s' w',
          step (Langgraph.agent chatModel JSON_stringify) "llmCall" s w = (Ok (nxt, s'), w') ->
          model_logs w' = model_logs w ++ [arithmetic_prompt :: Langgraph.messages s])
  /\ (forall chatModel structuredModel prebuiltToolNode input cur s w,
      reachable (Crop.agent chatModel structuredModel prebuiltToolNode)
        (Crop.initialState input) cur s w ->
      Forall (shows_history (Crop.messages s)) (model_logs w)
      /\ forall nxt s' w',
          step (Crop.agent chatModel structuredModel prebuiltToolNode) "llmCall" s w
          = (Ok (nxt, s'), w') ->
          model_logs w'
          = model_logs w ++ [SystemMessage (Str (Crop.systemPrompt s)) :: Crop.messages s]).
Proof.
  split.
  - intros chatModel JSON_stringify input cur s w Hreach. split.
    + induction Hreach as [|cur s w nxt s' w' Hreach IH Hstep]; [constructor|].
      apply Langgraph_step_inv in Hstep
        as [(_ & reply & _ & -> & -> & _) | (_ & obs & -> & _ & -> & _)];
        rewrite model_logs_app.
      * apply Forall_app. split.
        -- eapply Forall_impl; [exact IH|]. intros log. apply shows_history_grows.
        -- constructor; [|constructor]. apply shows_history_now.
      * rewrite model_logs_invocations, app_nil_r.
        eapply Forall_impl; [exact IH|]. intros log. apply shows_history_grows.
    + intros nxt s' w' Hstep.
      apply Langgraph_step_inv in Hstep
        as [(_ & reply & _ & _ & -> & _) | (H & _)]; [|discriminate H].
      now rewrite model_logs_app.
  - intros chatModel structuredModel prebuiltToolNode input cur s w Hreach. split.
    + induction Hreach as [|cur s w nxt s' w' Hreach IH Hstep]; [constructor|].
      apply Crop_step_log in Hstep as (added & -> & [-> | (_ & ->)]).
      * eapply Forall_impl; [exact IH|]. intros log. apply shows_history_grows.
      * apply Forall_app. split.
        -- eapply Forall_impl; [exact IH|]. intros log. apply shows_history_grows.
        -- constructor; [|constructor]. apply shows_history_now.
    + intros nxt s' w' Hstep.
      rewrite Crop_step_llmCall in Hstep. unfold bind in Hstep. revert Hstep.
      destruct (Crop.llmNode chatModel s w) as [[u|e] w1] eqn:Hnode; [|discriminate].
      unfold ret. intros [= <- <- <-].
      apply Crop_llmNode_Ok in Hnode as (reply & _ & _ & ->).
      now rewrite model_logs_app.
Qed.

Lemma model_is_shown_the_history_witness :
  (exists s w,
      reachable (ArithSample.agent [ArithSample.add_3_4 "call_1"]) ArithSample.input END s w
      /\ length (model_logs w) = 2
      /\ Forall (shows_history (Langgraph.messages s)) (model_logs w))
  /\ (exists s w,
      reachable CropSample.retrying (Crop.initialState CropSample.input) "toolNode" s w
      /\ length (model_logs w) = 2
      /\ Forall (shows_history (Crop.messages s)) (model_logs w)).
Proof.
  split.
  - eassert (Hreach : reachable (ArithSample.agent [ArithSample.add_3_4 "call_1"])
                        ArithSample.input END _ _).
    { eapply (invoke_reachable _ _ 25). vm_compute. reflexivity. }
    eexists _, _. split; [exact Hreach|]. split; [reflexivity|].
    apply (proj1 model_is_shown_the_history _ _ _ _ _ _ Hreach).
  - eassert (Hreach : reachable CropSample.retrying (Crop.initialState CropSample.input)
                        "toolNode" _ _).
    { eapply (steps_reachable _ _ 5 "llmCall"); [exact (reachable_start _ _)|].
      vm_compute. reflexivity. }
    eexists _, _. split; [exact Hreach|]. split; [reflexivity|].
    apply (proj2 model_is_shown_the_history _ _ _ _ _ _ _ Hreach).
Defined.

(** ** The evaluation step *)

(** X6. A step of the evaluation node changes nothing but the approval
    record.  If the cropped or the source image is missing or empty, it calls
    no model, records the fixed rejection and goes to the feedback node.
    Otherwise it calls the model once, with the rubric, the source image and
    the cropped image in that order; it records the model's feedback, and
    ends the run exactly when the model approves, going to the feedback node
    when it does not. *)
Theorem evaluation_step
    (chatModel : list (Call Crop.State) -> list BaseMessage -> Result AIMessage)
    (structuredModel : list (Call Crop.State) -> list BaseMessage -> Result Crop.ApprovalSchema.t)
    (prebuiltToolNode : list (Call Crop.State) -> Crop.State -> Result (list BaseMessage))
    (s : Crop.State) (w : list (Call Crop.State)) :
  let agent := Crop.agent chatModel structuredModel prebuiltToolNode in
  let record a :=
    {| Crop.messages := Crop.messages s;
       Crop.sourceImageDataUri := Crop.sourceImageDataUri s;
       Crop.croppedImageDataUri := Crop.croppedImageDataUri s;
       Crop.approval := a |} in
  (truthy (Crop.croppedImageDataUri s) && truthy (Crop.sourceImageDataUri s) = false ->
     step agent "approver" s w = (Ok ("addRejectionFeedback", record no_crop_verdict), w))
  /\ (truthy (Crop.croppedImageDataUri s) && truthy (Crop.sourceImageDataUri s) = true ->
      forall response,
        structuredModel w (approval_request s) = Ok response ->
        step agent "approver" s w
        = (Ok (if Crop.ApprovalSchema.approved response then END else "addRejectionFeedback",
               record (verdict response)),
           w ++ [StructuredInvoke (approval_request s)])).
Proof.
  intros agent record. subst agent.
  split.
  - intros Hmissing. rewrite Crop_step_approver. unfold bind.
    destruct (approverNode_cases structuredModel s w) as [[_ ->] | (Hc & Hs & _)].
    + reflexivity.
    + rewrite Hc, Hs in Hmissing. discriminate.
  - intros Hboth response Hresponse. rewrite Crop_step_approver. unfold bind.
    destruct (approverNode_cases structuredModel s w) as [[Hmissing _] | (_ & _ & ->)].
    + rewrite Hmissing in Hboth. discriminate.
    + rewrite Hresponse. unfold ret, Crop.routeAfterApprover. cbn.
      destruct (Crop.ApprovalSchema.approved response); reflexivity.
Qed.

Lemma evaluation_step_witness :
  let no_crop := Crop.initialState CropSample.input in
  let with_crop :=
    {| Crop.messages := CropSample.input;
       Crop.sourceImageDataUri := Some CropSample.image;
       Crop.croppedImageDataUri := Some CropSample.cropped;
       Crop.approval := Crop.pending |} in
  fst (step CropSample.retrying "approver" no_crop [])
  = Ok ("addRejectionFeedback",
        {| Crop.messages := CropSample.input;
           Crop.sourceImageDataUri := None;
           Crop.croppedImageDataUri := None;
           Crop.approval := no_crop_verdict |})
  /\ snd (step CropSample.agent "approver" with_crop [])
     = [StructuredInvoke (approval_request with_crop)].
Proof.
  intros no_crop with_crop. unfold CropSample.retrying, CropSample.agent. split.
  - rewrite (proj1 (evaluation_step CropSample.insistentModel CropSample.strictModel
                      CropSample.prebuiltToolNode no_crop []) eq_refl).
    reflexivity.
  - rewrite (proj2 (evaluation_step CropSample.chatModel CropSample.structuredModel
                      CropSample.prebuiltToolNode with_crop []) eq_refl _ eq_refl).
    reflexivity.
Defined.

(** ** The tool step of the crop agent *)

Lemma first_image_none (results : list BaseMessage) (prev : option string) :
  Forall (fun m => is_image_result m = false) results ->
  Crop.first_image results prev = prev.
Proof.
  induction 1 as [|msg rest Hmsg _ IH]; [reflexivity|].
  cbn [Crop.first_image]. unfold is_image_result in Hmsg.
  destruct (content msg) as [c|parts]; [|exact IH]. now rewrite Hmsg.
Qed.

Lemma first_image_first (before after : list BaseMessage) (msg : BaseMessage)
    (prev : option string) :
  Forall (fun m => is_image_result m = false) before ->
  is_image_result msg = true ->
  exists c, content msg = Str c /\ Crop.first_image (before ++ msg :: after) prev = Some c.
Proof.
  intros Hbefore Hmsg. induction Hbefore as [|m rest Hm _ IH].
  - cbn [app Crop.first_image]. unfold is_image_result in Hmsg.
    destruct (content msg) as [c|parts]; [|discriminate].
    exists c. now rewrite Hmsg.
  - destruct IH as (c & Hc & Hfirst). exists c. split; [exact Hc|].
    cbn [app Crop.first_image]. unfold is_image_result in Hm.
    destruct (content m) as [c'|parts]; [|exact Hfirst]. now rewrite Hm.
Qed.

(** X7. A step of the tool node of the crop agent calls the prebuilt tool
    node once with the whole state, appends its results to the log, leaves
    the source image and the approval record as they were, and goes to the
    evaluation node.  The cropped image becomes the content of the first
    result whose content is a string starting with "data:image/"; later
    such results are ignored, and when there is none the cropped image of an
    earlier attempt is kept. *)
Theorem crop_tool_step
    (chatModel : list (Call Crop.State) -> list BaseMessage -> Result AIMessage)
    (structuredModel : list (Call Crop.State) -> list BaseMessage -> Result Crop.ApprovalSchema.t)
    (prebuiltToolNode : list (Call Crop.State) -> Crop.State -> Result (list BaseMessage))
    (s : Crop.State) (w : list (Call Crop.State)) (toolResult : list BaseMessage) :
  prebuiltToolNode w s = Ok toolResult ->
  exists s',
    step (Crop.agent chatModel structuredModel prebuiltToolNode) "toolNode" s w
    = (Ok ("approver", s'), w ++ [ToolNodeInvoke s])
    /\ Crop.messages s' = Crop.messages s ++ toolResult
    /\ Crop.sourceImageDataUri s' = Crop.sourceImageDataUri s
    /\ Crop.approval s' = Crop.approval s
    /\ (Forall (fun m => is_image_result m = false) toolResult ->
        Crop.croppedImageDataUri s' = Crop.croppedImageDataUri s)
    /\ (forall before msg after,
        toolResult = before ++ msg :: after ->
        Forall (fun m => is_image_result m = false) before ->
        is_image_result msg = true ->
        exists c, content msg = Str c /\ Crop.croppedImageDataUri s' = Some c).
Proof.
  intros Hresult. eexists. split.
  { rewrite Crop_step_toolNode. cbv [bind Crop.toolNode external ret]. rewrite Hresult.
    reflexivity. }
  cbn [Crop.MessagesState Crop.messages Crop.sourceImageDataUri Crop.approval
       Crop.croppedImageDataUri Crop.upd_messages Crop.upd_sourceImageDataUri
       Crop.upd_approval Crop.upd_croppedImageDataUri].
  unfold Crop.croppedImageDataUri_reducer.
  repeat split.
  - intros Hnone. rewrite (first_image_none _ _ Hnone).
    now destruct (Crop.croppedImageDataUri s).
  - intros before msg after -> Hbefore Hmsg.
    destruct (first_image_first before after msg (Crop.croppedImageDataUri s) Hbefore Hmsg)
      as (c & Hc & ->).
    exists c. split; [exact Hc | reflexivity].
Qed.

Lemma crop_tool_step_witness :
  let s := {| Crop.messages := CropSample.input;
              Crop.sourceImageDataUri := Some CropSample.image;
              Crop.croppedImageDataUri := None;
              Crop.approval := Crop.pending |} in
  exists s',
    step CropSample.agent "toolNode" s [] = (Ok ("approver", s'), [ToolNodeInvoke s])
    /\ Crop.croppedImageDataUri s' = Some CropSample.cropped.
Proof.
  intros s.
  destruct (crop_tool_step CropSample.chatModel CropSample.structuredModel
              CropSample.prebuiltToolNode s [] _ eq_refl)
    as (s' & Hstep & _ & _ & _ & _ & Hfirst).
  exists s'. split; [exact Hstep|].
  destruct (Hfirst [] _ [] eq_refl (Forall_nil_2 _) eq_refl) as (c & Hc & ->).
  now injection Hc as <-.
Defined.

(** ** Requests and results along a run of the hand-written agent *)

Lemma request_ids_app (l1 l2 : list BaseMessage) :
  request_ids (l1 ++ l2) = request_ids l1 ++ request_ids l2.
Proof. unfold request_ids. now rewrite flat_map_app, fmap_app. Qed.

Lemma result_ids_app (l1 l2 : list BaseMessage) :
  result_ids (l1 ++ l2) = result_ids l1 ++ result_ids l2.
Proof. unfold result_ids, tool_results. now rewrite omap_app, fmap_app. Qed.

Lemma request_ids_results (observations : list ToolMessage) :
  request_ids (ToolMsg <$> observations) = [].
Proof. induction observations as [|o os IH]; [reflexivity | exact IH]. Qed.

Lemma result_ids_results (observations : list ToolMessage) :
  result_ids (ToolMsg <$> observations) = tool_call_id <$> observations.
Proof.
  induction observations as [|o os IH]; [reflexivity|].
  unfold result_ids, tool_results in *. cbn. now rewrite IH.
Qed.

Section LanggraphCorrelation.
Variable chatModel : list (Call Langgraph.State) -> list BaseMessage -> Result AIMessage.
Variable JSON_stringify : float -> string.
Variable input : Langgraph.State.
Hypothesis input_answered :
  result_ids (Langgraph.messages input) = request_ids (Langgraph.messages input).

Let agent := Langgraph.agent chatModel JSON_stringify.

Lemma correlation_invariant cur s w :
  reachable agent input cur s w ->
  request_ids (Langgraph.messages s)
  = result_ids (Langgraph.messages s)
    ++ (if String.eqb cur "toolNode" then call_id <$> Langgraph.requests s else []).
Proof.
  induction 1 as [|cur s w nxt s' w' Hreach IH Hstep].
  - cbn. now rewrite app_nil_r.
  - apply Langgraph_step_inv in Hstep
      as [(-> & reply & _ & Hlog & _ & ->) | (-> & obs & Hlog & Hans & _ & ->)].
    + cbn in IH. rewrite app_nil_r in IH.
      rewrite Hlog, request_ids_app, result_ids_app, IH.
      unfold Langgraph.requests. rewrite Hlog, last_snoc.
      cbn [message_tool_calls]. unfold result_ids at 2, request_ids. cbn.
      rewrite !app_nil_r.
      destruct (tool_calls reply) as [[|c cs]|]; cbn; now rewrite ?app_nil_r.
    + cbn in IH. apply answers_ids in Hans as [Hids _].
      rewrite Hlog, request_ids_app, result_ids_app, request_ids_results,
        result_ids_results, Hids, IH.
      cbn. now rewrite !app_nil_r.
Qed.
End LanggraphCorrelation.

(** X12. In a run of the hand-written agent that starts from a log in which
    every request has its result, whenever the model is about to be called
    and when the run has ended, the correlation ids of the tool results in
    the log are the correlation ids of the requests in the log, in the same
    order: every request of the run has been answered once, in order, before
    the next model call. *)
Theorem requests_answered_before_model_call
    (chatModel : list (Call Langgraph.State) -> list BaseMessage -> Result AIMessage)
    (JSON_stringify : float -> string)
    (input : Langgraph.State) (cur : string) (s : Langgraph.State)
    (w : list (Call Langgraph.State)) :
  result_ids (Langgraph.messages input) = request_ids (Langgraph.messages input) ->
  reachable (Langgraph.agent chatModel JSON_stringify) input cur s w ->
  cur <> "toolNode" ->
  result_ids (Langgraph.messages s) = request_ids (Langgraph.messages s).
Proof.
  intros Hinput Hreach Hcur.
  rewrite (correlation_invariant _ _ _ Hinput _ _ _ Hreach).
  destruct (String.eqb_spec cur "toolNode"); [contradiction|]. now rewrite app_nil_r.
Qed.

Lemma requests_answered_before_model_call_witness :
  let calls := [ArithSample.add_3_4 "call_1"; ArithSample.add_3_4 "call_2"] in
  exists final w,
    invoke (ArithSample.agent calls) 25 ArithSample.input [] = (Ok final, w)
    /\ result_ids (Langgraph.messages final) = ["call_1"; "call_2"]
    /\ result_ids (Langgraph.messages final) = request_ids (Langgraph.messages final).
Proof.
  intros calls.
  eassert (Hrun : invoke (ArithSample.agent calls) 25 ArithSample.input [] = (Ok _, _)).
  { vm_compute. reflexivity. }
  eexists _, _. split; [exact Hrun|]. split; [reflexivity|].
  eapply (requests_answered_before_model_call (ArithSample.chatModel calls)
            ArithSample.JSON_stringify ArithSample.input END).
  - reflexivity.
  - eapply invoke_reachable, Hrun.
  - discriminate.
Defined.

(** ** Failed external calls *)

(** X11. No node catches or retries a failed external call.  When the chat
    model, the prebuilt tool node or the evaluation model throws, the run
    ends with that error, after that one call and without a further step. *)
Theorem failed_call_ends_the_run (limit : nat) (e : Error) :
  (forall chatModel JSON_stringify (s : Langgraph.State) w,
      chatModel w (arithmetic_prompt :: Langgraph.messages s) = Throw e ->
      run (Langgraph.agent chatModel JSON_stringify) (S limit) "llmCall" s w
      = (Throw e, w ++ [ModelInvoke (arithmetic_prompt :: Langgraph.messages s)]))
  /\ (forall chatModel structuredModel prebuiltToolNode (s : Crop.State) w,
      let agent := Crop.agent chatModel structuredModel prebuiltToolNode in
      let request := SystemMessage (Str (Crop.systemPrompt s)) :: Crop.messages s in
      (chatModel w request = Throw e ->
         run agent (S limit) "llmCall" s w = (Throw e, w ++ [ModelInvoke request]))
      /\ (prebuiltToolNode w s = Throw e ->
         run agent (S limit) "toolNode" s w = (Throw e, w ++ [ToolNodeInvoke s]))
      /\ (truthy (Crop.croppedImageDataUri s) = true ->
         truthy (Crop.sourceImageDataUri s) = true ->
         structuredModel w (approval_request s) = Throw e ->
         run agent (S limit) "approver" s w
         = (Throw e, w ++ [StructuredInvoke (approval_request s)]))).
Proof.
  split.
  - intros chatModel JSON_stringify s w Hthrow.
    cbn [run]. change (String.eqb "llmCall" END) with false. cbv iota.
    unfold bind at 1. rewrite Langgraph_step_llmCall.
    cbv [bind Langgraph.llmNode Langgraph.modelWithTools_invoke external ret].
    fold arithmetic_prompt. now rewrite Hthrow.
  - intros chatModel structuredModel prebuiltToolNode s w agent request. subst agent.
    split; [|split].
    + intros Hthrow. cbn [run]. change (String.eqb "llmCall" END) with false. cbv iota.
      unfold bind at 1. rewrite Crop_step_llmCall.
      cbv [bind Crop.llmNode Crop.modelWithTools_invoke external ret].
      fold request. now rewrite Hthrow.
    + intros Hthrow. cbn [run]. change (String.eqb "toolNode" END) with false. cbv iota.
      unfold bind at 1. rewrite Crop_step_toolNode.
      cbv [bind Crop.toolNode external ret]. now rewrite Hthrow.
    + intros Hc Hs Hthrow. cbn [run]. change (String.eqb "approver" END) with false.
      cbv iota. unfold bind at 1. rewrite Crop_step_approver. unfold bind.
      destruct (approverNode_cases structuredModel s w) as [[Hmissing _] | (_ & _ & ->)].
      * rewrite Hc, Hs in Hmissing. discriminate.
      * now rewrite Hthrow.
Qed.

Lemma failed_call_ends_the_run_witness :
  let failing (_ : list (Call Langgraph.State)) (_ : list BaseMessage) : Result AIMessage :=
    Throw "RateLimitError" in
  let unavailable (_ : list (Call Crop.State)) (_ : list BaseMessage)
    : Result Crop.ApprovalSchema.t := Throw "RateLimitError" in
  let with_crop :=
    {| Crop.messages := CropSample.input;
       Crop.sourceImageDataUri := Some CropSample.image;
       Crop.croppedImageDataUri := Some CropSample.cropped;
       Crop.approval := Crop.pending |} in
  invoke (Langgraph.agent failing ArithSample.JSON_stringify) 25 ArithSample.input []
  = (Throw "RateLimitError",
     [ModelInvoke (arithmetic_prompt :: Langgraph.messages ArithSample.input)])
  /\ run (Crop.agent CropSample.chatModel unavailable CropSample.prebuiltToolNode) 25
       "approver" with_crop []
     = (Throw "RateLimitError", [StructuredInvoke (approval_request with_crop)]).
Proof.
  intros failing unavailable with_crop. split.
  - apply (proj1 (failed_call_ends_the_run 24 "RateLimitError") failing
             ArithSample.JSON_stringify ArithSample.input []).
    reflexivity.
  - apply (proj2 (proj2 (proj2 (failed_call_ends_the_run 24 "RateLimitError")
                                 CropSample.chatModel unavailable
                                 CropSample.prebuiltToolNode with_crop [])));
      reflexivity.
Defined.

(** ** From a rejection to the next model call *)

(** X8. When the evaluation model rejects a crop with feedback [f], the
    next three steps are the evaluation, the feedback node and the model
    call.  The model is then called with a log that ends with a human
    message holding [f], and, when [f] is not empty, with a system prompt
    that quotes [f]; with an empty [f] the prompt is the one of a first
    attempt.  That model-call step resets the approval record, so the
    feedback appears in the prompt of this one call only. *)
Theorem rejection_feedback_reaches_the_model
    (chatModel : list (Call Crop.State) -> list BaseMessage -> Result AIMessage)
    (structuredModel : list (Call Crop.State) -> list BaseMessage -> Result Crop.ApprovalSchema.t)
    (prebuiltToolNode : list (Call Crop.State) -> Crop.State -> Result (list BaseMessage))
    (s : Crop.State) (w : list (Call Crop.State))
    (response : Crop.ApprovalSchema.t) (reply : AIMessage) :
  let agent := Crop.agent chatModel structuredModel prebuiltToolNode in
  let f := Crop.ApprovalSchema.feedback response in
  let note :=
    HumanMessage (Str ("The crop was rejected. Feedback: " +:+ f +:+ newline +:+ newline
                       +:+ "Please try again with adjusted crop parameters.")) in
  let rejected :=
    {| Crop.messages := Crop.messages s ++ [note];
       Crop.sourceImageDataUri := Crop.sourceImageDataUri s;
       Crop.croppedImageDataUri := Crop.croppedImageDataUri s;
       Crop.approval := {| Crop.status := "rejected"; Crop.feedback := Some f |} |} in
  let prompt := Crop.systemPrompt rejected in
  let w1 := w ++ [StructuredInvoke (approval_request s)] in
  truthy (Crop.croppedImageDataUri s) = true ->
  truthy (Crop.sourceImageDataUri s) = true ->
  structuredModel w (approval_request s) = Ok response ->
  Crop.ApprovalSchema.approved response = false ->
  chatModel w1 (SystemMessage (Str prompt) :: Crop.messages rejected) = Ok reply ->
  (exists nxt s3,
      steps agent 3 "approver" s w
      = (Ok (nxt, s3), w1 ++ [ModelInvoke (SystemMessage (Str prompt) :: Crop.messages rejected)])
      /\ Crop.messages s3 = Crop.messages s ++ [note; AIMsg reply]
      /\ Crop.approval s3 = Crop.pending)
  /\ (f <> "" -> exists before after, prompt = before +:+ dquote +:+ f +:+ dquote +:+ after)
  /\ (f = "" -> prompt = Crop.systemPrompt (Crop.initialState [])).
Proof.
  intros agent f note rejected prompt w1 Hc Hs Hresponse Hrejected Hreply.
  split; [|split].
  - set (s1 := {| Crop.messages := Crop.messages s;
                  Crop.sourceImageDataUri := Crop.sourceImageDataUri s;
                  Crop.croppedImageDataUri := Crop.croppedImageDataUri s;
                  Crop.approval := {| Crop.status := "rejected";
                                      Crop.feedback := Some f |} |}).
    assert (H1 : step agent "approver" s w = (Ok ("addRejectionFeedback", s1), w1)).
    { subst agent. rewrite Crop_step_approver. unfold bind.
      destruct (approverNode_cases structuredModel s w) as [[Hmissing _] | (_ & _ & ->)].
      - rewrite Hc, Hs in Hmissing. discriminate.
      - rewrite Hresponse. unfold ret, verdict, Crop.routeAfterApprover.
        rewrite Hrejected. reflexivity. }
    assert (H2 : step agent "addRejectionFeedback" s1 w1 = (Ok ("llmCall", rejected), w1)).
    { subst agent. rewrite Crop_step_addRejectionFeedback. reflexivity. }
    assert (H3 : exists nxt s3,
               step agent "llmCall" rejected w1
               = (Ok (nxt, s3),
                  w1 ++ [ModelInvoke (SystemMessage (Str prompt) :: Crop.messages rejected)])
               /\ Crop.messages s3 = Crop.messages s ++ [note; AIMsg reply]
               /\ Crop.approval s3 = Crop.pending).
    { subst agent. rewrite Crop_step_llmCall. unfold bind.
      rewrite (Crop_llmNode_reply chatModel rejected w1 reply Hreply).
      unfold ret. eexists _, _. split; [reflexivity|]. split; [|reflexivity].
      cbn [Crop.MessagesState Crop.messages Crop.upd_messages rejected].
      unfold Crop.messages_reducer, Array_concat. now rewrite <- app_assoc. }
    destruct H3 as (nxt & s3 & H3 & Hlog & Happroval).
    exists nxt, s3. split; [|split; assumption].
    rewrite !steps_S, H1. cbn [fst snd]. rewrite steps_S, H2. cbn [fst snd].
    rewrite steps_S, H3. reflexivity.
  - intros Hf. subst prompt. unfold Crop.systemPrompt.
    cbn [rejected Crop.approval Crop.feedback truthy interpolate].
    destruct (String.eqb_spec f ""); [contradiction|]. cbn [negb].
    exists ("You are a helpful assistant that can analyze images and crop them based on user requests. "
            +:+ "Follow this workflow:" +:+ newline
            +:+ "1. Analyze the original image to understand its content and dimensions"
            +:+ newline
            +:+ "2. Determine the appropriate crop area (x, y, width, height) based on the user's requirements"
            +:+ newline
            +:+ "3. Use the cropImage tool to perform the crop - you only need to provide the cropArea coordinates"
            +:+ newline +:+ newline
            +:+ "IMPORTANT: Previous crop attempt was rejected with this feedback:"
            +:+ newline),
           (newline +:+ "Please adjust your crop parameters accordingly.").
    reflexivity.
  - intros Hf. subst prompt. unfold Crop.systemPrompt.
    cbn [rejected Crop.approval Crop.feedback truthy interpolate Crop.initialState].
    now rewrite Hf.
Qed.

Lemma rejection_feedback_reaches_the_model_witness :
  let s := {| Crop.messages := CropSample.input;
              Crop.sourceImageDataUri := Some CropSample.image;
              Crop.croppedImageDataUri := Some CropSample.cropped;
              Crop.approval := Crop.pending |} in
  exists nxt s3 w3,
    steps CropSample.retrying 3 "approver" s [] = (Ok (nxt, s3), w3)
    /\ Crop.approval s3 = Crop.pending.
Proof.
  intros s.
  destruct (proj1 (rejection_feedback_reaches_the_model
                     CropSample.insistentModel CropSample.strictModel
                     CropSample.prebuiltToolNode s []
                     {| Crop.ApprovalSchema.approved := false;
                        Crop.ApprovalSchema.feedback := "subject cut off" |}
                     {| ai_content := Str ""; tool_calls := Some [CropSample.request] |}
                     eq_refl eq_refl eq_refl eq_refl eq_refl))
    as (nxt & s3 & Hsteps & _ & Happroval).
  exists nxt, s3. eexists. split; [exact Hsteps | exact Happroval].
Defined.

(** ** Data URIs *)

Lemma append_assoc (a b c : string) : (a +:+ b) +:+ c = a +:+ (b +:+ c).
Proof.
  induction a as [|ch a IH]; [reflexivity|].
  change (String ch ((a +:+ b) +:+ c) = String ch (a +:+ (b +:+ c))). now rewrite IH.
Qed.

Lemma free_of_append (sep : Ascii.ascii) (a b : string) :
  free_of sep a -> free_of sep b -> free_of sep (a +:+ b).
Proof.
  unfold free_of. induction a as [|ch a IH]; cbn; [tauto|].
  intros Ha Hb [H|H]; [apply Ha; now left|]. apply IH; [|exact Hb|exact H].
  intros H'. apply Ha. now right.
Qed.

Lemma String_split_free (sep : Ascii.ascii) (s : string) :
  free_of sep s -> CropIO.String_split sep s = [s].
Proof.
  unfold free_of.
  induction s as [|ch s IH]; cbn [CropIO.String_split list_ascii_of_string]; [reflexivity|].
  intros Hfree. destruct (Ascii.eqb_spec ch sep) as [->|_]; [exfalso; apply Hfree; now left|].
  rewrite IH; [reflexivity|]. intros H. apply Hfree. now right.
Qed.

Lemma String_split_at (sep : Ascii.ascii) (a b : string) :
  free_of sep a ->
  CropIO.String_split sep (a +:+ String sep b) = a :: CropIO.String_split sep b.
Proof.
  unfold free_of. induction a as [|ch a IH].
  - intros _. change ("" +:+ String sep b) with (String sep b).
    cbn [CropIO.String_split]. now rewrite Ascii.eqb_refl.
  - change (String ch a +:+ String sep b) with (String ch (a +:+ String sep b)).
    cbn [CropIO.String_split list_ascii_of_string]. intros Hfree.
    destruct (Ascii.eqb_spec ch sep) as [->|_]; [exfalso; apply Hfree; now left|].
    rewrite IH; [reflexivity|]. intros H. apply Hfree. now right.
Qed.

Lemma String_split_head (sep : Ascii.ascii) (s : string) :
  exists piece pieces, CropIO.String_split sep s = piece :: pieces.
Proof.
  induction s as [|ch s (piece & pieces & IH)]; cbn [CropIO.String_split]; [eauto|].
  destruct (Ascii.eqb ch sep); [eauto|]. rewrite IH. eauto.
Qed.

Lemma data_uri_split (format base64 : string) :
  free_of CropIO.comma format ->
  CropIO.String_split CropIO.comma (CropIO.data_uri format base64)
  = ("data:image/" +:+ format +:+ ";base64") :: CropIO.String_split CropIO.comma base64.
Proof.
  intros Hformat. unfold CropIO.data_uri.
  replace ("data:image/" +:+ format +:+ ";base64," +:+ base64)
    with (("data:image/" +:+ format +:+ ";base64") +:+ String CropIO.comma base64).
  - apply String_split_at. apply (free_of_append _ "data:image/").
    + unfold free_of. cbn. intros H. repeat (destruct H as [H|H]; [discriminate H|]).
      exact H.
    + apply free_of_append; [exact Hformat|].
      unfold free_of. cbn. intros H. repeat (destruct H as [H|H]; [discriminate H|]).
      exact H.
  - rewrite (append_assoc "data:image/"), (append_assoc format). reflexivity.
Qed.

Lemma base64Data_data_uri (format base64 : string) :
  free_of CropIO.comma format ->
  free_of CropIO.comma base64 ->
  CropIO.base64Data (CropIO.data_uri format base64) = Some base64.
Proof.
  intros Hformat Hpayload. unfold CropIO.base64Data.
  now rewrite (data_uri_split _ _ Hformat), (String_split_free _ _ Hpayload).
Qed.

Lemma data_uri_prefix (format base64 : string) :
  String.prefix "data:image/" (CropIO.data_uri format base64) = true.
Proof. unfold CropIO.data_uri. destruct format; reflexivity. Qed.

(** X9. A data URI built by the template of [getImageData] and [cropImage]
    starts with "data:image/", which is what the tool node of the crop agent
    looks for.  When the format has no comma, [split(",")[1]] of the URI is
    the payload up to its first comma, so the whole payload when the payload
    has no comma.  The URI [getImageData] returns is built from the bytes
    and the format of the file it read. *)
Theorem data_uri_payload (format base64 : string) :
  String.prefix "data:image/" (CropIO.data_uri format base64) = true
  /\ (free_of CropIO.comma format ->
      CropIO.base64Data (CropIO.data_uri format base64)
      = head (CropIO.String_split CropIO.comma base64)
      /\ (free_of CropIO.comma base64 ->
          CropIO.base64Data (CropIO.data_uri format base64) = Some base64))
  /\ (forall (Buffer : Type) (readFileSync : string -> Result Buffer)
             (sharp_metadata_format : Buffer -> Result (option string))
             (Buffer_toString_base64 : Buffer -> string) filename uri,
      CropIO.getImageData readFileSync sharp_metadata_format Buffer_toString_base64 filename
      = Ok uri ->
      exists buffer image_format,
        readFileSync filename = Ok buffer
        /\ sharp_metadata_format buffer = Ok image_format
        /\ uri = CropIO.data_uri (CropIO.interpolate_undefined image_format)
                   (Buffer_toString_base64 buffer)).
Proof.
  split; [apply data_uri_prefix|]. split.
  - intros Hformat. unfold CropIO.base64Data. rewrite (data_uri_split _ _ Hformat).
    split.
    + destruct (String_split_head CropIO.comma base64) as (piece & pieces & ->). reflexivity.
    + intros Hpayload. now rewrite (String_split_free _ _ Hpayload).
  - intros Buffer readFileSync sharp_metadata_format Buffer_toString_base64 filename uri.
    unfold CropIO.getImageData, CropIO.getImageFormat.
    destruct (readFileSync filename) as [buffer|e]; [|discriminate].
    destruct (sharp_metadata_format buffer) as [image_format|e] eqn:Hformat; [|discriminate].
    intros [= <-]. exists buffer, image_format. repeat split. exact Hformat.
Qed.

Lemma data_uri_payload_witness :
  CropIO.base64Data (CropIO.data_uri "webp" "UklGRg==") = Some "UklGRg=="
  /\ CropIO.base64Data CropSample.image = Some "UklGRiQAAABXRUJQ".
Proof.
  split.
  - apply (proj1 (proj2 (data_uri_payload "webp" "UklGRg=="))).
    + unfold free_of. cbn. intros H. repeat (destruct H as [H|H]; [discriminate H|]). exact H.
    + unfold free_of. cbn. intros H. repeat (destruct H as [H|H]; [discriminate H|]). exact H.
  - apply (proj1 (proj2 (data_uri_payload "webp" "UklGRiQAAABXRUJQ"))).
    + unfold free_of. cbn. intros H. repeat (destruct H as [H|H]; [discriminate H|]). exact H.
    + unfold free_of. cbn. intros H. repeat (destruct H as [H|H]; [discriminate H|]). exact H.
Defined.

(** ** The crop tool *)

Section CropTool.
Context {Buffer : Type}.
Variable sharp_metadata_format : Buffer -> Result (option string).
Variable sharp_extract : Buffer -> CropIO.CropArea -> Result Buffer.
Variable Buffer_from_base64 : string -> Buffer.
Variable Buffer_toString_base64 : Buffer -> string.

Let cropImage :=
  CropIO.cropImage sharp_metadata_format sharp_extract Buffer_from_base64
    Buffer_toString_base64.

(** What the tool computes once the payload of the source image is known. *)
Lemma cropImage_payload area state source payload :
  Crop.sourceImageDataUri state = Some source ->
  source <> "" ->
  CropIO.base64Data source = Some payload ->
  cropImage area (Some state)
  = match sharp_metadata_format (Buffer_from_base64 payload) with
    | Throw e => Throw e
    | Ok image_format =>
        match sharp_extract (Buffer_from_base64 payload) area with
        | Throw e => Throw e
        | Ok croppedBuffer =>
            Ok (CropIO.data_uri (CropIO.interpolate_undefined image_format)
                  (Buffer_toString_base64 croppedBuffer))
        end
    end.
Proof.
  intros Hsource Hnonempty Hpayload. subst cropImage. unfold CropIO.cropImage.
  rewrite Hsource. destruct (String.eqb_spec source ""); [contradiction|].
  rewrite Hpayload. reflexivity.
Qed.

Lemma cropImage_Ok area configurable uri :
  cropImage area configurable = Ok uri ->
  exists image_format base64, uri = CropIO.data_uri image_format base64.
Proof.
  subst cropImage. unfold CropIO.cropImage, CropIO.getImageFormat.
  destruct configurable as [state|]; [|discriminate].
  destruct (Crop.sourceImageDataUri state) as [source|]; [|discriminate].
  destruct (String.eqb source ""); [discriminate|].
  destruct (CropIO.base64Data source) as [payload|]; [|discriminate].
  destruct (sharp_metadata_format _) as [image_format|e]; [|discriminate].
  destruct (sharp_extract _ _) as [croppedBuffer|e]; [|discriminate].
  intros [= <-]. eauto.
Qed.
End CropTool.

(** X10. The crop tool fails with an [Error] when it is given no state, no
    source image or an empty one, and with a [TypeError] when the source
    image has no comma; in both cases before the image library is used.
    Whatever it returns is a data URI that starts with "data:image/", so a
    tool result with that content is what the tool node stores as the
    cropped image.  On a source image built by [getImageData] from a file,
    with an encoding that decodes back and has no comma, the tool crops the
    bytes of that file. *)
Theorem cropImage_behaviour
    (Buffer : Type)
    (sharp_metadata_format : Buffer -> Result (option string))
    (sharp_extract : Buffer -> CropIO.CropArea -> Result Buffer)
    (Buffer_from_base64 : string -> Buffer)
    (Buffer_toString_base64 : Buffer -> string)
    (area : CropIO.CropArea) :
  let cropImage :=
    CropIO.cropImage sharp_metadata_format sharp_extract Buffer_from_base64
      Buffer_toString_base64 in
  cropImage area None = Throw "Error"
  /\ (forall state,
      truthy (Crop.sourceImageDataUri state) = false ->
      cropImage area (Some state) = Throw "Error")
  /\ (forall state source,
      Crop.sourceImageDataUri state = Some source ->
      source <> "" -> free_of CropIO.comma source ->
      cropImage area (Some state) = Throw "TypeError")
  /\ (forall configurable uri,
      cropImage area configurable = Ok uri ->
      String.prefix "data:image/" uri = true
      /\ forall result rest previous,
          tool_content result = Str uri ->
          Crop.first_image (ToolMsg result :: rest) previous = Some uri)
  /\ (forall state buffer image_format,
      Crop.sourceImageDataUri state
      = Some (CropIO.data_uri image_format (Buffer_toString_base64 buffer)) ->
      free_of CropIO.comma image_format ->
      free_of CropIO.comma (Buffer_toString_base64 buffer) ->
      Buffer_from_base64 (Buffer_toString_base64 buffer) = buffer ->
      cropImage area (Some state)
      = match sharp_metadata_format buffer with
        | Throw e => Throw e
        | Ok cropped_format =>
            match sharp_extract buffer area with
            | Throw e => Throw e
            | Ok croppedBuffer =>
                Ok (CropIO.data_uri (CropIO.interpolate_undefined cropped_format)
                      (Buffer_toString_base64 croppedBuffer))
            end
        end).
Proof.
  intros cropImage. split; [reflexivity|]. split; [|split; [|split]].
  - intros state Hfalsy. subst cropImage. unfold CropIO.cropImage.
    destruct (Crop.sourceImageDataUri state) as [source|]; [|reflexivity].
    cbn in Hfalsy. destruct (String.eqb source ""); [reflexivity | discriminate].
  - intros state source Hsource Hnonempty Hfree. subst cropImage. unfold CropIO.cropImage.
    rewrite Hsource. destruct (String.eqb_spec source ""); [contradiction|].
    unfold CropIO.base64Data. now rewrite (String_split_free _ _ Hfree).
  - intros configurable uri Hok.
    apply cropImage_Ok in Hok as (image_format & base64 & ->).
    split; [apply data_uri_prefix|].
    intros result rest previous Hcontent.
    cbn [Crop.first_image content]. rewrite Hcontent.
    now rewrite data_uri_prefix.
  - intros state buffer image_format Hsource Hformat Hpayload Hdecode.
    subst cropImage.
    rewrite (cropImage_payload _ _ _ _ area state _ (Buffer_toString_base64 buffer) Hsource).
    + now rewrite Hdecode.
    + unfold CropIO.data_uri. destruct image_format; discriminate.
    + now apply base64Data_data_uri.
Qed.

Lemma cropImage_behaviour_witness :
  let state := {| Crop.messages := CropSample.input;
                  Crop.sourceImageDataUri := Some CropSample.image;
                  Crop.croppedImageDataUri := None;
                  Crop.approval := Crop.pending |} in
  let area := {| CropIO.x := 0; CropIO.y := 0; CropIO.width := 9; CropIO.height := 16 |} in
  CropIO.cropImage (Buffer := string)
    (fun _ => Ok (Some "webp")) (fun _ _ => Ok "UklGRg==") (fun s => s) (fun b => b)
    area (Some state)
  = Ok CropSample.cropped.
Proof.
  intros state area.
  rewrite (proj2 (proj2 (proj2 (proj2
             (cropImage_behaviour string (fun _ => Ok (Some "webp"))
                (fun _ _ => Ok "UklGRg==") (fun s => s) (fun b => b) area))))
             state "UklGRiQAAABXRUJQ" "webp" eq_refl).
  - reflexivity.
  - unfold free_of. cbn. intros H. repeat (destruct H as [H|H]; [discriminate H|]). exact H.
  - unfold free_of. cbn. intros H. repeat (destruct H as [H|H]; [discriminate H|]). exact H.
  - reflexivity.
Defined.

(** ** Scanning the log again *)

Lemma length_truthy (v : option string) : 0 < length_of v -> truthy v = true.
Proof.
  destruct v as [c|]; cbn; [|lia].
  destruct c; cbn; [lia | reflexivity].
Qed.

Lemma scan_parts_fixed (parts : list ContentPart) (cur : option string) :
  Forall (fun url => String.length url <= length_of cur) (omap Crop.part_image_url parts) ->
  Crop.scan_parts parts cur = cur.
Proof.
  induction parts as [|part rest IH]; [reflexivity|].
  cbn [Crop.scan_parts omap list_omap].
  destruct part as [t|[url|]|t]; cbn [Crop.part_image_url]; try exact IH.
  destruct (String.eqb_spec url "") as [|Hne]; cbn [negb]; [exact IH|].
  intros [Hurl Hrest]%Forall_cons.
  assert (Hpos : 0 < String.length url) by (destruct url; [congruence | cbn; lia]).
  rewrite (length_truthy cur) by lia. cbn [negb orb].
  destruct (Nat.ltb_spec (length_of cur) (String.length url)); [lia|].
  now apply IH.
Qed.

Lemma scan_messages_fixed (log : list BaseMessage) (cur : option string) :
  Forall (fun url => String.length url <= length_of cur) (Crop.log_image_urls log) ->
  Crop.scan_messages log cur = cur.
Proof.
  induction log as [|msg rest IH]; [reflexivity|].
  cbn [Crop.scan_messages Crop.log_image_urls flat_map]. fold (Crop.log_image_urls rest).
  unfold Crop.message_image_urls.
  destruct (content msg) as [c|parts]; [exact IH|].
  intros [Hparts Hrest]%Forall_app.
  rewrite (scan_parts_fixed _ _ Hparts). now apply IH.
Qed.

Lemma scan_messages_app (log added : list BaseMessage) (cur : option string) :
  Crop.scan_messages (log ++ added) cur
  = Crop.scan_messages added (Crop.scan_messages log cur).
Proof.
  revert cur. induction log as [|msg rest IH]; intros cur; [reflexivity|].
  cbn [app Crop.scan_messages]. apply IH.
Qed.

(** X14. The model-call node scans the whole log at every call, starting
    from the stored source image.  Scanning a log again from the result of
    an earlier scan of it changes nothing, so scanning the grown log from the
    stored value gives what scanning only the new messages would give: the
    repeated scan never replaces the stored image by an image of the part of
    the log already scanned. *)
Theorem source_scan_is_incremental (log added : list BaseMessage) (cur : option string) :
  Crop.scan_messages log (Crop.scan_messages log cur) = Crop.scan_messages log cur
  /\ Crop.scan_messages (log ++ added) (Crop.scan_messages log cur)
     = Crop.scan_messages added (Crop.scan_messages log cur).
Proof.
  assert (Hfixed : Crop.scan_messages log (Crop.scan_messages log cur)
                   = Crop.scan_messages log cur).
  { apply scan_messages_fixed. apply scan_messages_spec. }
  split; [exact Hfixed|]. now rewrite scan_messages_app, Hfixed.
Qed.

(** ** The requests the tool node of [langgraph.ts] can serve *)

Lemma z_number_Some (v : option JValue) (f : float) :
  z_number v = Some f <-> v = Some (JNumber f) /\ PrimFloat.is_nan f = false.
Proof.
  unfold z_number. split.
  - destruct v as [[| b | g | t]|]; try discriminate.
    destruct (PrimFloat.is_nan g) eqn:Hnan; [discriminate|]. now intros [= <-].
  - intros [-> Hnan]. now rewrite Hnan.
Qed.

Lemma add_schema_Some (args : gmap string JValue) (a b : float) :
  schema Langgraph.add args = Some (a, b)
  <-> z_number (args !! "a") = Some a /\ z_number (args !! "b") = Some b.
Proof.
  cbn. split.
  - destruct (z_number (args !! "a")) as [a'|]; [|discriminate].
    destruct (z_number (args !! "b")) as [b'|]; [|discriminate].
    now intros [= <- <-].
  - now intros [-> ->].
Qed.



(** ** The nodes a run visits *)

(** X15. The routers only name nodes that the graphs declare.  At every
    configuration of a run the node about to run is [llmCall], [toolNode]
    (in the crop agent also [approver] or [addRejectionFeedback]) or the
    end, and unless it is the end the graph has a node of that name: a run
    never stops on an unknown node name. *)
Theorem runs_stay_on_declared_nodes :
  (forall chatModel JSON_stringify input cur s w,
      let agent := Langgraph.agent chatModel JSON_stringify in
      reachable agent input cur s w ->
      (cur = "llmCall" \/ cur = "toolNode" \/ cur = END)
      /\ (cur <> END -> is_Some (nodes agent !! cur)))
  /\ (forall chatModel prebuiltToolNode input cur s w,
      let agent := Calculator.agent chatModel prebuiltToolNode in
      reachable agent input cur s w ->
      (cur = "llmCall" \/ cur = "toolNode" \/ cur = END)
      /\ (cur <> END -> is_Some (nodes agent !! cur)))
  /\ (forall chatModel structuredModel prebuiltToolNode input cur s w,
      let agent := Crop.agent chatModel structuredModel prebuiltToolNode in
      reachable agent (Crop.initialState input) cur s w ->
      (in_loop cur \/ cur = END)
      /\ (cur <> END -> is_Some (nodes agent !! cur))).
Proof.
  split; [|split].
  - intros chatModel JSON_stringify input cur s w agent Hreach.
    apply Langgraph_run_shape in Hreach as [_ [-> | [[-> _] | [-> _]]]].
    + split; [now left|]. intros _. eexists. reflexivity.
    + split; [right; now left|]. intros _. eexists. reflexivity.
    + split; [right; now right|]. intros H. contradiction.
  - intros chatModel prebuiltToolNode input cur s w agent Hreach.
    apply Calculator_run_shape in Hreach as [_ [-> | [[-> _] | [-> _]]]].
    + split; [now left|]. intros _. eexists. reflexivity.
    + split; [right; now left|]. intros _. eexists. reflexivity.
    + split; [right; now right|]. intros H. contradiction.
  - intros chatModel structuredModel prebuiltToolNode input cur s w agent Hreach.
    apply Crop_run_shape in Hreach as [-> | [[-> _] | [-> | [[-> _] | [-> _]]]]].
    + split; [left; now left|]. intros _. eexists. reflexivity.
    + split; [left; right; now left|]. intros _. eexists. reflexivity.
    + split; [left; right; right; now left|]. intros _. eexists. reflexivity.
    + split; [left; right; right; now right|]. intros _. eexists. reflexivity.
    + split; [now right|]. intros H. contradiction.
Qed.

Lemma runs_stay_on_declared_nodes_witness :
  exists s w,
    reachable CropSample.retrying (Crop.initialState CropSample.input)
      "addRejectionFeedback" s w
    /\ is_Some (nodes CropSample.retrying !! "addRejectionFeedback").
Proof.
  eassert (Hreach : reachable CropSample.retrying (Crop.initialState CropSample.input)
                      "addRejectionFeedback" _ _).
  { eapply (steps_reachable _ _ 3 "llmCall"); [exact (reachable_start _ _)|].
    vm_compute. reflexivity. }
  eexists _, _. split; [exact Hreach|].
  apply (proj2 (proj2 runs_stay_on_declared_nodes) _ _ _ _ _ _ _ Hreach).
  discriminate.
Defined.

(** ** The source image and the feedback along a run of the crop agent *)

Section CropImages.
Variable chatModel : list (Call Crop.State) -> list BaseMessage -> Result AIMessage.
Variable structuredModel :
  list (Call Crop.State) -> list BaseMessage -> Result Crop.ApprovalSchema.t.
Variable prebuiltToolNode : list (Call Crop.State) -> Crop.State -> Result (list BaseMessage).
Variable input : list BaseMessage.

Let agent := Crop.agent chatModel structuredModel prebuiltToolNode.

Lemma source_present_invariant cur s w :
  Crop.log_image_urls input <> [] ->
  reachable agent (Crop.initialState input) cur s w ->
  (cur = "llmCall" /\ s = Crop.initialState input)
  \/ 0 < length_of (Crop.sourceImageDataUri s).
Proof.
  intros Himage. induction 1 as [|cur s w nxt s' w' Hreach IH Hstep].
  - left. split; reflexivity.
  - right. destruct IH as [[-> ->] | Hpos].
    + apply Crop_step_inv in Hstep as (u & -> & [H|[H|[H|H]]]);
        destruct H as (Hcur & Hnode & _); try discriminate Hcur.
      apply Crop_llmNode_Ok in Hnode as (reply & _ & -> & _).
      cbn [Crop.MessagesState Crop.sourceImageDataUri Crop.upd_sourceImageDataUri
           Crop.sourceImageDataUri_reducer Crop.initialState Crop.messages].
      destruct (scan_messages_spec input None) as (_ & Hall & _).
      destruct (Crop.log_image_urls input) as [|url urls] eqn:Hurls; [contradiction|].
      apply Forall_cons in Hall as [Hurl _].
      assert (Hin : url ∈ Crop.log_image_urls input) by (rewrite Hurls; apply list_elem_of_here).
      apply log_image_urls_nonempty in Hin.
      destruct (Crop.scan_messages input None); cbn in *; lia.
    + pose proof (source_length_step _ _ _ _ _ _ _ _ _ Hstep). lia.
Qed.

(** At the feedback node the approval record holds a rejection with a
    feedback text. *)
Lemma feedback_present_invariant cur s w :
  reachable agent (Crop.initialState input) cur s w ->
  cur = "addRejectionFeedback" ->
  Crop.status (Crop.approval s) = "rejected"
  /\ exists f, Crop.feedback (Crop.approval s) = Some f.
Proof.
  induction 1 as [|cur s w nxt s' w' Hreach _ Hstep]; [discriminate|].
  apply Crop_step_inv in Hstep as (u & -> & [H|[H|[H|H]]]);
    destruct H as (-> & Hnode & ->); try discriminate.
  - apply Crop_llmNode_Ok in Hnode as (reply & _ & -> & _).
    rewrite (routeAfterLLM_after_reply _ (Crop.messages s) reply) by reflexivity.
    destruct (has_length (tool_calls reply)); discriminate.
  - intros Hroute.
    destruct (approverNode_cases structuredModel s w) as [[_ Hrun] | (_ & _ & Hrun)];
      rewrite Hrun in Hnode.
    + injection Hnode as <- _. split; [reflexivity | eexists; reflexivity].
    + destruct (structuredModel w (approval_request s)) as [response|e]; [|discriminate].
      injection Hnode as <- _.
      unfold Crop.routeAfterApprover, verdict in Hroute.
      cbn [Crop.MessagesState approval_update Crop.upd_approval Crop.approval_reducer
           Crop.approval Crop.status] in Hroute.
      cbn [Crop.MessagesState approval_update Crop.upd_approval Crop.approval_reducer
           Crop.approval Crop.status Crop.feedback verdict].
      destruct (Crop.ApprovalSchema.approved response).
      * exfalso. revert Hroute. change (String.eqb "approved" "approved") with true.
        cbv iota. discriminate.
      * split; [reflexivity | eexists; reflexivity].
Qed.
End CropImages.

(** X16. In a run of the crop agent whose input log holds an image, the
    source image is there from the first model call on: at every later
    configuration [sourceImageDataUri] is a non-empty string.  So the tool
    node always hands a source image to the crop tool, and the evaluation
    node takes its short cut only for a missing crop. *)
Theorem source_image_present_after_first_call
    (chatModel : list (Call Crop.State) -> list BaseMessage -> Result AIMessage)
    (structuredModel : list (Call Crop.State) -> list BaseMessage -> Result Crop.ApprovalSchema.t)
    (prebuiltToolNode : list (Call Crop.State) -> Crop.State -> Result (list BaseMessage))
    (input : list BaseMessage) (cur : string) (s : Crop.State) (w : list (Call Crop.State)) :
  Crop.log_image_urls input <> [] ->
  reachable (Crop.agent chatModel structuredModel prebuiltToolNode)
    (Crop.initialState input) cur s w ->
  (cur <> "llmCall" -> truthy (Crop.sourceImageDataUri s) = true)
  /\ (cur = "llmCall" ->
      s = Crop.initialState input \/ truthy (Crop.sourceImageDataUri s) = true)
  /\ (cur = "approver" ->
      truthy (Crop.croppedImageDataUri s) = false <->
      exists u, Crop.approverNode structuredModel s w = (Ok u, w)).
Proof.
  intros Himage Hreach.
  pose proof (source_present_invariant _ _ _ _ _ _ _ Himage Hreach) as Hinv.
  split; [|split].
  - intros Hcur. destruct Hinv as [[H _] | Hpos]; [contradiction|].
    now apply length_truthy.
  - intros _. destruct Hinv as [[_ H] | Hpos]; [now left|]. right. now apply length_truthy.
  - intros ->. destruct Hinv as [[H _] | Hpos]; [discriminate H|].
    apply length_truthy in Hpos.
    destruct (approverNode_cases structuredModel s w) as [[Hmissing Hrun] | (Hc & _ & Hrun)].
    + rewrite Hpos, andb_true_r in Hmissing. split; [|intros _; exact Hmissing].
      intros _. eexists. exact Hrun.
    + rewrite Hc. split; [discriminate|]. intros [u Hu]. rewrite Hrun in Hu.
      injection Hu as _ Hw. exfalso.
      apply (f_equal length) in Hw. rewrite length_app in Hw. cbn in Hw. lia.
Qed.

Lemma source_image_present_after_first_call_witness :
  exists s w,
    reachable CropSample.agent (Crop.initialState CropSample.input) "approver" s w
    /\ truthy (Crop.sourceImageDataUri s) = true.
Proof.
  eassert (Hreach : reachable CropSample.agent (Crop.initialState CropSample.input)
                      "approver" _ _).
  { eapply (steps_reachable _ _ 2 "llmCall"); [exact (reachable_start _ _)|].
    vm_compute. reflexivity. }
  eexists _, _. split; [exact Hreach|].
  apply (source_image_present_after_first_call CropSample.chatModel
           CropSample.structuredModel CropSample.prebuiltToolNode CropSample.input
           _ _ _ ltac:(discriminate) Hreach).
  discriminate.
Defined.

(** X17. In a run of the crop agent the feedback node is only reached with
    a rejection that has a feedback text: the text of the evaluation model,
    or the fixed text of the short cut.  Its step calls nothing, appends one
    human message that quotes that text, never the word null, changes no
    other field, and goes back to the model call. *)
Theorem feedback_note_quotes_the_feedback
    (chatModel : list (Call Crop.State) -> list BaseMessage -> Result AIMessage)
    (structuredModel : list (Call Crop.State) -> list BaseMessage -> Result Crop.ApprovalSchema.t)
    (prebuiltToolNode : list (Call Crop.State) -> Crop.State -> Result (list BaseMessage))
    (input : list BaseMessage) (s : Crop.State) (w : list (Call Crop.State)) :
  let agent := Crop.agent chatModel structuredModel prebuiltToolNode in
  reachable agent (Crop.initialState input) "addRejectionFeedback" s w ->
  exists f,
    Crop.approval s = {| Crop.status := "rejected"; Crop.feedback := Some f |}
    /\ step agent "addRejectionFeedback" s w
       = (Ok ("llmCall",
              {| Crop.messages :=
                   Crop.messages s
                   ++ [HumanMessage (Str ("The crop was rejected. Feedback: " +:+ f
                                          +:+ newline +:+ newline
                                          +:+ "Please try again with adjusted crop parameters."))];
                 Crop.sourceImageDataUri := Crop.sourceImageDataUri s;
                 Crop.croppedImageDataUri := Crop.croppedImageDataUri s;
                 Crop.approval := Crop.approval s |}),
          w).
Proof.
  intros agent Hreach.
  destruct (feedback_present_invariant _ _ _ _ _ _ _ Hreach eq_refl) as (Hstatus & f & Hf).
  exists f. split.
  - destruct (Crop.approval s) as [st fb]. cbn in *. now subst.
  - subst agent. rewrite Crop_step_addRejectionFeedback.
    cbv [bind Crop.addRejectionFeedback ret]. rewrite Hf. reflexivity.
Qed.

Lemma feedback_note_quotes_the_feedback_witness :
  exists s w f,
    reachable CropSample.retrying (Crop.initialState CropSample.input)
      "addRejectionFeedback" s w
    /\ Crop.approval s = {| Crop.status := "rejected"; Crop.feedback := Some f |}
    /\ f = "subject cut off".
Proof.
  eassert (Hreach : reachable CropSample.retrying (Crop.initialState CropSample.input)
                      "addRejectionFeedback" _ _).
  { eapply (steps_reachable _ _ 3 "llmCall"); [exact (reachable_start _ _)|].
    vm_compute. reflexivity. }
  destruct (feedback_note_quotes_the_feedback CropSample.insistentModel
              CropSample.strictModel CropSample.prebuiltToolNode CropSample.input
              _ _ Hreach) as (f & Happroval & _).
  eexists _, _, f. split; [exact Hreach|]. split; [exact Happroval|].
  now injection Happroval as <-.
Defined.

(** ** The first request that cannot be served *)

Section ToolNodeFailure.
Variable JSON_stringify : float -> string.

Lemma toolNode_loop_served (served rest : list ToolCall) :
  Forall Langgraph.servable served ->
  exists observations,
    Forall2 (Langgraph.answers JSON_stringify) served observations
    /\ forall result w,
        Langgraph.toolNode_loop JSON_stringify (served ++ rest) result w
        = Langgraph.toolNode_loop JSON_stringify rest (result ++ observations)
            (w ++ Langgraph.invocations served).
Proof.
  induction 1 as [|toolCall served (tool & Htool & [input Hinput]) _ (observations & Hans & IH)].
  - exists []. split; [constructor|]. intros result w. cbn. now rewrite !app_nil_r.
  - eexists (_ :: observations). split.
    + constructor; [|exact Hans]. exists tool, input. repeat split; eassumption.
    + intros result w. cbn [app Langgraph.toolNode_loop]. rewrite Htool.
      unfold bind at 1. unfold tool_invoke, external. rewrite Hinput.
      rewrite IH. rewrite <- !app_assoc. cbn.
      now destruct (toolsByName_lookup _ _ Htool) as [-> ->].
Qed.

Lemma toolNode_loop_bad (bad : ToolCall) (rest : list ToolCall) result w :
  ~ Langgraph.servable bad ->
  Langgraph.toolNode_loop JSON_stringify (bad :: rest) result w
  = if String.eqb (call_name bad) "add"
    then (Throw "ToolInputParsingException", w ++ [ToolInvoke "add" bad])
    else (Throw "TypeError", w).
Proof.
  intros Hbad. cbn [Langgraph.toolNode_loop].
  destruct (String.eqb_spec (call_name bad) "add") as [Hname|Hname].
  - rewrite Hname. change (Langgraph.toolsByName !! "add") with (Some Langgraph.add).
    unfold bind, tool_invoke, external.
    destruct (schema Langgraph.add (call_args bad)) as [input|] eqn:Hinput; [|reflexivity].
    exfalso. apply Hbad. exists Langgraph.add. rewrite Hname. split; [reflexivity|].
    rewrite Hinput. eauto.
  - destruct (Langgraph.toolsByName !! call_name bad) as [tool|] eqn:Htool; [|reflexivity].
    apply toolsByName_lookup in Htool as [Heq _]. contradiction.
Qed.
End ToolNodeFailure.

(** X18. The tool node of [langgraph.ts] serves the requests in order and
    stops at the first one it cannot serve.  The tools of the requests before
    it have been invoked, but their results are not returned; the requests
    after it are never invoked.  A request under an unknown name fails with a
    [TypeError] before any invocation; a request for [add] with rejected
    arguments fails inside the invocation of [add]. *)
Theorem tool_node_stops_at_first_bad_request
    (JSON_stringify : float -> string) (s : Langgraph.State) (ai : AIMessage)
    (served : list ToolCall) (bad : ToolCall) (rest : list ToolCall)
    (w : list (Call Langgraph.State)) :
  last (Langgraph.messages s) = Some (AIMsg ai) ->
  tool_calls ai = Some (served ++ bad :: rest) ->
  Forall Langgraph.servable served ->
  ~ Langgraph.servable bad ->
  Langgraph.toolNode JSON_stringify s w
  = if String.eqb (call_name bad) "add"
    then (Throw "ToolInputParsingException",
          w ++ Langgraph.invocations served ++ [ToolInvoke "add" bad])
    else (Throw "TypeError", w ++ Langgraph.invocations served).
Proof.
  intros Hlast Hcalls Hserved Hbad.
  rewrite (toolNode_latest _ _ _ Hlast). cbn [isAIMessage negb message_tool_calls].
  rewrite Hcalls. cbn [default]. unfold bind.
  destruct (toolNode_loop_served JSON_stringify served (bad :: rest) Hserved)
    as (observations & _ & ->).
  rewrite (toolNode_loop_bad _ _ _ _ _ Hbad).
  destruct (String.eqb (call_name bad) "add"); [|reflexivity].
  now rewrite <- app_assoc.
Qed.

Lemma tool_node_stops_at_first_bad_request_witness :
  let good := ArithSample.add_3_4 "call_1" in
  let bad := ArithSample.multiply_3_4 in
  let ai := {| ai_content := Str ""; tool_calls := Some [good; bad; good] |} in
  let s := {| Langgraph.messages := [HumanMessage (Str "Add 3 and 4."); AIMsg ai] |} in
  Langgraph.toolNode ArithSample.JSON_stringify s []
  = (Throw "TypeError", [ToolInvoke "add" good]).
Proof.
  intros good bad ai s.
  apply (tool_node_stops_at_first_bad_request ArithSample.JSON_stringify s ai
           [good] bad [good] [] eq_refl eq_refl).
  - constructor; [|constructor].
    exists Langgraph.add. split; [reflexivity|]. vm_compute. eauto.
  - intros (tool & Htool & _). vm_compute in Htool. discriminate Htool.
Defined.

(** ** Counting the log of the hand-written agent *)

Lemma tool_invocations_app {State : Type} (w1 w2 : list (Call State)) :
  tool_invocations (w1 ++ w2) = tool_invocations w1 ++ tool_invocations w2.
Proof. unfold tool_invocations. apply omap_app. Qed.

Lemma tool_invocations_invocations (calls : list ToolCall) :
  tool_invocations (Langgraph.invocations calls) = calls.
Proof.
  induction calls as [|c calls IH]; [reflexivity|].
  change (tool_invocations (Langgraph.invocations (c :: calls)))
    with (c :: tool_invocations (Langgraph.invocations calls)).
  now rewrite IH.
Qed.

(** X19. In a run of the hand-written agent every model call adds exactly
    one message to the log and every tool invocation adds exactly one tool
    result: at every configuration the log has as many entries as the input
    log, the model calls and the tool invocations together, and as many tool
    results as the input log had plus one per tool invocation. *)
Theorem log_counts_calls
    (chatModel : list (Call Langgraph.State) -> list BaseMessage -> Result AIMessage)
    (JSON_stringify : float -> string)
    (input : Langgraph.State) (cur : string) (s : Langgraph.State)
    (w : list (Call Langgraph.State)) :
  reachable (Langgraph.agent chatModel JSON_stringify) input cur s w ->
  length (Langgraph.messages s)
  = length (Langgraph.messages input) + length (model_logs w) + length (tool_invocations w)
  /\ length (tool_results (Langgraph.messages s))
     = length (tool_results (Langgraph.messages input)) + length (tool_invocations w).
Proof.
  induction 1 as [|cur s w nxt s' w' Hreach [IHlog IHresults] Hstep].
  - cbn. split; lia.
  - apply Langgraph_step_inv in Hstep
      as [(_ & reply & _ & -> & -> & _) | (_ & obs & -> & Hans & -> & _)].
    + rewrite model_logs_app, tool_invocations_app, !length_app. cbn.
      unfold tool_results in *. rewrite omap_app, length_app. cbn. split; lia.
    + rewrite model_logs_app, tool_invocations_app, model_logs_invocations,
        tool_invocations_invocations, !length_app, length_fmap.
      apply Forall2_length in Hans.
      unfold tool_results in *. rewrite omap_app, length_app.
      replace (length (omap _ (ToolMsg <$> obs))) with (length obs).
      * cbn. split; lia.
      * clear. induction obs as [|o obs IH]; [reflexivity|]. cbn. now rewrite <- IH.
Qed.

Lemma log_counts_calls_witness :
  exists final w,
    invoke (ArithSample.agent [ArithSample.add_3_4 "call_1"]) 25 ArithSample.input []
    = (Ok final, w)
    /\ length (model_logs w) = 2
    /\ length (tool_invocations w) = 1
    /\ length (Langgraph.messages final) = 1 + 2 + 1.
Proof.
  eassert (Hrun : invoke (ArithSample.agent [ArithSample.add_3_4 "call_1"]) 25
                    ArithSample.input [] = (Ok _, _)).
  { vm_compute. reflexivity. }
  eexists _, _. split; [exact Hrun|]. split; [reflexivity|]. split; [reflexivity|].
  apply invoke_reachable in Hrun.
  apply (proj1 (log_counts_calls _ _ _ _ _ _ Hrun)).
Defined.
